(** * Feature ablation for multimodal brain-age prediction

    A shallow embedding of the helper functions of the notebook
    [multimodal_ML_brain_age_ridge_feat_selection_cleaned.ipynb]:
    [train_model], [predict_ages], [evaluate_feature_ablation],
    [calculate_mae] and [plot_scatter_with_regression], together with the
    fragments of pandas and numpy they rely on.

    Conventions.
    - Python exceptions are values of [exn]; fallible code returns
      [result].
    - scikit-learn is an interface ([Sklearn]). Each of its calls either
      raises or returns; which of the two, and the exception or the value,
      is given by the interface. Every call the notebook makes is
      recorded, in order, in a log, whether it returns or raises ([M] is a
      writer monad over [result]).
    - The control flow, the shapes and the errors of the pipeline are
      embedded over exact rationals ([Q]) in place of float64 values;
      there the one non-number kept is the [nan] that [np.mean] returns on
      an empty array ([float64]).
    - The arithmetic of [np.round] and of [np.mean] is embedded a second
      time on binary64 floats, bit for bit (module [Binary64]), for the
      properties that depend on rounding, overflow, underflow or [nan]. *)

From Stdlib Require Import List String Ascii Bool Arith ZArith QArith Qabs Qround Qminmax.
From Stdlib Require Import Reals Qreals Lra.
From Stdlib Require Import Lia Lqa DecimalString Permutation.
From Stdlib Require Import Floats Uint63.
Import ListNotations.

#[local] Set Warnings "-inexact-float".

Local Open Scope string_scope.
Local Open Scope list_scope.

(** ** Exceptions and results *)

Definition label := string.

Inductive exn : Type :=
| KeyError (missing : list label)
| ValueError (msg : string).

Inductive result (A : Type) : Type :=
| Ok (a : A)
| Raise (e : exn).

Arguments Ok {A} a.
Arguments Raise {A} e.

Definition rbind {A B : Type} (r : result A) (k : A -> result B) : result B :=
  match r with
  | Ok a => k a
  | Raise e => Raise e
  end.

Definition is_raise {A : Type} (r : result A) : bool :=
  match r with
  | Ok _ => false
  | Raise _ => true
  end.

(** ** numpy: one-dimensional float arrays

    The arrays of this part hold exact rationals: sums, quotients and
    roundings are those of the rationals, without rounding error,
    overflow, underflow, infinities or [nan] entries. They carry the
    shapes, the broadcasting and the errors of the numpy operations. What
    numpy computes on float64 entries is in the module [Binary64]. *)

Definition ndarray1 := list Q.

(** The value of [np.mean] in exact arithmetic: a number, or [nan] on an
    empty array. *)
Inductive float64 : Type :=
| Fin (q : Q)
| NaN.

Definition string_of_nat (n : nat) : string :=
  NilEmpty.string_of_uint (Nat.to_uint n).

Definition shape1 (n : nat) : string := "(" ++ string_of_nat n ++ ",)".

Definition broadcast_error (n m : nat) : exn :=
  ValueError ("operands could not be broadcast together with shapes "
              ++ shape1 n ++ " " ++ shape1 m ++ " ").

Fixpoint zip_sub (a b : ndarray1) : ndarray1 :=
  match a, b with
  | x :: a', y :: b' => (x - y)%Q :: zip_sub a' b'
  | _, _ => []
  end.

(** [a - b] on arrays of shapes [(n,)] and [(m,)]: elementwise when
    [n = m]; an operand of length 1 is stretched over the other; any other
    pair of shapes raises. *)
Definition np_sub (a b : ndarray1) : result ndarray1 :=
  if Nat.eqb (List.length a) (List.length b) then Ok (zip_sub a b)
  else match a, b with
       | [x], _ => Ok (map (fun y => (x - y)%Q) b)
       | _, [y] => Ok (map (fun x => (x - y)%Q) a)
       | _, _ => Raise (broadcast_error (List.length a) (List.length b))
       end.

Definition np_abs (a : ndarray1) : ndarray1 := map Qabs a.

Definition np_sum (a : ndarray1) : Q := fold_right Qplus 0%Q a.

Definition np_mean (a : ndarray1) : float64 :=
  match a with
  | [] => NaN
  | _ :: _ => Fin (np_sum a / inject_Z (Z.of_nat (List.length a)))%Q
  end.

(** The nearest integer of a rational, ties to the even one. *)
Definition rint (x : Q) : Z :=
  let f := Qfloor x in
  let r := (x - inject_Z f)%Q in
  match (r ?= 1 # 2)%Q with
  | Lt => f
  | Gt => (f + 1)%Z
  | Eq => if Z.even f then f else (f + 1)%Z
  end.

Definition pow10 (decimals : nat) : Q := inject_Z (10 ^ Z.of_nat decimals).

Definition round_scalar (decimals : nat) (x : Q) : Q :=
  (inject_Z (rint (x * pow10 decimals)) / pow10 decimals)%Q.

(** [np.round(a, decimals)] for [decimals >= 0] in exact arithmetic: the
    nearest multiple of [10^-decimals]. On float64 entries numpy rounds
    the float product, which can give the neighbouring multiple
    ([Binary64.np_round]). *)
Definition np_round (a : ndarray1) (decimals : nat) : ndarray1 :=
  map (round_scalar decimals) a.

(** [np.linspace(start, stop, num)] with the default [endpoint=True]. *)
Definition linspace (start stop : Q) (num : nat) : list Q :=
  let step := ((stop - start) / inject_Z (Z.of_nat (num - 1)))%Q in
  map (fun i => if Nat.eqb (S i) num then (if Nat.eqb i 0 then start else stop)
                else (start + inject_Z (Z.of_nat i) * step)%Q)
      (seq 0 num).

(** ** [calculate_mae] *)

Fixpoint calculate_mae_loop (predictions_list : list ndarray1) (y_test : ndarray1)
         (mae_results : list float64) : result (list float64) :=
  match predictions_list with
  | [] => Ok mae_results
  | predictions :: rest =>
      rbind (np_sub predictions y_test) (fun diff =>
      let mae := np_mean (np_abs diff) in
      calculate_mae_loop rest y_test (mae_results ++ [mae]))
  end.

Definition calculate_mae (predictions_list : list ndarray1) (y_test : ndarray1)
  : result (list float64) :=
  calculate_mae_loop predictions_list y_test [].

(** ** pandas: frames of named columns *)

(** A cell holds a number or a string. *)
Inductive cell : Type :=
| Num (q : Q)
| Text (s : string).

Definition Series := list cell.
Definition DataFrame := list (label * Series).

(** A frame after [.astype('float64')]. *)
Definition FloatFrame := list (label * ndarray1).

Definition columns {V : Type} (df : list (label * V)) : list label := map fst df.

Definition mem_label (l : label) (ls : list label) : bool :=
  existsb (String.eqb l) ls.

(** [df.drop(labels, axis=1)]: every label must name a column
    ([errors='raise']); all columns carrying a dropped label go. *)
Definition drop (df : DataFrame) (labels : list label) : result DataFrame :=
  match filter (fun l => negb (mem_label l (columns df))) labels with
  | [] => Ok (filter (fun c => negb (mem_label (fst c) labels)) df)
  | missing => Raise (KeyError missing)
  end.

(** *** [float()] on a string

    The builtin strips white space and then reads
    [[sign] (digitpart ["."] [digitpart] | "." digitpart) [exponent]],
    where a [digitpart] is a run of digits that may hold single
    underscores between digits and an [exponent] is [e] or [E], an
    optional sign and a [digitpart]. It also reads the spellings of the
    infinities and of [nan], which denote no rational. *)

Definition is_space (c : ascii) : bool :=
  let n := nat_of_ascii c in
  (Nat.leb 9 n && Nat.leb n 13) || (Nat.leb 28 n && Nat.leb n 32).

Definition is_digit (c : ascii) : bool :=
  let n := nat_of_ascii c in Nat.leb 48 n && Nat.leb n 57.

Definition digit_value (c : ascii) : Z := Z.of_nat (nat_of_ascii c - 48).

(** The rest of a [digitpart], after one of its digits. *)
Fixpoint digits_after (l : list ascii) : list Z * list ascii :=
  match l with
  | c :: l' =>
      if is_digit c then
        let (ds, rest) := digits_after l' in (digit_value c :: ds, rest)
      else if Ascii.eqb c "_" then
        match l' with
        | d :: l'' =>
            if is_digit d then
              let (ds, rest) := digits_after l'' in (digit_value d :: ds, rest)
            else ([], l)
        | [] => ([], l)
        end
      else ([], l)
  | [] => ([], [])
  end.

Definition digitpart (l : list ascii) : option (list Z * list ascii) :=
  match l with
  | c :: l' =>
      if is_digit c then
        let (ds, rest) := digits_after l' in Some (digit_value c :: ds, rest)
      else None
  | [] => None
  end.

Definition optional_sign (l : list ascii) : bool * list ascii :=
  match l with
  | c :: l' =>
      if Ascii.eqb c "-" then (true, l')
      else if Ascii.eqb c "+" then (false, l')
      else (false, l)
  | [] => (false, [])
  end.

(** Integer and fraction digits of a [number], and what follows it. *)
Definition number (l : list ascii) : option (list Z * list Z * list ascii) :=
  match digitpart l with
  | Some (ip, rest) =>
      match rest with
      | c :: rest' =>
          if Ascii.eqb c "." then
            match digitpart rest' with
            | Some (fp, rest'') => Some (ip, fp, rest'')
            | None => Some (ip, [], rest')
            end
          else Some (ip, [], rest)
      | [] => Some (ip, [], [])
      end
  | None =>
      match l with
      | c :: l' =>
          if Ascii.eqb c "." then
            match digitpart l' with
            | Some (fp, rest) => Some ([], fp, rest)
            | None => None
            end
          else None
      | [] => None
      end
  end.

(** The value of an [exponent] that takes up the whole of [l]; 0 for no
    exponent. *)
Definition exponent (l : list ascii) : option Z :=
  match l with
  | [] => Some 0%Z
  | c :: l' =>
      if Ascii.eqb c "e" || Ascii.eqb c "E" then
        let (neg, l'') := optional_sign l' in
        match digitpart l'' with
        | Some (ds, []) =>
            let v := fold_left (fun a d => (10 * a + d)%Z) ds 0%Z in
            Some (if neg then (- v)%Z else v)
        | _ => None
        end
      else None
  end.

Fixpoint lstrip (l : list ascii) : list ascii :=
  match l with
  | c :: l' => if is_space c then lstrip l' else l
  | [] => []
  end.

Definition strip (l : list ascii) : list ascii :=
  rev (lstrip (rev (lstrip l))).

Definition scale10 (m e : Z) : Q :=
  match e with
  | Zneg p => Qmake m (10 ^ p)%positive
  | _ => inject_Z (m * 10 ^ e)
  end.

(** The number [float(s)] denotes, when [s] spells a finite number. *)
Definition python_float (s : string) : option Q :=
  let (neg, l) := optional_sign (strip (list_ascii_of_string s)) in
  match number l with
  | Some (ip, fp, rest) =>
      match exponent rest with
      | Some e =>
          let m := fold_left (fun a d => (10 * a + d)%Z) (ip ++ fp) 0%Z in
          let v := scale10 m (e - Z.of_nat (List.length fp)) in
          Some (Qred (if neg then - v else v))
      | None => None
      end
  | None => None
  end.

Definition lower (c : ascii) : ascii :=
  let n := nat_of_ascii c in
  if Nat.leb 65 n && Nat.leb n 90 then ascii_of_nat (n + 32) else c.

(** The strings [float()] turns into an infinity or into [nan]. *)
Definition spells_non_finite (s : string) : bool :=
  let (_, l) := optional_sign (strip (list_ascii_of_string s)) in
  let w := string_of_list_ascii (map lower l) in
  String.eqb w "inf" || String.eqb w "infinity" || String.eqb w "nan".

(** Conversion of one cell by [astype('float64')]. A string that spells
    an infinity or [nan] converts to a value that is no rational, and
    [float()] also reads the digits and spaces of other scripts; such
    cells are outside the tables of this development
    ([unmodelled_text]), and they are not told apart here from the
    strings that [float()] rejects. *)
Definition float_of_cell (c : cell) : result Q :=
  match c with
  | Num q => Ok q
  | Text s =>
      match python_float s with
      | Some q => Ok q
      | None => Raise (ValueError ("could not convert string to float: '" ++ s ++ "'"))
      end
  end.

Fixpoint traverse {A B : Type} (f : A -> result B) (xs : list A) : result (list B) :=
  match xs with
  | [] => Ok []
  | x :: xs' =>
      rbind (f x) (fun y =>
      rbind (traverse f xs') (fun ys => Ok (y :: ys)))
  end.

(** [df.astype('float64')]. *)
Definition astype_float64 (df : DataFrame) : result FloatFrame :=
  traverse (fun c => rbind (traverse float_of_cell (snd c))
                           (fun v => Ok (fst c, v))) df.

(** [df[key]] for a column label (the first column of that name). *)
Fixpoint getitem (df : DataFrame) (key : label) : result Series :=
  match df with
  | [] => Raise (KeyError [key])
  | (l, v) :: rest => if String.eqb l key then Ok v else getitem rest key
  end.

(** ** The module [imaging_features]

    The notebook imports seven lists of column names from
    [imaging_features], which is not part of the sources: they are a
    parameter of the development. *)
Record imaging_features : Type := {
  hyperintensities_flair : list label;
  dti : list label;
  cbf : list label;
  resting_state_activation : list label;
  ventricular_volume : list label;
  surface_area : list label;
  cortical_thickness : list label
}.

(** The names of the feature sets, as the notebook lists them for
    reporting and plotting. *)
Definition feature_sets : list string :=
  [ "hyperintensities_flair"; "dti"; "cbf"; "resting_state_activation";
    "ventricular_volume"; "surface_area"; "cortical_thickness" ].

(** Resolution of a name of [feature_sets] in the imported module. *)
Definition getattr (F : imaging_features) (name : string) : option (list label) :=
  if String.eqb name "hyperintensities_flair" then Some (hyperintensities_flair F)
  else if String.eqb name "dti" then Some (dti F)
  else if String.eqb name "cbf" then Some (cbf F)
  else if String.eqb name "resting_state_activation" then Some (resting_state_activation F)
  else if String.eqb name "ventricular_volume" then Some (ventricular_volume F)
  else if String.eqb name "surface_area" then Some (surface_area F)
  else if String.eqb name "cortical_thickness" then Some (cortical_thickness F)
  else None.

(** ** scikit-learn as an interface *)

Definition ndarray2 := list (list Q).

Inductive scaler_class : Type := MinMaxScaler | StandardScaler.

Record RepeatedKFold : Type := {
  n_splits : nat;
  n_repeats : nat;
  random_state : nat
}.

Record SVR_params : Type := {
  C : Q;
  epsilon : Q;
  kernel : string
}.

Record param_grid_t : Type := {
  grid_C : list Q;
  grid_epsilon : list Q;
  grid_kernel : list string
}.

(** An estimator that has been configured but not fitted. *)
Inductive estimator : Type :=
| Ridge (alpha : R)
| SVR (params : SVR_params).

(** The fields named after an attribute or a method give the value of a
    call that returns; the fields [*_error] tell whether the call raises
    on these arguments, and what ([None]: it returns). *)
Record Sklearn : Type := {
  scaler : Type;
  model : Type;
  (** [cls().fit(X)] *)
  scaler_fit : scaler_class -> FloatFrame -> scaler;
  (** [scaler.transform(X)] *)
  scaler_transform : scaler -> FloatFrame -> ndarray2;
  (** [RidgeCV(alphas, scoring, cv).fit(X, y).alpha_] *)
  RidgeCV_alpha_ : list R -> string -> RepeatedKFold -> ndarray2 -> Series -> R;
  (** [GridSearchCV(SVR(), grid, scoring, cv, n_jobs).fit(X, y).best_params_] *)
  GridSearchCV_best_params_ :
    param_grid_t -> string -> RepeatedKFold -> Z -> ndarray2 -> Series -> SVR_params;
  (** [estimator.fit(X, y)] *)
  estimator_fit : estimator -> ndarray2 -> Series -> model;
  (** [model.predict(X)] *)
  model_predict : model -> ndarray2 -> ndarray1;
  (** the exception of [cls().fit_transform(X)] *)
  fit_transform_error : scaler_class -> FloatFrame -> option exn;
  (** the exception of [scaler.transform(X)] *)
  transform_error : scaler -> FloatFrame -> option exn;
  (** the exception of [RidgeCV(alphas, scoring, cv).fit(X, y)] *)
  RidgeCV_fit_error :
    list R -> string -> RepeatedKFold -> ndarray2 -> Series -> option exn;
  (** the exception of [GridSearchCV(SVR(), grid, scoring, cv, n_jobs).fit(X, y)] *)
  GridSearchCV_fit_error :
    param_grid_t -> string -> RepeatedKFold -> Z -> ndarray2 -> Series -> option exn;
  (** the exception of [estimator.fit(X, y)] *)
  fit_error : estimator -> ndarray2 -> Series -> option exn;
  (** the exception of [model.predict(X)] *)
  predict_error : model -> ndarray2 -> option exn
}.

(** The regularisation strengths [10**np.linspace(10, -2, 100) * 0.5]. *)
Definition ridge_alphas : list R :=
  map (fun e => (Rpower 10 (Q2R e) * Q2R (1 # 2))%R) (linspace 10 (-2) 100).

Definition svr_param_grid : param_grid_t :=
  {| grid_C := [1 # 10; 1; 10; 100]%Q;
     grid_epsilon := [1 # 100; 1 # 10; 1]%Q;
     grid_kernel := ["linear"; "rbf"] |}.

Section Pipeline.

Variable sk : Sklearn.
Variable F : imaging_features.

(** *** Logged library calls *)

Inductive call : Type :=
| Call_fit_transform (cls : scaler_class) (X : FloatFrame)
| Call_transform (s : scaler sk) (X : FloatFrame)
| Call_RidgeCV_fit (alphas : list R) (scoring : string) (cv : RepeatedKFold)
                   (X : ndarray2) (y : Series)
| Call_GridSearchCV_fit (grid : param_grid_t) (scoring : string)
                        (cv : RepeatedKFold) (n_jobs : Z) (X : ndarray2) (y : Series)
| Call_fit (e : estimator) (X : ndarray2) (y : Series)
| Call_predict (m : model sk) (X : ndarray2).

Definition M (A : Type) : Type := (list call * result A)%type.

Definition ret {A : Type} (a : A) : M A := ([], Ok a).

Definition raise {A : Type} (e : exn) : M A := ([], Raise e).

Definition lift {A : Type} (r : result A) : M A := ([], r).

Definition bind {A B : Type} (m : M A) (k : A -> M B) : M B :=
  match m with
  | (log, Ok a) => let (log', r) := k a in (log ++ log', r)
  | (log, Raise e) => (log, Raise e)
  end.

Definition calls_of {A : Type} (m : M A) : list call := fst m.
Definition result_of {A : Type} (m : M A) : result A := snd m.

Notation "x <- m ;; k" := (bind m (fun x => k))
  (at level 61, m at next level, right associativity).
Notation "' pat <- m ;; k" := (bind m (fun x => match x with pat => k end))
  (at level 61, pat pattern, m at next level, right associativity).

(** A call to the library: it is logged, and it raises or returns. *)
Definition library_call {A : Type} (c : call) (error : option exn) (value : A) : M A :=
  match error with
  | Some e => ([c], Raise e)
  | None => ([c], Ok value)
  end.

(** [scaler = cls(); scaler.fit_transform(X)]. *)
Definition fit_transform (cls : scaler_class) (X : FloatFrame)
  : M (scaler sk * ndarray2) :=
  let s := scaler_fit sk cls X in
  library_call (Call_fit_transform cls X) (fit_transform_error sk cls X)
               (s, scaler_transform sk s X).

Definition transform (s : scaler sk) (X : FloatFrame) : M ndarray2 :=
  library_call (Call_transform s X) (transform_error sk s X)
               (scaler_transform sk s X).

Definition RidgeCV_fit (alphas : list R) (scoring : string) (cv : RepeatedKFold)
           (X : ndarray2) (y : Series) : M R :=
  library_call (Call_RidgeCV_fit alphas scoring cv X y)
               (RidgeCV_fit_error sk alphas scoring cv X y)
               (RidgeCV_alpha_ sk alphas scoring cv X y).

Definition GridSearchCV_fit (grid : param_grid_t) (scoring : string)
           (cv : RepeatedKFold) (n_jobs : Z) (X : ndarray2) (y : Series)
  : M SVR_params :=
  library_call (Call_GridSearchCV_fit grid scoring cv n_jobs X y)
               (GridSearchCV_fit_error sk grid scoring cv n_jobs X y)
               (GridSearchCV_best_params_ sk grid scoring cv n_jobs X y).

Definition fit (e : estimator) (X : ndarray2) (y : Series) : M (model sk) :=
  library_call (Call_fit e X y) (fit_error sk e X y) (estimator_fit sk e X y).

Definition predict (m : model sk) (X : ndarray2) : M ndarray1 :=
  library_call (Call_predict m X) (predict_error sk m X) (model_predict sk m X).

(** *** [train_model] *)

Definition train_model (X_train : FloatFrame) (y_train : Series)
           (model_type scaler_type : string) : M (model sk * scaler sk) :=
  let cls := if String.eqb scaler_type "minmax" then MinMaxScaler
             else StandardScaler in
  '(scaler, X_train_normalized) <- fit_transform cls X_train ;;
  let cv := {| n_splits := 5; n_repeats := 10; random_state := 1 |} in
  final_model <-
    (if String.eqb model_type "ridge" then
       let alphas := ridge_alphas in
       alpha_ <- RidgeCV_fit alphas "neg_mean_absolute_error" cv
                             X_train_normalized y_train ;;
       ret (Ridge alpha_)
     else if String.eqb model_type "svm" then
       let param_grid := svr_param_grid in
       best_params_ <- GridSearchCV_fit param_grid "neg_mean_absolute_error" cv
                                        (-1)%Z X_train_normalized y_train ;;
       ret (SVR best_params_)
     else
       raise (ValueError ("Unsupported model type: " ++ model_type))) ;;
  final_model <- fit final_model X_train_normalized y_train ;;
  ret (final_model, scaler).

(** *** [predict_ages] *)

Definition predict_ages (model : model sk) (scaler : scaler sk) (X : FloatFrame)
  : M ndarray1 :=
  X_normalized <- transform scaler X ;;
  predictions <- predict model X_normalized ;;
  ret (np_round predictions 3).

(** *** [evaluate_feature_ablation] *)

Definition non_features : list label := ["Age at Visit"; "BD#"; "Dx"].

(** [df.drop(['Age at Visit', 'BD#', 'Dx'] + feature, axis=1).astype('float64')] *)
Definition drop_astype (df : DataFrame) (feature : list label) : result FloatFrame :=
  rbind (drop df (non_features ++ feature)) astype_float64.

(** The groups in the order of the [for] statement. *)
Definition ablation_order : list (list label) :=
  [ hyperintensities_flair F; dti F; cbf F; resting_state_activation F;
    ventricular_volume F; surface_area F; cortical_thickness F ].

Definition results_t : Type := (list ndarray1 * list ndarray1)%type.

(** The body of the loop, on the two result lists it appends to. *)
Definition ablation_body (df_train_control df_test_disease : DataFrame)
           (model_type scalar_type : string) (df_test_control : option DataFrame)
           (acc : results_t) (feature : list label) : M results_t :=
  let '(results_disease, results_control) := acc in
  X_train_control <- lift (drop_astype df_train_control feature) ;;
  X_test_disease <- lift (drop_astype df_test_disease feature) ;;
  y_train_control <- lift (getitem df_train_control "Age at Visit") ;;
  '(model, scaler) <- train_model X_train_control y_train_control
                                  model_type scalar_type ;;
  y_pred_disease <- predict_ages model scaler X_test_disease ;;
  let results_disease := results_disease ++ [y_pred_disease] in
  match df_test_control with
  | Some df_test_control =>
      X_test_control <- lift (drop_astype df_test_control feature) ;;
      y_pred_control <- predict_ages model scaler X_test_control ;;
      ret (results_disease, results_control ++ [y_pred_control])
  | None => ret (results_disease, results_control)
  end.

Fixpoint for_each {S A : Type} (body : S -> A -> M S) (xs : list A) (acc : S) : M S :=
  match xs with
  | [] => ret acc
  | x :: xs' => acc' <- body acc x ;; for_each body xs' acc'
  end.

Definition evaluate_feature_ablation (df_train_control df_test_disease : DataFrame)
           (model_type scalar_type : string) (df_test_control : option DataFrame)
  : M results_t :=
  for_each (ablation_body df_train_control df_test_disease
                          model_type scalar_type df_test_control)
           ablation_order ([], []).

End Pipeline.

Arguments ret {sk A} a.
Arguments raise {sk A} e.
Arguments lift {sk A} r.
Arguments bind {sk A B} m k.
Arguments library_call {sk A} c error value.
Arguments calls_of {sk A} m.
Arguments result_of {sk A} m.
Arguments for_each {sk S A} body xs acc.
Arguments Call_fit_transform {sk} cls X.
Arguments Call_transform {sk} s X.
Arguments Call_RidgeCV_fit {sk} alphas scoring cv X y.
Arguments Call_GridSearchCV_fit {sk} grid scoring cv n_jobs X y.
Arguments Call_fit {sk} e X y.
Arguments Call_predict {sk} m X.

(** ** Well-formed inputs *)

Definition has_columns (df : DataFrame) (labels : list label) : bool :=
  forallb (fun l => mem_label l (columns df)) labels.

Definition is_num (c : cell) : bool :=
  match c with
  | Num _ => true
  | Text _ => false
  end.

(** A cohort table, as far as pandas goes: it carries the three
    non-feature columns and the columns of every feature group, and every
    other column holds numbers, so that every pass can build its frame
    from it. Whether scikit-learn accepts that frame (enough rows for the
    five folds, the columns the scaler was fitted on) is not part of
    it. *)
Definition cohort_table (F : imaging_features) (df : DataFrame) : bool :=
  forallb (fun feature => has_columns df (non_features ++ feature)) (ablation_order F)
  && forallb (fun c => mem_label (fst c) non_features || forallb is_num (snd c)) df.

Definition optional_cohort_table (F : imaging_features) (df : option DataFrame) : bool :=
  match df with
  | Some d => cohort_table F d
  | None => true
  end.

Definition supported_model_type (model_type : string) : bool :=
  String.eqb model_type "ridge" || String.eqb model_type "svm".

Definition documented_scaler_type (scaler_type : string) : bool :=
  String.eqb scaler_type "minmax" || String.eqb scaler_type "standard".

(** The scaler class [train_model] instantiates for a selector. *)
Definition chosen_scaler (scaler_type : string) : scaler_class :=
  if String.eqb scaler_type "minmax" then MinMaxScaler else StandardScaler.

(** The cross-validation scheme [train_model] builds. *)
Definition cv_scheme : RepeatedKFold :=
  {| n_splits := 5; n_repeats := 10; random_state := 1 |}.

(** The labels that [drop_astype] keeps. *)
Definition kept_columns (df : DataFrame) (feature : list label) : list label :=
  filter (fun l => negb (mem_label l (non_features ++ feature))) (columns df).

Definition cell_value (c : cell) : Q :=
  match c with
  | Num q => q
  | Text _ => 0%Q
  end.

(** The frame [drop_astype] returns on a table whose kept columns hold
    numbers. *)
Definition features_without (df : DataFrame) (feature : list label) : FloatFrame :=
  map (fun c => (fst c, map cell_value (snd c)))
      (filter (fun c => negb (mem_label (fst c) (non_features ++ feature))) df).

Definition is_scaler_fit {sk : Sklearn} (c : call sk) : bool :=
  match c with
  | Call_fit_transform _ _ => true
  | _ => false
  end.

Definition is_estimator_fit {sk : Sklearn} (c : call sk) : bool :=
  match c with
  | Call_fit _ _ _ => true
  | _ => false
  end.

Definition count_calls {sk : Sklearn} (p : call sk -> bool) (log : list (call sk)) : nat :=
  List.length (filter p log).

(** One pass of the loop of [evaluate_feature_ablation], as observed. *)
Record iteration (sk : Sklearn) : Type := {
  it_feature : list label;
  it_X_train : FloatFrame;
  it_y_train : Series;
  it_X_disease : FloatFrame;
  it_X_control : option FloatFrame;
  it_model : model sk;
  it_scaler : scaler sk;
  it_train_log : list (call sk)
}.

Arguments it_feature {sk} i.
Arguments it_X_train {sk} i.
Arguments it_y_train {sk} i.
Arguments it_X_disease {sk} i.
Arguments it_X_control {sk} i.
Arguments it_model {sk} i.
Arguments it_scaler {sk} i.
Arguments it_train_log {sk} i.

(** What [predict_ages] returns for a model, a scaler and a frame, when
    it returns. *)
Definition rounded_prediction (sk : Sklearn) (m : model sk) (s : scaler sk)
           (X : FloatFrame) : ndarray1 :=
  np_round (model_predict sk m (scaler_transform sk s X)) 3.

Definition it_pred_disease {sk : Sklearn} (it : iteration sk) : ndarray1 :=
  rounded_prediction sk (it_model it) (it_scaler it) (it_X_disease it).

Definition it_pred_control {sk : Sklearn} (it : iteration sk) : list ndarray1 :=
  match it_X_control it with
  | Some X => [rounded_prediction sk (it_model it) (it_scaler it) X]
  | None => []
  end.

Definition it_control_frame {sk : Sklearn} (it : iteration sk) : FloatFrame :=
  match it_X_control it with
  | Some X => X
  | None => []
  end.

Definition it_log {sk : Sklearn} (it : iteration sk) : list (call sk) :=
  it_train_log it
  ++ calls_of (predict_ages sk (it_model it) (it_scaler it) (it_X_disease it))
  ++ match it_X_control it with
     | Some X => calls_of (predict_ages sk (it_model it) (it_scaler it) X)
     | None => []
     end.

(** The pass is the one the code makes for its feature group, and every
    call of the pass returned. *)
Definition iteration_of (sk : Sklearn) (df_train_control df_test_disease : DataFrame)
           (model_type scalar_type : string) (df_test_control : option DataFrame)
           (it : iteration sk) : Prop :=
  drop_astype df_train_control (it_feature it) = Ok (it_X_train it)
  /\ drop_astype df_test_disease (it_feature it) = Ok (it_X_disease it)
  /\ getitem df_train_control "Age at Visit" = Ok (it_y_train it)
  /\ train_model sk (it_X_train it) (it_y_train it) model_type scalar_type
     = (it_train_log it, Ok (it_model it, it_scaler it))
  /\ result_of (predict_ages sk (it_model it) (it_scaler it) (it_X_disease it))
     = Ok (it_pred_disease it)
  /\ match df_test_control with
     | Some d => exists X, it_X_control it = Some X
                           /\ drop_astype d (it_feature it) = Ok X
                           /\ result_of (predict_ages sk (it_model it) (it_scaler it) X)
                              = Ok (rounded_prediction sk (it_model it) (it_scaler it) X)
     | None => it_X_control it = None
     end.

(** The same pass, with the control frame left out. *)
Definition without_control {sk : Sklearn} (it : iteration sk) : iteration sk :=
  {| it_feature := it_feature it;
     it_X_train := it_X_train it;
     it_y_train := it_y_train it;
     it_X_disease := it_X_disease it;
     it_X_control := None;
     it_model := it_model it;
     it_scaler := it_scaler it;
     it_train_log := it_train_log it |}.

(** Every step of the pass for a feature group returns: the frames can
    be built, [train_model] returns, and [predict_ages] returns on the
    disease frame and, when a control table is supplied, on the control
    frame. *)
Definition pass_returns (sk : Sklearn) (df_train_control df_test_disease : DataFrame)
           (model_type scalar_type : string) (df_test_control : option DataFrame)
           (feature : list label) : Prop :=
  exists X_train_control X_test_disease y_train_control model scaler,
    drop_astype df_train_control feature = Ok X_train_control
    /\ drop_astype df_test_disease feature = Ok X_test_disease
    /\ getitem df_train_control "Age at Visit" = Ok y_train_control
    /\ result_of (train_model sk X_train_control y_train_control
                              model_type scalar_type)
       = Ok (model, scaler)
    /\ is_raise (result_of (predict_ages sk model scaler X_test_disease)) = false
    /\ match df_test_control with
       | Some d =>
           exists X_test_control,
             drop_astype d feature = Ok X_test_control
             /\ is_raise (result_of (predict_ages sk model scaler X_test_control))
                = false
       | None => True
       end.

(** ** A reference instance of the interface

    Scalers that shift each column (by its minimum, or by its mean) and a
    regressor that predicts the mean training target: ridge regression in
    the limit of an infinite regularisation strength. The calls raise
    where scikit-learn's input validation does: a scaler is not fitted on,
    or applied to, a frame without rows or without columns; it is not
    applied to a frame whose columns are not those it was fitted on; no
    search runs on fewer samples than the five folds, or on targets that
    do not match the samples in number. The instance is used to run the
    pipeline on concrete tables. *)
Module Baseline.

Definition column_min (c : ndarray1) : Q :=
  match c with
  | [] => 0%Q
  | x :: c' => fold_right Qmin x c'
  end.

Definition column_mean (c : ndarray1) : Q :=
  match np_mean c with
  | Fin q => q
  | NaN => 0%Q
  end.

Definition offsets (cls : scaler_class) (X : FloatFrame) : list Q :=
  map (fun c => match cls with
                | MinMaxScaler => column_min (snd c)
                | StandardScaler => column_mean (snd c)
                end) X.

Fixpoint zip_cons (c : list Q) (rows : ndarray2) : ndarray2 :=
  match c, rows with
  | x :: c', r :: rows' => (x :: r) :: zip_cons c' rows'
  | _, _ => []
  end.

Fixpoint rows_of (cols : list ndarray1) : ndarray2 :=
  match cols with
  | [] => []
  | c :: cs =>
      match cs with
      | [] => map (fun x => [x]) c
      | _ :: _ => zip_cons c (rows_of cs)
      end
  end.

Fixpoint shift (offs : list Q) (X : FloatFrame) : list ndarray1 :=
  match offs, X with
  | o :: offs', c :: X' => map (fun x => (x - o)%Q) (snd c) :: shift offs' X'
  | _, _ => []
  end.

Definition targets (y : Series) : ndarray1 :=
  flat_map (fun c => match c with Num q => [q] | Text _ => [] end) y.

(** A fitted scaler remembers its class, the columns it saw and what it
    learnt from them. *)
Record fitted_scaler : Type := {
  scaler_class_ : scaler_class;
  feature_names_in_ : list label;
  offsets_ : list Q
}.

Definition class_name (cls : scaler_class) : string :=
  match cls with
  | MinMaxScaler => "MinMaxScaler"
  | StandardScaler => "StandardScaler"
  end.

Definition n_samples (X : FloatFrame) : nat :=
  match X with
  | [] => 0
  | c :: _ => List.length (snd c)
  end.

(** [check_array] on a frame, for an estimator of class [cls]. *)
Definition check_array (cls : scaler_class) (X : FloatFrame) : option exn :=
  match X with
  | [] => Some (ValueError "at least one array or dtype is required")
  | _ :: _ =>
      if Nat.eqb (n_samples X) 0 then
        Some (ValueError ("Found array with 0 sample(s) (shape=(0, "
                          ++ string_of_nat (List.length X)
                          ++ ")) while a minimum of 1 is required by "
                          ++ class_name cls ++ "."))
      else None
  end.

Definition same_labels (a b : list label) : bool :=
  Nat.eqb (List.length a) (List.length b)
  && forallb (fun p => String.eqb (fst p) (snd p)) (combine a b).

(** The checks of [transform]: the feature names, then the array. Of
    the message about feature names, which goes on to list them, only
    the first line is kept. *)
Definition check_transform (s : fitted_scaler) (X : FloatFrame) : option exn :=
  if same_labels (columns X) (feature_names_in_ s) then check_array (scaler_class_ s) X
  else Some (ValueError
               "The feature names should match those that were passed during fit.").

(** The checks of a cross-validated search: [X] and [y] have the same
    number of samples, and there are at least as many as folds. *)
Definition check_search (cv : RepeatedKFold) (X : ndarray2) (y : Series) : option exn :=
  if negb (Nat.eqb (List.length X) (List.length y)) then
    Some (ValueError ("Found input variables with inconsistent numbers of samples: ["
                      ++ string_of_nat (List.length X) ++ ", "
                      ++ string_of_nat (List.length y) ++ "]"))
  else if Nat.ltb (List.length X) (n_splits cv) then
    Some (ValueError ("Cannot have number of splits n_splits="
                      ++ string_of_nat (n_splits cv)
                      ++ " greater than the number of samples: n_samples="
                      ++ string_of_nat (List.length X) ++ "."))
  else None.

Definition check_fit (X : ndarray2) (y : Series) : option exn :=
  if negb (Nat.eqb (List.length X) (List.length y)) then
    Some (ValueError ("Found input variables with inconsistent numbers of samples: ["
                      ++ string_of_nat (List.length X) ++ ", "
                      ++ string_of_nat (List.length y) ++ "]"))
  else None.

Definition fit_scaler (cls : scaler_class) (X : FloatFrame) : fitted_scaler :=
  {| scaler_class_ := cls;
     feature_names_in_ := columns X;
     offsets_ := offsets cls X |}.

Definition sk : Sklearn :=
  {| scaler := fitted_scaler;
     model := Q;
     scaler_fit := fit_scaler;
     scaler_transform := fun s X => rows_of (shift (offsets_ s) X);
     RidgeCV_alpha_ := fun alphas _ _ _ _ => hd 1%R alphas;
     GridSearchCV_best_params_ := fun grid _ _ _ _ _ =>
       {| C := hd 1%Q (grid_C grid);
          epsilon := hd 1%Q (grid_epsilon grid);
          kernel := hd "linear" (grid_kernel grid) |};
     estimator_fit := fun _ _ y => column_mean (targets y);
     model_predict := fun m X => map (fun _ => m) X;
     fit_transform_error := check_array;
     transform_error := check_transform;
     RidgeCV_fit_error := fun _ _ cv X y => check_search cv X y;
     GridSearchCV_fit_error := fun _ _ cv _ X y => check_search cv X y;
     fit_error := fun _ X y => check_fit X y;
     predict_error := fun _ _ => None |}.

End Baseline.

(** ** Small cohorts to run the code on *)
Module Demo.

Definition F : imaging_features :=
  {| hyperintensities_flair := ["flair_wm"; "flair_pv"];
     dti := ["dti_fa"];
     cbf := ["cbf_gm"];
     resting_state_activation := ["rs_dmn"];
     ventricular_volume := ["vent_lat"];
     surface_area := ["area_total"];
     cortical_thickness := ["thick_mean"] |}.

Definition nums (zs : list Z) : Series := map (fun z => Num (inject_Z z)) zs.

Definition cohort (ids : list string) (dx : string) (ages : list Z)
           (base : Z) : DataFrame :=
  let col (k : Z) := nums (map (fun i => (base + k * Z.of_nat i)%Z)
                               (seq 0 (List.length ids))) in
  [ ("BD#", map Text ids);
    ("Dx", map (fun _ => Text dx) ids);
    ("Age at Visit", nums ages);
    ("flair_wm", col 1%Z); ("flair_pv", col 2%Z);
    ("dti_fa", col 3%Z); ("cbf_gm", col 4%Z); ("rs_dmn", col 5%Z);
    ("vent_lat", col 6%Z); ("area_total", col 7%Z); ("thick_mean", col 8%Z) ].

Definition train_controls : DataFrame :=
  cohort ["HC01"; "HC02"; "HC03"; "HC04"; "HC05"; "HC06"] "HC"
         [30; 41; 52; 35; 47; 60]%Z 10%Z.

Definition patients : DataFrame :=
  cohort ["BD01"; "BD02"] "BD" [35; 60]%Z 20%Z.

(** Too few controls for the five folds of the search. *)
Definition three_controls : DataFrame :=
  cohort ["HC01"; "HC02"; "HC03"] "HC" [30; 41; 52]%Z 10%Z.

Definition test_controls : DataFrame :=
  cohort ["HC07"; "HC08"] "HC" [28; 47]%Z 15%Z.

Definition features3 : FloatFrame :=
  [ ("dti_fa", [1; 2; 4]%Q); ("cbf_gm", [3; 5; 8]%Q) ].

Definition ages3 : Series := nums [30; 41; 52]%Z.

Definition features6 : FloatFrame :=
  [ ("dti_fa", [1; 2; 4; 3; 5; 7]%Q); ("cbf_gm", [3; 5; 8; 4; 6; 9]%Q) ].

Definition ages6 : Series := nums [30; 41; 52; 35; 47; 60]%Z.

(** A frame of the same two columns without any row. *)
Definition no_rows : FloatFrame := [ ("dti_fa", []); ("cbf_gm", []) ].

(** A scaler fitted on these two columns, with given offsets. *)
Definition fitted (offsets : list Q) : Baseline.fitted_scaler :=
  {| Baseline.scaler_class_ := StandardScaler;
     Baseline.feature_names_in_ := ["dti_fa"; "cbf_gm"];
     Baseline.offsets_ := offsets |}.

End Demo.

(** ** Vocabulary for properties *)

(** The mean absolute error of one prediction array that has the shape of
    [y_test]. *)
Definition mae_of (y_test predictions : ndarray1) : float64 :=
  np_mean (np_abs (zip_sub predictions y_test)).

(** Equality of scores as numbers; [nan] is only matched by [nan]. *)
Definition score_eq (s t : float64) : Prop :=
  match s, t with
  | Fin a, Fin b => (a == b)%Q
  | NaN, NaN => True
  | _, _ => False
  end.

(** A second instance: the regressor adds the first scaled feature of a
    row to the mean training target, so that predictions differ from row
    to row. *)
Module Offset.

Definition sk : Sklearn :=
  {| scaler := Baseline.fitted_scaler;
     model := Q;
     scaler_fit := Baseline.fit_scaler;
     scaler_transform := fun s X =>
       Baseline.rows_of (Baseline.shift (Baseline.offsets_ s) X);
     RidgeCV_alpha_ := fun alphas _ _ _ _ => hd 1%R alphas;
     GridSearchCV_best_params_ := fun grid _ _ _ _ _ =>
       {| C := hd 1%Q (grid_C grid);
          epsilon := hd 1%Q (grid_epsilon grid);
          kernel := hd "linear" (grid_kernel grid) |};
     estimator_fit := fun _ _ y => Baseline.column_mean (Baseline.targets y);
     model_predict := fun m X => map (fun row => (m + hd 0 row)%Q) X;
     fit_transform_error := Baseline.check_array;
     transform_error := Baseline.check_transform;
     RidgeCV_fit_error := fun _ _ cv X y => Baseline.check_search cv X y;
     GridSearchCV_fit_error := fun _ _ cv _ X y => Baseline.check_search cv X y;
     fit_error := fun _ X y => Baseline.check_fit X y;
     predict_error := fun _ _ => None |}.

End Offset.

(** The labels among [labels] that name no column of [df]: what the
    [KeyError] of [drop] lists. *)
Definition missing_labels (df : DataFrame) (labels : list label) : list label :=
  filter (fun l => negb (mem_label l (columns df))) labels.

(** A string that [float()] rejects. *)
Definition rejected_by_float (c : cell) : bool :=
  match c with
  | Num _ => false
  | Text s =>
      match python_float s with
      | Some _ => false
      | None => negb (spells_non_finite s)
      end
  end.

(** A character that [repr] prints as it is, and that [float()] reads as
    itself: printable ASCII other than the quote and the backslash. *)
Definition is_plain (c : ascii) : bool :=
  let n := nat_of_ascii c in
  Nat.leb 32 n && Nat.leb n 126 && negb (Nat.eqb n 39) && negb (Nat.eqb n 92).

(** A string outside the strings of this development: [float()] turns it
    into an infinity or into [nan], or it holds a character that is not
    plain (a digit or a space of another script, a character that the
    error message would escape). *)
Definition unmodelled_text (c : cell) : bool :=
  match c with
  | Num _ => false
  | Text s => spells_non_finite s
              || negb (forallb is_plain (list_ascii_of_string s))
  end.

Definition is_search {sk : Sklearn} (c : call sk) : bool :=
  match c with
  | Call_RidgeCV_fit _ _ _ _ _ => true
  | Call_GridSearchCV_fit _ _ _ _ _ _ => true
  | _ => false
  end.

Definition is_predict {sk : Sklearn} (c : call sk) : bool :=
  match c with
  | Call_predict _ _ => true
  | _ => false
  end.

(** The frame is the scaled form of a training frame of some pass. *)
Definition scaled_training_frame (sk : Sklearn) (F : imaging_features)
           (df_train_control : DataFrame) (X : ndarray2) : Prop :=
  exists feature X_train cls,
    In feature (ablation_order F)
    /\ drop_astype df_train_control feature = Ok X_train
    /\ X = scaler_transform sk (scaler_fit sk cls X_train) X_train.

(** A logged call that fits or searches does so on the training cohort
    only: a scaler on a training frame, a search or an estimator on a
    scaled training frame and the ages of the training cohort. *)
Definition fits_on_training (sk : Sklearn) (F : imaging_features)
           (df_train_control : DataFrame) (c : call sk) : Prop :=
  match c with
  | Call_fit_transform _ X =>
      exists feature, In feature (ablation_order F)
                      /\ drop_astype df_train_control feature = Ok X
  | Call_RidgeCV_fit _ _ _ X y =>
      scaled_training_frame sk F df_train_control X
      /\ getitem df_train_control "Age at Visit" = Ok y
  | Call_GridSearchCV_fit _ _ _ _ X y =>
      scaled_training_frame sk F df_train_control X
      /\ getitem df_train_control "Age at Visit" = Ok y
  | Call_fit _ X y =>
      scaled_training_frame sk F df_train_control X
      /\ getitem df_train_control "Age at Visit" = Ok y
  | Call_transform _ _ => True
  | Call_predict _ _ => True
  end.

(** ** [plot_scatter_with_regression]

    The calls to matplotlib and to [os.makedirs] are effects, logged in
    order. A call fails where its arguments make it fail: [plt.scatter]
    on arrays of different sizes, [os.makedirs] on the empty path, [min]
    and [max] on an empty sequence. [np.polyfit] at degree 1,
    [scipy.stats.pearsonr] and the [.2f] formatting of a float are an
    interface; the two routines may fail, and [np.polyfit] does so at
    least where numpy validates its arguments. Failures that depend on
    the machine (the display, the rights on the file system) are outside
    the model. Paths are POSIX paths. *)

Inductive plot_exn : Type :=
| Builtin (e : exn)
| FileNotFoundError (path : string)
| LibraryError (routine : string).

Inductive outcome (A : Type) : Type :=
| Done (a : A)
| Failed (e : plot_exn).

Arguments Done {A} a.
Arguments Failed {A} e.

Inductive plot_call : Type :=
| Plt_figure (figsize : Q * Q)
| Plt_scatter (x y : ndarray1) (alpha : Q) (edgecolors : string) (linewidth : Q)
| Plt_plot (x y : ndarray1) (color : string) (linewidth : Q) (label : string)
| Plt_text (x y : Q) (s : string) (fontsize : nat) (facecolor : string) (alpha : Q)
| Plt_grid (visible : bool) (linestyle : string) (alpha : Q)
| Plt_xlabel (s : string) (fontsize : nat)
| Plt_ylabel (s : string) (fontsize : nat)
| Plt_title (s : string) (fontsize : nat)
| Plt_legend
| Os_makedirs (path : string) (exist_ok : bool)
| Plt_savefig (path : string) (dpi : nat) (bbox_inches : string)
| Plt_close
| Plt_show.

Definition P (A : Type) : Type := (list plot_call * outcome A)%type.

Definition pbind {A B : Type} (m : P A) (k : A -> P B) : P B :=
  match m with
  | (log, Done a) => let (log', r) := k a in (log ++ log', r)
  | (log, Failed e) => (log, Failed e)
  end.

Definition plt (c : plot_call) : P unit := ([c], Done tt).

Definition builtin {A : Type} (r : result A) : P A :=
  match r with
  | Ok a => ([], Done a)
  | Raise e => ([], Failed (Builtin e))
  end.

Definition library {A : Type} (routine : string) (r : option A) : P A :=
  match r with
  | Some a => ([], Done a)
  | None => ([], Failed (LibraryError routine))
  end.

Definition calls_made {A : Type} (m : P A) : list plot_call := fst m.
Definition outcome_of {A : Type} (m : P A) : outcome A := snd m.

Definition is_done {A : Type} (o : outcome A) : bool :=
  match o with
  | Done _ => true
  | Failed _ => false
  end.

Record Fitting : Type := {
  (** [np.polyfit(x, y, 1)]: slope and intercept *)
  polyfit1 : ndarray1 -> ndarray1 -> option (Q * Q);
  (** numpy rejects an empty [x] and an [y] of another length *)
  polyfit1_defined : forall x y c,
    polyfit1 x y = Some c -> x <> [] /\ List.length x = List.length y;
  (** [stats.pearsonr(x, y)]: coefficient and p-value *)
  pearsonr : ndarray1 -> ndarray1 -> option (Q * Q);
  (** [f'{v:.2f}'] *)
  format_2f : Q -> string
}.

(** The builtins [min] and [max] on a sequence: the first smallest
    (largest) item; an empty sequence raises. *)
Definition py_min (xs : ndarray1) : result Q :=
  match xs with
  | [] => Raise (ValueError "min() arg is an empty sequence")
  | x :: rest => Ok (fold_left (fun m v => if Qle_bool m v then m else v) rest x)
  end.

Definition py_max (xs : ndarray1) : result Q :=
  match xs with
  | [] => Raise (ValueError "max() arg is an empty sequence")
  | x :: rest => Ok (fold_left (fun m v => if Qle_bool v m then m else v) rest x)
  end.

(** [np.polyval(p, x)], by Horner's rule from the highest coefficient. *)
Definition polyval (p : list Q) (x : ndarray1) : ndarray1 :=
  map (fun xi => fold_left (fun y pv => (y * xi + pv)%Q) p 0%Q) x.

Definition is_slash (c : ascii) : bool := Ascii.eqb c "/"%char.

Fixpoint drop_while {A : Type} (p : A -> bool) (l : list A) : list A :=
  match l with
  | [] => []
  | x :: l' => if p x then drop_while p l' else l
  end.

(** [os.path.dirname]: everything before the last slash, without its
    trailing slashes unless it consists of slashes only. *)
Definition dirname (p : string) : string :=
  let rhead := drop_while (fun c => negb (is_slash c))
                          (rev (list_ascii_of_string p)) in
  let rhead := if forallb is_slash rhead then rhead else drop_while is_slash rhead in
  string_of_list_ascii (rev rhead).

Definition has_slash (p : string) : bool :=
  existsb is_slash (list_ascii_of_string p).

(** [os.makedirs(path, exist_ok=True)]: the empty path names no directory
    that could be made. *)
Definition os_makedirs (path : string) (exist_ok : bool) : P unit :=
  if String.eqb path "" then
    ([Os_makedirs path exist_ok], Failed (FileNotFoundError path))
  else ([Os_makedirs path exist_ok], Done tt).

(** [plt.scatter(x, y, ...)]: the two arrays must have the same size. *)
Definition plt_scatter (x y : ndarray1) (alpha : Q) (edgecolors : string)
           (linewidth : Q) : P unit :=
  if Nat.eqb (List.length x) (List.length y) then
    ([Plt_scatter x y alpha edgecolors linewidth], Done tt)
  else ([Plt_scatter x y alpha edgecolors linewidth],
        Failed (Builtin (ValueError "x and y must be the same size"))).

(** Truth value of a string: the empty string is false. *)
Definition truthy (s : string) : bool := negb (String.eqb s "").

Definition plot_scatter_with_regression (fit : Fitting) (y_test y_pred : ndarray1)
           (title : string) (save_path : option string) : P unit :=
  pbind (plt (Plt_figure (6, 6)%Q)) (fun _ =>
  pbind (plt_scatter y_test y_pred (7 # 10) "k" 1) (fun _ =>
  pbind (library "numpy.polyfit" (polyfit1 fit y_test y_pred)) (fun coefficients =>
  pbind (builtin (py_min y_test)) (fun lo =>
  pbind (builtin (py_max y_test)) (fun hi =>
  let x_range := linspace lo hi 100 in
  let y_range := polyval [fst coefficients; snd coefficients] x_range in
  pbind (plt (Plt_plot x_range y_range "red" 2
                       ("Regression line: y=" ++ format_2f fit (fst coefficients)
                        ++ "x + " ++ format_2f fit (snd coefficients)))) (fun _ =>
  pbind (library "scipy.stats.pearsonr" (pearsonr fit y_test y_pred)) (fun r_p =>
  let '(r, p_value) := r_p in
  pbind (plt (Plt_text (5 # 100) (9 # 10) ("Pearson r: " ++ format_2f fit r)
                       12 "white" (1 # 2))) (fun _ =>
  pbind (plt (Plt_grid true "--" (6 # 10))) (fun _ =>
  pbind (plt (Plt_xlabel "Chronological Age" 12)) (fun _ =>
  pbind (plt (Plt_ylabel "Predicted Age" 12)) (fun _ =>
  pbind (plt (Plt_title (if truthy title then title
                         else "Scatter Plot with Regression Line") 14)) (fun _ =>
  pbind (plt Plt_legend) (fun _ =>
  match save_path with
  | Some path =>
      if truthy path then
        pbind (os_makedirs (dirname path) true) (fun _ =>
        pbind (plt (Plt_savefig path 300 "tight")) (fun _ =>
        plt Plt_close))
      else plt Plt_show
  | None => plt Plt_show
  end))))))))))))).

(** Calls that write a file, touch the file system or open a window. *)
Definition is_output_call (c : plot_call) : bool :=
  match c with
  | Os_makedirs _ _ => true
  | Plt_savefig _ _ _ => true
  | Plt_close => true
  | Plt_show => true
  | _ => false
  end.

Definition is_savefig (c : plot_call) : bool :=
  match c with
  | Plt_savefig _ _ _ => true
  | _ => false
  end.

(** Fitting routines for running the code: the exact least-squares line,
    which needs two distinct abscissae; a stand-in for the correlation
    (it needs a square root), which reports 0; and decimal formatting
    with two digits. *)
Module LeastSquares.

Definition mean (xs : ndarray1) : Q :=
  (np_sum xs / inject_Z (Z.of_nat (List.length xs)))%Q.

Definition fit_line (x y : ndarray1) : option (Q * Q) :=
  let mx := mean x in
  let my := mean y in
  let sxx := np_sum (map (fun xi => (xi - mx) * (xi - mx))%Q x) in
  let sxy := np_sum (map (fun p => (fst p - mx) * (snd p - my))%Q (combine x y)) in
  if Nat.eqb (List.length x) (List.length y) && negb (Qeq_bool sxx 0) then
    Some (Qred (sxy / sxx), Qred (my - (sxy / sxx) * mx))%Q
  else None.

Definition two_digits (n : nat) : string :=
  if Nat.ltb n 10 then "0" ++ string_of_nat n else string_of_nat n.

Definition fixed_2 (x : Q) : string :=
  let k := Z.abs_nat (rint (x * 100)) in
  (if Qle_bool 0 x then "" else "-")
  ++ string_of_nat (k / 100) ++ "." ++ two_digits (k mod 100).

Definition fit_line_defined (x y : ndarray1) (c : Q * Q) :
  fit_line x y = Some c -> x <> [] /\ List.length x = List.length y.
Proof.
  unfold fit_line.
  destruct (Nat.eqb (List.length x) (List.length y)) eqn:E; [|discriminate].
  apply Nat.eqb_eq in E. destruct x as [|x0 x]; [discriminate|].
  intros _. split; [discriminate | exact E].
Qed.

Definition fit : Fitting :=
  {| polyfit1 := fit_line;
     polyfit1_defined := fit_line_defined;
     pearsonr := fun x y => if Nat.eqb (List.length x) (List.length y)
                            then Some (0, 1)%Q else None;
     format_2f := fixed_2 |}.

End LeastSquares.

(** * The arithmetic on binary64 floats

    What [np.round] and [np.mean] compute depends on the rounding of
    every operation, on overflow, on underflow and on [nan]. The module
    [Binary64] embeds [predict_ages] and [calculate_mae] once more, with
    the arrays of predictions and of ages as lists of primitive binary64
    floats, whose operations are those of IEEE 754 in the default
    rounding mode. The feature matrices stay the data handed to
    scikit-learn; the float array [model.predict] returns is a parameter
    next to the interface. *)

Module Binary64.

Definition ndarray1 := list float.

(** [np.isfinite]: neither an infinity nor [nan]. *)
Definition isfinite (x : float) : bool :=
  match Prim2SF x with
  | S754_zero _ => true
  | S754_finite _ _ _ => true
  | _ => false
  end.

(** The rational a finite float stands for ([0] for the others). *)
Definition exact (x : float) : Q :=
  match Prim2SF x with
  | S754_finite s m e =>
      let n := if s then Zneg m else Zpos m in
      if (0 <=? e)%Z then inject_Z (n * 2 ^ e)
      else n # Pos.pow 2 (Z.to_pos (- e))
  | _ => 0
  end.

(** The integer nearest to [m / 2^k], the even one of two nearest. *)
Definition half_even (m k : Z) : Z :=
  let q := (m / 2 ^ k)%Z in
  match (2 * (m mod 2 ^ k) ?= 2 ^ k)%Z with
  | Lt => q
  | Gt => (q + 1)%Z
  | Eq => if Z.even q then q else (q + 1)%Z
  end.

(** The float of an integer below [2^53] with a sign; [-0.0] is the
    negative of zero. *)
Definition of_integer (s : bool) (n : Z) : float :=
  let r := of_uint63 (Uint63.of_Z n) in
  if s then (- r)%float else r.

(** [np.rint]: the nearest integral float, ties to even, with the sign of
    the argument; a float with a non-negative exponent is integral, and
    infinities and [nan] are returned as they are. *)
Definition rint (x : float) : float :=
  match Prim2SF x with
  | S754_finite s m e =>
      if (0 <=? e)%Z then x else of_integer s (half_even (Zpos m) (- e))
  | _ => x
  end.

(** The same rounding by float additions alone, as a C library computes
    it in the default rounding mode: below [2^52] in magnitude, adding
    and subtracting [2^52] leaves the nearest integer. It serves to
    check [rint] against the hardware on samples. *)
Definition rint_by_addition (x : float) : float :=
  let a := abs x in
  if (a <? 0x1p52)%float then
    let r := ((a + 0x1p52) - 0x1p52)%float in
    if get_sign x then (- r)%float else r
  else x.

(** Multiples of an eighth from [-50] to [50], which hold every tie, and
    the same numbers scaled to other magnitudes, down to the subnormal
    floats. *)
Definition rint_samples : list float :=
  flat_map (fun i =>
              let x := (of_uint63 (Uint63.of_Z (Z.of_nat i)) / 8 - 50)%float in
              [x; x * 1.0000001; x * 1000.5; x / 3e5; x * 7e12; x * 3e-310]%float)
           (seq 0 801).

Fixpoint times_ten (n : nat) (x : float) : float :=
  match n with
  | O => x
  | S n' => times_ten n' (x * 10)%float
  end.

(** numpy's [power_of_ten]: a table up to [1e8], a loop from [1e9]. *)
Definition power_of_ten (n : nat) : float :=
  if Nat.ltb n 9 then
    nth n [1; 10; 100; 1000; 10000; 100000; 1000000; 10000000; 100000000]%float
        1%float
  else times_ten (n - 9) 1000000000%float.

(** [np.round(a, decimals)] for [decimals >= 0] on a float array:
    multiply by the power of ten, [rint], divide by the power of ten;
    [rint] alone for no decimals. *)
Definition round_scalar (decimals : nat) (x : float) : float :=
  match decimals with
  | O => rint x
  | _ => (rint (x * power_of_ten decimals) / power_of_ten decimals)%float
  end.

Definition np_round (a : ndarray1) (decimals : nat) : ndarray1 :=
  map (round_scalar decimals) a.

(** *** [predict_ages] *)

Section Predict.

Variable sk : Sklearn.

(** The float64 array of [model.predict(X)]. *)
Variable raw_output : model sk -> ndarray2 -> ndarray1.

Definition predict (m : model sk) (X : ndarray2) : M sk ndarray1 :=
  library_call (Call_predict m X) (predict_error sk m X) (raw_output m X).

Definition predict_ages (model : model sk) (scaler : scaler sk) (X : FloatFrame)
  : M sk ndarray1 :=
  bind (transform sk scaler X) (fun X_normalized =>
  bind (predict model X_normalized) (fun predictions =>
  ret (np_round predictions 3))).

End Predict.

(** *** [calculate_mae] *)

Fixpoint zip_sub (a b : ndarray1) : ndarray1 :=
  match a, b with
  | x :: a', y :: b' => (x - y)%float :: zip_sub a' b'
  | _, _ => []
  end.

(** [a - b] on arrays of shapes [(n,)] and [(m,)], with broadcasting. *)
Definition np_sub (a b : ndarray1) : result ndarray1 :=
  if Nat.eqb (List.length a) (List.length b) then Ok (zip_sub a b)
  else match a, b with
       | [x], _ => Ok (map (fun y => (x - y)%float) b)
       | _, [y] => Ok (map (fun x => (x - y)%float) a)
       | _, _ => Raise (broadcast_error (List.length a) (List.length b))
       end.

Definition np_abs (a : ndarray1) : ndarray1 := map PrimFloat.abs a.

(** [np.add.reduce] adds the entries of the array, each once, to zeros it
    starts from; the order and the grouping of the additions depend on
    the length of the array and on the version of numpy (pairwise
    summation in blocks). A summation is any function that computes its
    result in such a way. *)
Inductive additions : Type :=
| Identity (z : float)
| Entry (x : float)
| Add (l r : additions).

Fixpoint value (t : additions) : float :=
  match t with
  | Identity z => z
  | Entry x => x
  | Add l r => (value l + value r)%float
  end.






(** From left to right, starting from [0.0]: the order numpy follows on
    fewer than 8 entries. *)
Definition sequential (a : ndarray1) : float := fold_left PrimFloat.add a 0%float.




(** The number of entries as a float, exact below [2^53]. *)
Definition count (a : ndarray1) : float :=
  of_uint63 (Uint63.of_Z (Z.of_nat (List.length a))).

(** [np.mean(a)]: the sum divided by the number of entries; [0.0 / 0.0],
    which is [nan], on an empty array. *)
Definition np_mean (add_reduce : ndarray1 -> float) (a : ndarray1) : float :=
  (add_reduce a / count a)%float.

Fixpoint calculate_mae_loop (add_reduce : ndarray1 -> float)
         (predictions_list : list ndarray1) (y_test : ndarray1)
         (mae_results : list float) : result (list float) :=
  match predictions_list with
  | [] => Ok mae_results
  | predictions :: rest =>
      rbind (np_sub predictions y_test) (fun diff =>
      let mae := np_mean add_reduce (np_abs diff) in
      calculate_mae_loop add_reduce rest y_test (mae_results ++ [mae]))
  end.

Definition calculate_mae (add_reduce : ndarray1 -> float)
           (predictions_list : list ndarray1) (y_test : ndarray1)
  : result (list float) :=
  calculate_mae_loop add_reduce predictions_list y_test [].

(** A model whose raw output is a given list of floats, one per row. *)
Definition listed_output (sk : Sklearn) (vs : ndarray1)
  : model sk -> ndarray2 -> ndarray1 :=
  fun _ X => firstn (List.length X) vs.

End Binary64.

(** * Properties *)

(** ** The embedding on concrete inputs *)

Example np_round_ties_to_even :
  np_round [12345 # 10000; 25 # 10000; 35 # 10000; - (15 # 10000)]%Q 3
  = [1234 # 1000; 2 # 1000; 4 # 1000; - (2 # 1000)]%Q.
Proof. reflexivity. Qed.

Example linspace_four_points :
  Forall2 Qeq (linspace 10 (-2) 4) [10; 6; 2; -2]%Q.
Proof. vm_compute. repeat constructor. Qed.

Example np_sub_shapes_2_3 :
  np_sub [1; 2]%Q [1; 2; 3]%Q
  = Raise (ValueError
             "operands could not be broadcast together with shapes (2,) (3,) ").
Proof. reflexivity. Qed.

Example drop_missing_labels :
  drop Demo.patients ["volume"; "Dx"; "area"] = Raise (KeyError ["volume"; "area"]).
Proof. reflexivity. Qed.

Example astype_rejects_text :
  rbind (drop Demo.patients ["BD#"]) astype_float64
  = Raise (ValueError "could not convert string to float: 'BD'").
Proof. reflexivity. Qed.

Example astype_converts_numeric_strings :
  astype_float64 [("dti_fa", [Text "1.5"; Num 2; Text " -3e-1 "; Text "1_0."])]
  = Ok [("dti_fa", [3 # 2; 2; - (3 # 10); 10]%Q)].
Proof. reflexivity. Qed.

Example float_rejects :
  map python_float ["1__0"; "1e"; "."; "0x10"; "1 2"; ""; "12,5"]
  = [None; None; None; None; None; None; None].
Proof. reflexivity. Qed.

Example evaluate_unknown_model_type :
  result_of (evaluate_feature_ablation Baseline.sk Demo.F Demo.train_controls
                                       Demo.patients "lasso" "minmax" None)
  = Raise (ValueError "Unsupported model type: lasso").
Proof. reflexivity. Qed.

Example evaluate_missing_identifier_column :
  result_of (evaluate_feature_ablation Baseline.sk Demo.F Demo.train_controls
                                       (tl Demo.patients) "ridge" "minmax" None)
  = Raise (KeyError ["BD#"]).
Proof. reflexivity. Qed.

(** With three training rows the first search cannot make its five
    folds: the call stops there, after the scaler has been fitted. *)
Example evaluate_three_training_rows :
  result_of (evaluate_feature_ablation Baseline.sk Demo.F Demo.three_controls
                                       Demo.patients "ridge" "minmax" None)
  = Raise (ValueError ("Cannot have number of splits n_splits=5 greater than "
                       ++ "the number of samples: n_samples=3."))
  /\ List.length (calls_of (evaluate_feature_ablation Baseline.sk Demo.F
                              Demo.three_controls Demo.patients "ridge" "minmax"
                              None)) = 2%nat.
Proof. split; reflexivity. Qed.

(** A disease table with a column the training table does not have is
    rejected by the scaler, in the first pass. *)
Example evaluate_extra_disease_column :
  result_of (evaluate_feature_ablation Baseline.sk Demo.F Demo.train_controls
               (Demo.patients ++ [("site", Demo.nums [1; 2]%Z)])
               "ridge" "minmax" None)
  = Raise (ValueError
             "The feature names should match those that were passed during fit.").
Proof. reflexivity. Qed.

(** ** numpy arithmetic *)

Lemma zip_sub_length (a b : ndarray1) :
  List.length a = List.length b -> List.length (zip_sub a b) = List.length b.
Proof.
  revert b; induction a as [|x a IH]; intros [|y b] Hlen; simpl in *;
    try congruence.
  f_equal; apply IH; congruence.
Qed.

Lemma np_sub_same_shape (a b : ndarray1) :
  List.length a = List.length b -> np_sub a b = Ok (zip_sub a b).
Proof.
  intros Hlen; unfold np_sub.
  now rewrite (proj2 (Nat.eqb_eq _ _) Hlen).
Qed.

Lemma np_sub_mismatch (a b : ndarray1) :
  List.length a <> List.length b ->
  List.length a <> 1%nat ->
  List.length b <> 1%nat ->
  np_sub a b = Raise (broadcast_error (List.length a) (List.length b)).
Proof.
  intros Hab Ha Hb; unfold np_sub.
  rewrite (proj2 (Nat.eqb_neq _ _) Hab).
  destruct a as [|x [|x' a]]; destruct b as [|y [|y' b]]; simpl in *;
    try reflexivity; congruence.
Qed.

Lemma np_sub_raises (a b : ndarray1) (e : exn) :
  np_sub a b = Raise e ->
  List.length a <> List.length b
  /\ e = broadcast_error (List.length a) (List.length b).
Proof.
  unfold np_sub. intros H.
  destruct (Nat.eqb (List.length a) (List.length b)) eqn:E; [discriminate|].
  apply Nat.eqb_neq in E. split; [exact E|].
  destruct a as [|x [|x' a]]; destruct b as [|y [|y' b]];
    try discriminate; now inversion H.
Qed.

(** ** [calculate_mae] *)

Lemma calculate_mae_loop_same_shape (preds : list ndarray1) (y : ndarray1)
      (acc : list float64) :
  Forall (fun p => List.length p = List.length y) preds ->
  calculate_mae_loop preds y acc = Ok (acc ++ map (mae_of y) preds).
Proof.
  revert acc; induction preds as [|p preds IH]; intros acc Hall; simpl.
  - now rewrite app_nil_r.
  - inversion Hall as [|? ? Hp Hrest]; subst.
    rewrite (np_sub_same_shape _ _ Hp). simpl.
    rewrite (IH _ Hrest), <- app_assoc. reflexivity.
Qed.

Lemma calculate_mae_loop_mismatch (preds : list ndarray1) (y : ndarray1)
      (acc : list float64) :
  List.length y <> 1%nat ->
  (exists p, In p preds /\ List.length p <> List.length y
             /\ List.length p <> 1%nat) ->
  exists p, In p preds
            /\ List.length p <> List.length y
            /\ calculate_mae_loop preds y acc
               = Raise (broadcast_error (List.length p) (List.length y)).
Proof.
  intros Hy. revert acc; induction preds as [|p0 preds IH]; intros acc [p [Hin [Hne H1]]].
  - contradiction.
  - simpl. destruct (np_sub p0 y) as [diff|e] eqn:Esub.
    + simpl. destruct Hin as [E | Hin].
      * subst p0. rewrite np_sub_mismatch in Esub by assumption. discriminate.
      * destruct (IH (acc ++ [np_mean (np_abs diff)])) as [q [Hq Eq]].
        { exists p; auto. }
        exists q; split; [now right | exact Eq].
    + apply np_sub_raises in Esub. destruct Esub as [Hlen ->].
      exists p0; repeat split; [now left | exact Hlen].
Qed.

(** C4, as stated, fails: numpy stretches an array of length 1 over the
    other operand, so a prediction result of length 1 is scored against a
    ground truth of length 3, and a prediction result of length 3 against
    a ground truth of length 1, without any error. *)
Lemma calculate_mae_broadcasts_length_one :
  List.length [1%Q] <> List.length [1; 2; 3]%Q
  /\ calculate_mae [[1%Q]] [1; 2; 3]%Q = Ok [Fin (3 # 3)]
  /\ is_raise (calculate_mae [[1%Q]] [1; 2; 3]%Q) = false
  /\ List.length [1; 2; 3]%Q <> List.length [2%Q]
  /\ calculate_mae [[1; 2; 3]%Q] [2%Q] = Ok [Fin (2 # 3)]
  /\ is_raise (calculate_mae [[1; 2; 3]%Q] [2%Q]) = false.
Proof.
  split; [simpl; lia|]. split; [reflexivity|]. split; [reflexivity|].
  split; [simpl; lia|]. split; reflexivity.
Qed.

(** C4 (amended): when some prediction result has a length different from
    that of the ground truth, and neither that length nor the length of
    the ground truth is 1, [calculate_mae] returns no scores: it raises
    the [ValueError] of a failed broadcast, for the first prediction
    result that cannot be broadcast. *)
Theorem calculate_mae_dimension_mismatch
        (predictions_list : list ndarray1) (y_test : ndarray1) :
  List.length y_test <> 1%nat ->
  (exists p, In p predictions_list
             /\ List.length p <> List.length y_test
             /\ List.length p <> 1%nat) ->
  exists p, In p predictions_list
            /\ List.length p <> List.length y_test
            /\ calculate_mae predictions_list y_test
               = Raise (broadcast_error (List.length p) (List.length y_test)).
Proof.
  intros Hy Hbad. unfold calculate_mae.
  now apply calculate_mae_loop_mismatch.
Qed.

Lemma calculate_mae_dimension_mismatch_witness :
  List.length [1; 2; 3]%Q <> 1%nat
  /\ exists p, In p [[1; 2]; [4; 5; 6]; [7]]%Q
            /\ List.length p <> List.length [1; 2; 3]%Q
            /\ calculate_mae [[1; 2]; [4; 5; 6]; [7]]%Q [1; 2; 3]%Q
               = Raise (broadcast_error (List.length p) (List.length [1; 2; 3]%Q)).
Proof.
  split; [simpl; lia|].
  apply (calculate_mae_dimension_mismatch [[1; 2]; [4; 5; 6]; [7]]%Q [1; 2; 3]%Q).
  - simpl; lia.
  - exists [1; 2]%Q. simpl. repeat split; [now left | lia | lia].
Defined.

(** ** pandas frames *)

Lemma mem_label_app (l : label) (xs ys : list label) :
  mem_label l (xs ++ ys) = mem_label l xs || mem_label l ys.
Proof. unfold mem_label. apply existsb_app. Qed.

Lemma drop_present (df : DataFrame) (labels : list label) :
  has_columns df labels = true ->
  drop df labels = Ok (filter (fun c => negb (mem_label (fst c) labels)) df).
Proof.
  intros H. unfold drop.
  replace (filter (fun l => negb (mem_label l (columns df))) labels) with (@nil label);
    [reflexivity|].
  unfold has_columns in H. rewrite forallb_forall in H.
  induction labels as [|l labels IH]; [reflexivity|].
  simpl. rewrite (H l (or_introl eq_refl)). simpl.
  apply IH. intros x Hx. apply H. now right.
Qed.

Lemma traverse_numeric (v : Series) :
  forallb is_num v = true -> traverse float_of_cell v = Ok (map cell_value v).
Proof.
  induction v as [|c v IH]; simpl; [reflexivity|].
  intros H. apply andb_prop in H. destruct H as [Hc Hv].
  destruct c; [|discriminate]. simpl. now rewrite (IH Hv).
Qed.

Lemma astype_numeric (df : DataFrame) :
  forallb (fun c => forallb is_num (snd c)) df = true ->
  astype_float64 df = Ok (map (fun c => (fst c, map cell_value (snd c))) df).
Proof.
  unfold astype_float64.
  induction df as [|c df IH]; simpl; [reflexivity|].
  intros H. apply andb_prop in H. destruct H as [Hc Hdf].
  rewrite (traverse_numeric _ Hc). simpl. now rewrite (IH Hdf).
Qed.

Lemma cohort_table_group (F : imaging_features) (df : DataFrame) (feature : list label) :
  cohort_table F df = true -> In feature (ablation_order F) ->
  has_columns df (non_features ++ feature) = true.
Proof.
  unfold cohort_table. intros H Hin.
  apply andb_prop in H. destruct H as [H _].
  rewrite forallb_forall in H. now apply H.
Qed.

Lemma kept_not_non_feature (l : label) (feature : list label) :
  negb (mem_label l (non_features ++ feature)) = true ->
  mem_label l non_features = false.
Proof.
  rewrite mem_label_app.
  destruct (mem_label l non_features); [discriminate | reflexivity].
Qed.

Lemma drop_astype_cohort (F : imaging_features) (df : DataFrame) (feature : list label) :
  cohort_table F df = true -> In feature (ablation_order F) ->
  drop_astype df feature = Ok (features_without df feature).
Proof.
  intros H Hin. unfold drop_astype, features_without.
  rewrite (drop_present _ _ (cohort_table_group _ _ _ H Hin)). simpl.
  apply astype_numeric.
  unfold cohort_table in H. apply andb_prop in H. destruct H as [_ H].
  rewrite forallb_forall in *. intros c Hc.
  apply filter_In in Hc. destruct Hc as [Hc Hkeep].
  specialize (H c Hc). apply (kept_not_non_feature (fst c) feature) in Hkeep.
  cbv beta in H. rewrite Hkeep in H. exact H.
Qed.

Lemma columns_filter {V : Type} (p : label -> bool) (df : list (label * V)) :
  columns (filter (fun c => p (fst c)) df) = filter p (columns df).
Proof.
  unfold columns. induction df as [|c df IH]; [reflexivity|].
  cbn [filter map]. destruct (p (fst c)); cbn [map]; now rewrite IH.
Qed.

Lemma columns_features_without (df : DataFrame) (feature : list label) :
  columns (features_without df feature) = kept_columns df feature.
Proof.
  unfold features_without, kept_columns.
  rewrite <- (columns_filter (fun l => negb (mem_label l (non_features ++ feature)))).
  unfold columns. rewrite map_map. reflexivity.
Qed.

Lemma getitem_present (df : DataFrame) (key : label) :
  mem_label key (columns df) = true -> exists v, getitem df key = Ok v.
Proof.
  induction df as [|[l v] df IH]; simpl; [discriminate|].
  rewrite String.eqb_sym.
  destruct (String.eqb l key); simpl; [now exists v | exact IH].
Qed.

Lemma cohort_table_age (F : imaging_features) (df : DataFrame) :
  cohort_table F df = true ->
  exists y, getitem df "Age at Visit" = Ok y.
Proof.
  intros H. apply getitem_present.
  pose proof (cohort_table_group F df (hyperintensities_flair F) H
                                 (or_introl eq_refl)) as Hc.
  unfold has_columns in Hc. rewrite forallb_forall in Hc.
  apply Hc. now left.
Qed.

Lemma mem_label_In (l : label) (ls : list label) :
  mem_label l ls = true <-> In l ls.
Proof.
  unfold mem_label. rewrite existsb_exists. split.
  - intros [x [Hx E]]. apply String.eqb_eq in E. now subst.
  - intros H. exists l. split; [exact H | apply String.eqb_refl].
Qed.

Lemma traverse_columns (df : DataFrame) :
  forall X, astype_float64 df = Ok X -> columns X = columns df.
Proof.
  unfold astype_float64, DataFrame, Series in *.
  induction df as [|c df IH]; cbn [traverse]; intros X H.
  - inversion H. reflexivity.
  - destruct (traverse float_of_cell (snd c)) as [v|e]; cbn [rbind] in H;
      [|discriminate].
    destruct (traverse _ df) as [ys|e]; cbn [rbind] in H; [|discriminate].
    inversion H. unfold columns in *. cbn [map fst]. f_equal. now apply IH.
Qed.

Lemma drop_astype_columns (df : DataFrame) (feature : list label) (X : FloatFrame) :
  drop_astype df feature = Ok X -> columns X = kept_columns df feature.
Proof.
  unfold drop_astype, drop, kept_columns.
  destruct (filter _ (non_features ++ feature)); cbn [rbind]; [|discriminate].
  intros H. apply traverse_columns in H. rewrite H.
  apply (columns_filter (fun l => negb (mem_label l (non_features ++ feature)))).
Qed.


(** ** The logging monad *)

Section Laws.

Variable sk : Sklearn.

Lemma bind_ok {A B : Type} (log : list (call sk)) (a : A) (k : A -> M sk B) :
  bind (log, Ok a) k = (log ++ calls_of (k a), result_of (k a)).
Proof. unfold bind, calls_of, result_of. now destruct (k a). Qed.

Lemma bind_raise {A B : Type} (log : list (call sk)) (e : exn) (k : A -> M sk B) :
  bind (log, Raise e) k = (log, Raise e).
Proof. reflexivity. Qed.

Lemma bind_lift_ok {A B : Type} (a : A) (k : A -> M sk B) :
  bind (lift (Ok a)) k = k a.
Proof. unfold lift. rewrite bind_ok. simpl. now destruct (k a). Qed.

Lemma bind_ret {A B : Type} (a : A) (k : A -> M sk B) :
  bind (ret a) k = k a.
Proof. apply bind_lift_ok. Qed.

Lemma calls_of_bind {A B : Type} (m : M sk A) (k : A -> M sk B) :
  calls_of (bind m k)
  = calls_of m ++ match result_of m with
                  | Ok a => calls_of (k a)
                  | Raise _ => []
                  end.
Proof.
  destruct m as [log [a|e]].
  - rewrite bind_ok. reflexivity.
  - rewrite bind_raise. cbn. now rewrite app_nil_r.
Qed.

Lemma bind_inv {A B : Type} (m : M sk A) (k : A -> M sk B)
      (log : list (call sk)) (b : B) :
  bind m k = (log, Ok b) ->
  exists l1 a l2, m = (l1, Ok a) /\ k a = (l2, Ok b) /\ log = l1 ++ l2.
Proof.
  destruct m as [l1 [a|e]]; [|discriminate].
  rewrite bind_ok. destruct (k a) as [l2 r] eqn:E. cbn. intros H.
  inversion H; subst. now exists l1, a, l2.
Qed.

Lemma lift_inv {A : Type} (r : result A) (log : list (call sk)) (a : A) :
  lift r = (log, Ok a) -> r = Ok a /\ log = [].
Proof. unfold lift. intros H. now inversion H. Qed.

Lemma ret_inv {A : Type} (a b : A) (log : list (call sk)) :
  ret a = (log, Ok b) -> a = b /\ log = [].
Proof. unfold ret. intros H. now inversion H. Qed.

Lemma library_call_inv {A : Type} (c : call sk) (error : option exn) (value a : A)
      (log : list (call sk)) :
  library_call c error value = (log, Ok a) ->
  error = None /\ log = [c] /\ a = value.
Proof.
  unfold library_call. destruct error; intros H; inversion H. now repeat split.
Qed.

Lemma library_call_calls {A : Type} (c : call sk) (error : option exn) (value : A) :
  calls_of (library_call c error value) = [c].
Proof. unfold library_call. now destruct error. Qed.

(** ** [predict_ages] *)

Lemma predict_ages_returns (m : model sk) (s : scaler sk) (X : FloatFrame) :
  transform_error sk s X = None ->
  predict_error sk m (scaler_transform sk s X) = None ->
  predict_ages sk m s X
  = ([Call_transform s X; Call_predict m (scaler_transform sk s X)],
     Ok (rounded_prediction sk m s X)).
Proof.
  intros H1 H2. unfold predict_ages, transform, predict, library_call.
  rewrite H1, bind_ok, H2. reflexivity.
Qed.

Lemma predict_ages_inv (m : model sk) (s : scaler sk) (X : FloatFrame)
      (p : ndarray1) :
  result_of (predict_ages sk m s X) = Ok p ->
  transform_error sk s X = None
  /\ predict_error sk m (scaler_transform sk s X) = None
  /\ p = rounded_prediction sk m s X.
Proof.
  unfold predict_ages, transform, predict, library_call.
  destruct (transform_error sk s X); [discriminate|].
  rewrite bind_ok.
  destruct (predict_error sk m (scaler_transform sk s X)); [discriminate|].
  cbn. intros H. inversion H. now repeat split.
Qed.

Lemma predict_ages_run (m : model sk) (s : scaler sk) (X : FloatFrame)
      (p : ndarray1) :
  result_of (predict_ages sk m s X) = Ok p ->
  predict_ages sk m s X
  = ([Call_transform s X; Call_predict m (scaler_transform sk s X)], Ok p).
Proof.
  intros H. destruct (predict_ages_inv m s X p H) as [H1 [H2 ->]].
  now apply predict_ages_returns.
Qed.

Lemma predict_ages_calls (m : model sk) (s : scaler sk) (X : FloatFrame) :
  calls_of (predict_ages sk m s X) = [Call_transform s X]
  \/ calls_of (predict_ages sk m s X)
     = [Call_transform s X; Call_predict m (scaler_transform sk s X)].
Proof.
  unfold predict_ages, transform, predict, library_call.
  destruct (transform_error sk s X); [now left|].
  rewrite bind_ok.
  destruct (predict_error sk m (scaler_transform sk s X)); now right.
Qed.

(** ** [train_model] *)

(** When every call returns. *)
Lemma train_model_ridge (X : FloatFrame) (y : Series) (scaler_type : string) :
  let s := scaler_fit sk (chosen_scaler scaler_type) X in
  let Xn := scaler_transform sk s X in
  let alpha_ := RidgeCV_alpha_ sk ridge_alphas "neg_mean_absolute_error"
                               cv_scheme Xn y in
  fit_transform_error sk (chosen_scaler scaler_type) X = None ->
  RidgeCV_fit_error sk ridge_alphas "neg_mean_absolute_error" cv_scheme Xn y = None ->
  fit_error sk (Ridge alpha_) Xn y = None ->
  train_model sk X y "ridge" scaler_type
  = ([Call_fit_transform (chosen_scaler scaler_type) X;
      Call_RidgeCV_fit ridge_alphas "neg_mean_absolute_error" cv_scheme Xn y;
      Call_fit (Ridge alpha_) Xn y],
     Ok (estimator_fit sk (Ridge alpha_) Xn y, s)).
Proof.
  cbv zeta. intros H1 H2 H3.
  unfold train_model, fit_transform, RidgeCV_fit, fit, library_call, bind, ret.
  fold (chosen_scaler scaler_type). fold cv_scheme.
  rewrite H1. cbv beta iota. cbn [String.eqb Ascii.eqb Bool.eqb].
  rewrite H2. cbv beta iota. rewrite H3. reflexivity.
Qed.

Lemma train_model_svm (X : FloatFrame) (y : Series) (scaler_type : string) :
  let s := scaler_fit sk (chosen_scaler scaler_type) X in
  let Xn := scaler_transform sk s X in
  let best := GridSearchCV_best_params_ sk svr_param_grid "neg_mean_absolute_error"
                                        cv_scheme (-1)%Z Xn y in
  fit_transform_error sk (chosen_scaler scaler_type) X = None ->
  GridSearchCV_fit_error sk svr_param_grid "neg_mean_absolute_error" cv_scheme
                         (-1)%Z Xn y = None ->
  fit_error sk (SVR best) Xn y = None ->
  train_model sk X y "svm" scaler_type
  = ([Call_fit_transform (chosen_scaler scaler_type) X;
      Call_GridSearchCV_fit svr_param_grid "neg_mean_absolute_error"
                            cv_scheme (-1)%Z Xn y;
      Call_fit (SVR best) Xn y],
     Ok (estimator_fit sk (SVR best) Xn y, s)).
Proof.
  cbv zeta. intros H1 H2 H3.
  unfold train_model, fit_transform, GridSearchCV_fit, fit, library_call, bind, ret.
  fold (chosen_scaler scaler_type). fold cv_scheme.
  rewrite H1. cbv beta iota. cbn [String.eqb Ascii.eqb Bool.eqb].
  rewrite H2. cbv beta iota. rewrite H3. reflexivity.
Qed.

(** With a selector that is neither ['ridge'] nor ['svm'], the scaler is
    fitted and nothing else is called. *)
Lemma train_model_unsupported (X : FloatFrame) (y : Series)
      (model_type scaler_type : string) :
  model_type <> "ridge" -> model_type <> "svm" ->
  train_model sk X y model_type scaler_type
  = ([Call_fit_transform (chosen_scaler scaler_type) X],
     match fit_transform_error sk (chosen_scaler scaler_type) X with
     | Some e => Raise e
     | None => Raise (ValueError ("Unsupported model type: " ++ model_type))
     end).
Proof.
  intros Hr Hs. unfold train_model, fit_transform, library_call.
  fold (chosen_scaler scaler_type).
  apply String.eqb_neq in Hr, Hs.
  destruct (fit_transform_error sk (chosen_scaler scaler_type) X); [reflexivity|].
  rewrite bind_ok, Hr, Hs. reflexivity.
Qed.

(** What a call that returned has done. *)
Lemma train_model_inv (X : FloatFrame) (y : Series) (model_type scaler_type : string)
      (log : list (call sk)) (m : model sk) (s : scaler sk) :
  train_model sk X y model_type scaler_type = (log, Ok (m, s)) ->
  let Xn := scaler_transform sk (scaler_fit sk (chosen_scaler scaler_type) X) X in
  s = scaler_fit sk (chosen_scaler scaler_type) X
  /\ exists search e,
       log = [Call_fit_transform (chosen_scaler scaler_type) X; search;
              Call_fit e Xn y]
       /\ m = estimator_fit sk e Xn y
       /\ ((model_type = "ridge"
            /\ search = Call_RidgeCV_fit ridge_alphas "neg_mean_absolute_error"
                                         cv_scheme Xn y
            /\ e = Ridge (RidgeCV_alpha_ sk ridge_alphas "neg_mean_absolute_error"
                                         cv_scheme Xn y))
           \/ (model_type = "svm"
               /\ search = Call_GridSearchCV_fit svr_param_grid
                             "neg_mean_absolute_error" cv_scheme (-1)%Z Xn y
               /\ e = SVR (GridSearchCV_best_params_ sk svr_param_grid
                             "neg_mean_absolute_error" cv_scheme (-1)%Z Xn y))).
Proof.
  cbv zeta. unfold train_model.
  fold (chosen_scaler scaler_type). fold cv_scheme. intros H.
  apply bind_inv in H. destruct H as [l1 [[s0 Xn] [l2 [H1 [H2 ->]]]]].
  apply library_call_inv in H1. destruct H1 as [_ [-> E]]. inversion E; subst.
  apply bind_inv in H2. destruct H2 as [l3 [e [l4 [H3 [H4 ->]]]]].
  apply bind_inv in H4. destruct H4 as [l5 [fm [l6 [H5 [H6 ->]]]]].
  apply library_call_inv in H5. destruct H5 as [_ [-> ->]].
  apply ret_inv in H6. destruct H6 as [E6 ->]. inversion E6; subst.
  split; [reflexivity|].
  destruct (String.eqb model_type "ridge") eqn:Er.
  - apply String.eqb_eq in Er.
    apply bind_inv in H3. destruct H3 as [l7 [a [l8 [H7 [H8 ->]]]]].
    apply library_call_inv in H7. destruct H7 as [_ [-> ->]].
    apply ret_inv in H8. destruct H8 as [<- ->].
    eexists. eexists. split; [reflexivity|]. split; [reflexivity|].
    left. now repeat split.
  - destruct (String.eqb model_type "svm") eqn:Es; [|discriminate].
    apply String.eqb_eq in Es.
    apply bind_inv in H3. destruct H3 as [l7 [a [l8 [H7 [H8 ->]]]]].
    apply library_call_inv in H7. destruct H7 as [_ [-> ->]].
    apply ret_inv in H8. destruct H8 as [<- ->].
    eexists. eexists. split; [reflexivity|]. split; [reflexivity|].
    right. now repeat split.
Qed.

(** Whatever the outcome, the calls are among: the scaler fit on [X], a
    search on the scaled [X] and [y], an estimator fit on the same. *)
Lemma train_model_calls (X : FloatFrame) (y : Series) (model_type scaler_type : string)
      (P : call sk -> Prop) :
  let Xn := scaler_transform sk (scaler_fit sk (chosen_scaler scaler_type) X) X in
  P (Call_fit_transform (chosen_scaler scaler_type) X) ->
  P (Call_RidgeCV_fit ridge_alphas "neg_mean_absolute_error" cv_scheme Xn y) ->
  P (Call_GridSearchCV_fit svr_param_grid "neg_mean_absolute_error" cv_scheme
                           (-1)%Z Xn y) ->
  (forall e, P (Call_fit e Xn y)) ->
  Forall P (calls_of (train_model sk X y model_type scaler_type)).
Proof.
  cbv zeta. intros Hft Hr Hg Hfit.
  unfold train_model, fit_transform, RidgeCV_fit, GridSearchCV_fit, fit,
    library_call, bind, ret, raise, calls_of.
  fold (chosen_scaler scaler_type). fold cv_scheme.
  destruct (fit_transform_error sk (chosen_scaler scaler_type) X);
    cbv beta iota; [now repeat constructor|].
  destruct (String.eqb model_type "ridge").
  - destruct (RidgeCV_fit_error sk _ _ _ _ _); cbv beta iota;
      [cbn; now repeat constructor|].
    destruct (fit_error sk _ _ _); cbn; repeat constructor; auto.
  - destruct (String.eqb model_type "svm"); [|cbn; now repeat constructor].
    destruct (GridSearchCV_fit_error sk _ _ _ _ _ _); cbv beta iota;
      [cbn; now repeat constructor|].
    destruct (fit_error sk _ _ _); cbn; repeat constructor; auto.
Qed.

End Laws.

(** ** The ablation loop *)

Lemma count_calls_app {sk : Sklearn} (p : call sk -> bool) (l1 l2 : list (call sk)) :
  count_calls p (l1 ++ l2) = (count_calls p l1 + count_calls p l2)%nat.
Proof. unfold count_calls. now rewrite filter_app, length_app. Qed.

(** A pass that returned is an [iteration]. *)
Lemma ablation_body_inv
      (sk : Sklearn) (df_train_control df_test_disease : DataFrame)
      (model_type scalar_type : string) (df_test_control : option DataFrame)
      (acc acc' : results_t) (feature : list label) (log : list (call sk)) :
  ablation_body sk df_train_control df_test_disease model_type scalar_type
                df_test_control acc feature = (log, Ok acc') ->
  exists it,
    it_feature it = feature
    /\ iteration_of sk df_train_control df_test_disease
                    model_type scalar_type df_test_control it
    /\ log = it_log it
    /\ acc' = (fst acc ++ [it_pred_disease it], snd acc ++ it_pred_control it).
Proof.
  unfold ablation_body. destruct acc as [rd rc].
  destruct (drop_astype df_train_control feature) as [Xtr|e] eqn:Etr;
    [|discriminate].
  destruct (drop_astype df_test_disease feature) as [Xd|e] eqn:Edi;
    [|discriminate].
  destruct (getitem df_train_control "Age at Visit") as [y|e] eqn:Ey;
    [|discriminate].
  rewrite !bind_lift_ok.
  destruct (train_model sk Xtr y model_type scalar_type) as [tlog [[m s]|e]] eqn:Etm;
    [|discriminate].
  rewrite bind_ok.
  destruct (predict_ages sk m s Xd) as [plog [pd|e]] eqn:Epd; [|discriminate].
  pose proof (predict_ages_run sk m s Xd pd (f_equal snd Epd)) as Hpd.
  destruct (predict_ages_inv sk m s Xd pd (f_equal snd Epd)) as [_ [_ Hpdv]].
  rewrite Epd in Hpd. inversion Hpd; subst plog. clear Hpd.
  rewrite bind_ok.
  destruct df_test_control as [d|].
  - destruct (drop_astype d feature) as [Xc|e] eqn:Ec; [|discriminate].
    rewrite bind_lift_ok.
    destruct (predict_ages sk m s Xc) as [clog [pc|e]] eqn:Epc; [|discriminate].
    pose proof (predict_ages_run sk m s Xc pc (f_equal snd Epc)) as Hpc.
    destruct (predict_ages_inv sk m s Xc pc (f_equal snd Epc)) as [_ [_ Hpcv]].
    rewrite Epc in Hpc. inversion Hpc; subst clog. clear Hpc.
    rewrite bind_ok. cbn [calls_of result_of fst snd ret]. intros H.
    inversion H; subst. clear H.
    exists {| it_feature := feature; it_X_train := Xtr; it_y_train := y;
              it_X_disease := Xd; it_X_control := Some Xc;
              it_model := m; it_scaler := s; it_train_log := tlog |}.
    split; [reflexivity|]. split.
    { unfold iteration_of, it_pred_disease;
        cbn [it_feature it_X_train it_y_train it_X_disease it_X_control
             it_model it_scaler it_train_log].
      repeat split; try assumption.
      - now rewrite Epd.
      - exists Xc. repeat split; try assumption. now rewrite Epc. }
    unfold it_log, it_pred_disease, it_pred_control;
      cbn [it_X_disease it_X_control it_model it_scaler it_train_log].
    rewrite Epd, Epc. cbn [calls_of fst snd].
    rewrite ?app_nil_r, <- ?app_assoc. split; reflexivity.
  - cbn [calls_of result_of fst snd ret]. intros H. inversion H; subst. clear H.
    exists {| it_feature := feature; it_X_train := Xtr; it_y_train := y;
              it_X_disease := Xd; it_X_control := None;
              it_model := m; it_scaler := s; it_train_log := tlog |}.
    split; [reflexivity|]. split.
    { unfold iteration_of, it_pred_disease;
        cbn [it_feature it_X_train it_y_train it_X_disease it_X_control
             it_model it_scaler it_train_log].
      repeat split; try assumption. now rewrite Epd. }
    unfold it_log, it_pred_disease, it_pred_control;
      cbn [it_X_disease it_X_control it_model it_scaler it_train_log].
    rewrite Epd. cbn [calls_of fst snd].
    rewrite ?app_nil_r, <- ?app_assoc. split; reflexivity.
Qed.

(** Conversely, the calls of an [iteration] make the pass return. *)
Lemma ablation_body_of_iteration
      (sk : Sklearn) (df_train_control df_test_disease : DataFrame)
      (model_type scalar_type : string) (df_test_control : option DataFrame)
      (acc : results_t) (it : iteration sk) :
  iteration_of sk df_train_control df_test_disease
               model_type scalar_type df_test_control it ->
  ablation_body sk df_train_control df_test_disease model_type scalar_type
                df_test_control acc (it_feature it)
  = (it_log it, Ok (fst acc ++ [it_pred_disease it], snd acc ++ it_pred_control it)).
Proof.
  intros [Htr [Hdi [Hy [Htm [Hpd Hc]]]]].
  unfold ablation_body. destruct acc as [rd rc].
  rewrite Htr, Hdi, Hy, !bind_lift_ok, Htm, bind_ok.
  apply predict_ages_run in Hpd.
  unfold it_log, it_pred_control. rewrite Hpd, bind_ok.
  destruct df_test_control as [d|].
  - destruct Hc as [X [HX [Hd Hpc]]]. rewrite HX, Hd, bind_lift_ok.
    apply predict_ages_run in Hpc. rewrite Hpc, bind_ok.
    cbn [calls_of result_of fst snd ret].
    rewrite ?app_nil_r, <- ?app_assoc. reflexivity.
  - rewrite Hc. cbn [calls_of result_of fst snd ret].
    rewrite ?app_nil_r, <- ?app_assoc. reflexivity.
Qed.

Lemma for_each_inv
      (sk : Sklearn) (df_train_control df_test_disease : DataFrame)
      (model_type scalar_type : string) (df_test_control : option DataFrame)
      (features : list (list label)) :
  forall (acc acc' : results_t) (log : list (call sk)),
    for_each (ablation_body sk df_train_control df_test_disease
                            model_type scalar_type df_test_control)
             features acc = (log, Ok acc') ->
    exists its,
      map it_feature its = features
      /\ Forall (iteration_of sk df_train_control df_test_disease
                              model_type scalar_type df_test_control) its
      /\ log = flat_map it_log its
      /\ acc' = (fst acc ++ map it_pred_disease its,
                 snd acc ++ flat_map it_pred_control its).
Proof.
  induction features as [|feature features IH]; intros acc acc' log H.
  - apply ret_inv in H. destruct H as [<- ->].
    exists []. repeat split; try constructor.
    cbn. rewrite !app_nil_r. now destruct acc.
  - cbn [for_each] in H. apply bind_inv in H.
    destruct H as [l1 [a1 [l2 [H1 [H2 ->]]]]].
    apply ablation_body_inv in H1. destruct H1 as [it [Hf [Hit [-> ->]]]].
    apply IH in H2. destruct H2 as [its [Hfs [Hall [-> ->]]]].
    exists (it :: its). split; [cbn; congruence|].
    split; [now constructor|]. split; [reflexivity|].
    cbn [fst snd map flat_map]. now rewrite <- !app_assoc.
Qed.

Lemma for_each_of_iterations
      (sk : Sklearn) (df_train_control df_test_disease : DataFrame)
      (model_type scalar_type : string) (df_test_control : option DataFrame)
      (its : list (iteration sk)) :
  Forall (iteration_of sk df_train_control df_test_disease
                       model_type scalar_type df_test_control) its ->
  forall acc : results_t,
    for_each (ablation_body sk df_train_control df_test_disease
                            model_type scalar_type df_test_control)
             (map it_feature its) acc
    = (flat_map it_log its,
       Ok (fst acc ++ map it_pred_disease its,
           snd acc ++ flat_map it_pred_control its)).
Proof.
  induction 1 as [|it its Hit _ IH]; intros acc.
  - cbn. rewrite !app_nil_r. now destruct acc.
  - cbn [map for_each].
    rewrite (ablation_body_of_iteration _ _ _ _ _ _ acc it Hit), bind_ok, IH.
    cbn [calls_of result_of fst snd flat_map map].
    now rewrite <- !app_assoc.
Qed.

(** A run of [evaluate_feature_ablation] that returned: seven passes, one
    per feature group in the order of the loop, whose predictions make up
    the two result lists and whose calls make up the log. *)
Lemma evaluate_feature_ablation_run
      (sk : Sklearn) (F : imaging_features)
      (df_train_control df_test_disease : DataFrame)
      (model_type scalar_type : string) (df_test_control : option DataFrame)
      (log : list (call sk)) (results_disease results_control : list ndarray1) :
  evaluate_feature_ablation sk F df_train_control df_test_disease
                            model_type scalar_type df_test_control
  = (log, Ok (results_disease, results_control)) ->
  exists its,
    map it_feature its = ablation_order F
    /\ Forall (iteration_of sk df_train_control df_test_disease
                            model_type scalar_type df_test_control) its
    /\ log = flat_map it_log its
    /\ results_disease = map it_pred_disease its
    /\ results_control = flat_map it_pred_control its.
Proof.
  unfold evaluate_feature_ablation. intros H.
  apply for_each_inv in H. destruct H as [its [Hfs [Hall [-> E]]]].
  exists its. cbn in E. inversion E. now repeat split.
Qed.

Lemma evaluate_feature_ablation_result
      (sk : Sklearn) (F : imaging_features)
      (df_train_control df_test_disease : DataFrame)
      (model_type scalar_type : string) (df_test_control : option DataFrame)
      (results_disease results_control : list ndarray1) :
  result_of (evaluate_feature_ablation sk F df_train_control df_test_disease
                                       model_type scalar_type df_test_control)
  = Ok (results_disease, results_control) ->
  exists its,
    map it_feature its = ablation_order F
    /\ Forall (iteration_of sk df_train_control df_test_disease
                            model_type scalar_type df_test_control) its
    /\ calls_of (evaluate_feature_ablation sk F df_train_control df_test_disease
                                           model_type scalar_type df_test_control)
       = flat_map it_log its
    /\ results_disease = map it_pred_disease its
    /\ results_control = flat_map it_pred_control its.
Proof.
  destruct (evaluate_feature_ablation sk F df_train_control df_test_disease
                                      model_type scalar_type df_test_control)
    as [log r] eqn:E.
  cbn [result_of calls_of fst snd]. intros ->.
  now apply evaluate_feature_ablation_run in E.
Qed.

(** The call returns as soon as each group has its [iteration]: the
    passes do not depend on each other. *)
Lemma evaluate_feature_ablation_returns
      (sk : Sklearn) (F : imaging_features)
      (df_train_control df_test_disease : DataFrame)
      (model_type scalar_type : string) (df_test_control : option DataFrame)
      (its : list (iteration sk)) :
  map it_feature its = ablation_order F ->
  Forall (iteration_of sk df_train_control df_test_disease
                       model_type scalar_type df_test_control) its ->
  evaluate_feature_ablation sk F df_train_control df_test_disease
                            model_type scalar_type df_test_control
  = (flat_map it_log its,
     Ok (map it_pred_disease its, flat_map it_pred_control its)).
Proof.
  intros Hfs Hall. unfold evaluate_feature_ablation. rewrite <- Hfs.
  now rewrite (for_each_of_iterations _ _ _ _ _ _ its Hall ([], [])).
Qed.

Lemma predict_ages_not_raise
      (sk : Sklearn) (m : model sk) (s : scaler sk) (X : FloatFrame) :
  is_raise (result_of (predict_ages sk m s X)) = false ->
  result_of (predict_ages sk m s X) = Ok (rounded_prediction sk m s X).
Proof.
  destruct (result_of (predict_ages sk m s X)) as [p|e] eqn:E; [|discriminate].
  intros _. now destruct (predict_ages_inv sk m s X p E) as [_ [_ ->]].
Qed.

Lemma iteration_of_pass
      (sk : Sklearn) (df_train_control df_test_disease : DataFrame)
      (model_type scalar_type : string) (df_test_control : option DataFrame)
      (feature : list label) :
  pass_returns sk df_train_control df_test_disease model_type scalar_type
               df_test_control feature ->
  exists it, it_feature it = feature
             /\ iteration_of sk df_train_control df_test_disease
                             model_type scalar_type df_test_control it.
Proof.
  intros [Xtr [Xd [y [m [s [H1 [H2 [H3 [H4 [H5 H6]]]]]]]]]].
  destruct (train_model sk Xtr y model_type scalar_type) as [log r] eqn:Et.
  cbn [result_of snd] in H4. subst r.
  apply predict_ages_not_raise in H5.
  destruct df_test_control as [d|].
  - destruct H6 as [Xc [H6 H7]]. apply predict_ages_not_raise in H7.
    exists {| it_feature := feature; it_X_train := Xtr; it_y_train := y;
              it_X_disease := Xd; it_X_control := Some Xc;
              it_model := m; it_scaler := s; it_train_log := log |}.
    split; [reflexivity|]. unfold iteration_of, it_pred_disease. cbn.
    repeat split; try assumption. now exists Xc.
  - exists {| it_feature := feature; it_X_train := Xtr; it_y_train := y;
              it_X_disease := Xd; it_X_control := None;
              it_model := m; it_scaler := s; it_train_log := log |}.
    split; [reflexivity|]. unfold iteration_of, it_pred_disease. cbn.
    repeat split; assumption.
Qed.

Lemma iterations_of_passes
      (sk : Sklearn) (df_train_control df_test_disease : DataFrame)
      (model_type scalar_type : string) (df_test_control : option DataFrame)
      (features : list (list label)) :
  (forall feature, In feature features ->
     pass_returns sk df_train_control df_test_disease model_type scalar_type
                  df_test_control feature) ->
  exists its, map it_feature its = features
              /\ Forall (iteration_of sk df_train_control df_test_disease
                                      model_type scalar_type df_test_control) its.
Proof.
  induction features as [|feature features IH]; intros H.
  - exists []. split; [reflexivity | constructor].
  - destruct (iteration_of_pass _ _ _ _ _ _ _ (H feature (or_introl eq_refl)))
      as [it [Hf Hit]].
    destruct IH as [its [Hfs Hall]]; [intros f Hin; apply H; now right|].
    exists (it :: its). split; [cbn; now rewrite Hf, Hfs | now constructor].
Qed.

(** The loop adds no failure of its own: the call returns when every
    step of every pass returns. *)
Lemma evaluate_returns_when_passes_return
      (sk : Sklearn) (F : imaging_features)
      (df_train_control df_test_disease : DataFrame)
      (model_type scalar_type : string) (df_test_control : option DataFrame) :
  (forall feature, In feature (ablation_order F) ->
     pass_returns sk df_train_control df_test_disease model_type scalar_type
                  df_test_control feature) ->
  exists results_disease results_control,
    result_of (evaluate_feature_ablation sk F df_train_control df_test_disease
                                         model_type scalar_type df_test_control)
    = Ok (results_disease, results_control).
Proof.
  intros H.
  destruct (iterations_of_passes _ _ _ _ _ _ _ H) as [its [Hfs Hall]].
  rewrite (evaluate_feature_ablation_returns sk F _ _ _ _ _ its Hfs Hall).
  now do 2 eexists.
Qed.

Lemma iteration_control_none
      (sk : Sklearn) (df_train_control df_test_disease : DataFrame)
      (model_type scalar_type : string) (its : list (iteration sk)) :
  Forall (iteration_of sk df_train_control df_test_disease
                       model_type scalar_type None) its ->
  flat_map it_pred_control its = [].
Proof.
  induction 1 as [|it its Hit _ IH]; [reflexivity|].
  simpl. rewrite IH, app_nil_r.
  unfold it_pred_control. destruct Hit as [_ [_ [_ [_ [_ Hc]]]]]. now rewrite Hc.
Qed.

Lemma control_predictions_supplied
      (sk : Sklearn) (df_train_control df_test_disease d : DataFrame)
      (model_type scalar_type : string) (its : list (iteration sk)) :
  Forall (iteration_of sk df_train_control df_test_disease
                       model_type scalar_type (Some d)) its ->
  flat_map it_pred_control its
  = map (fun it => rounded_prediction sk (it_model it) (it_scaler it)
                                      (it_control_frame it)) its.
Proof.
  induction 1 as [|it its Hit _ IH]; [reflexivity|].
  cbn [flat_map map]. rewrite IH.
  destruct Hit as [_ [_ [_ [_ [_ [X [HX _]]]]]]].
  unfold it_pred_control, it_control_frame. now rewrite HX.
Qed.

Lemma pass_at {sk : Sklearn} (its : list (iteration sk)) (features : list (list label))
      (i : nat) (feature : list label) :
  map it_feature its = features ->
  nth_error features i = Some feature ->
  exists it, nth_error its i = Some it /\ it_feature it = feature.
Proof.
  intros <- H. rewrite nth_error_map in H.
  destruct (nth_error its i) as [it|]; [|discriminate].
  exists it. split; [reflexivity|]. now inversion H.
Qed.

Lemma feature_sets_resolve (F : imaging_features) :
  map (getattr F) feature_sets = map Some (ablation_order F).
Proof. reflexivity. Qed.

Lemma seven_passes {sk : Sklearn} (F : imaging_features) (its : list (iteration sk)) :
  map it_feature its = ablation_order F -> List.length its = 7%nat.
Proof. intros H. now rewrite <- (length_map it_feature), H. Qed.

(** The calls of one pass that returned: the three calls of the training
    and the two calls of each prediction. *)
Lemma iteration_log
      (sk : Sklearn) (df_train_control df_test_disease : DataFrame)
      (model_type scalar_type : string) (df_test_control : option DataFrame)
      (it : iteration sk) :
  iteration_of sk df_train_control df_test_disease model_type scalar_type
               df_test_control it ->
  count_calls is_scaler_fit (it_log it) = 1%nat
  /\ count_calls is_search (it_log it) = 1%nat
  /\ count_calls is_estimator_fit (it_log it) = 1%nat
  /\ count_calls is_predict (it_log it)
     = match df_test_control with Some _ => 2%nat | None => 1%nat end.
Proof.
  intros [Htr [Hdi [Hy [Htm [Hpd Hc]]]]].
  destruct (train_model_inv sk _ _ _ _ _ _ _ Htm) as [_ [search [e [Hlog [_ Hs]]]]].
  apply predict_ages_run in Hpd.
  unfold it_log. rewrite Hlog, Hpd. cbn [calls_of fst].
  assert (Hsearch : is_search search = true /\ is_scaler_fit search = false
                    /\ is_estimator_fit search = false /\ is_predict search = false).
  { destruct Hs as [[_ [-> _]] | [_ [-> _]]]; now repeat split. }
  destruct Hsearch as [S1 [S2 [S3 S4]]].
  destruct df_test_control as [d|].
  - destruct Hc as [X [-> [_ Hpc]]]. apply predict_ages_run in Hpc. rewrite Hpc.
    unfold count_calls.
    cbn [calls_of fst app filter is_scaler_fit is_search is_estimator_fit is_predict].
    rewrite S1, S2, S3, S4. now repeat split.
  - rewrite Hc. unfold count_calls.
    cbn [calls_of fst app filter is_scaler_fit is_search is_estimator_fit is_predict].
    rewrite S1, S2, S3, S4. now repeat split.
Qed.

(** ** The regularisation grid *)

Lemma linspace_length (start stop : Q) (num : nat) :
  List.length (linspace start stop num) = num.
Proof. unfold linspace. now rewrite length_map, length_seq. Qed.

Lemma linspace_nth (start stop : Q) (num i : nat) :
  (i < num)%nat ->
  exists e,
    nth_error (linspace start stop num) i = Some e
    /\ (e == start + inject_Z (Z.of_nat i)
                     * ((stop - start) / inject_Z (Z.of_nat (num - 1))))%Q.
Proof.
  intros Hi. unfold linspace.
  rewrite nth_error_map, nth_error_seq.
  rewrite (proj2 (Nat.ltb_lt _ _) Hi). cbn [option_map Nat.add].
  eexists; split; [reflexivity|].
  destruct (Nat.eqb (S i) num) eqn:Elast; [|reflexivity].
  apply Nat.eqb_eq in Elast.
  destruct (Nat.eqb i 0) eqn:Ezero.
  - apply Nat.eqb_eq in Ezero. subst i. simpl. ring.
  - apply Nat.eqb_neq in Ezero.
    replace (num - 1)%nat with i by lia.
    assert (Hnz : ~ (inject_Z (Z.of_nat i) == 0)%Q).
    { unfold Qeq, inject_Z. simpl. lia. }
    field. exact Hnz.
Qed.

Lemma Q2R_inject_Z (z : Z) : Q2R (inject_Z z) = IZR z.
Proof. unfold Q2R, inject_Z. simpl. rewrite Rinv_1. apply Rmult_1_r. Qed.

Lemma ridge_alphas_nth (i : nat) :
  (i < 100)%nat ->
  nth_error ridge_alphas i = Some (Rpower 10 (10 - 12 * INR i / 99) * / 2)%R.
Proof.
  intros Hi. unfold ridge_alphas.
  destruct (linspace_nth 10 (-2) 100 i Hi) as [e [He Heq]].
  rewrite nth_error_map, He. cbn [option_map]. f_equal.
  apply Qeq_eqR in Heq. rewrite Heq.
  rewrite Q2R_plus, Q2R_mult, Q2R_div, Q2R_minus, !Q2R_inject_Z.
  - change (Q2R 10) with (Q2R (inject_Z 10)).
    change (Q2R (-2)) with (Q2R (inject_Z (-2))).
    rewrite !Q2R_inject_Z, <- INR_IZR_INZ.
    replace (Q2R (1 # 2)) with (/ 2)%R by (unfold Q2R; simpl; Lra.lra).
    f_equal. f_equal. simpl Z.of_nat. field.
  - unfold Qeq, inject_Z. simpl. lia.
Qed.

Lemma ridge_alphas_length : List.length ridge_alphas = 100%nat.
Proof. unfold ridge_alphas. now rewrite length_map, linspace_length. Qed.

Lemma ridge_alphas_first : nth_error ridge_alphas 0 = Some (10 ^ 10 * / 2)%R.
Proof.
  rewrite ridge_alphas_nth by lia. do 2 f_equal.
  replace (10 - 12 * INR 0 / 99)%R with (INR 10) by (simpl; field).
  apply Rpower_pow. Lra.lra.
Qed.

Lemma ridge_alphas_last : nth_error ridge_alphas 99 = Some (/ 10 ^ 2 * / 2)%R.
Proof.
  rewrite ridge_alphas_nth by lia. do 2 f_equal.
  replace (10 - 12 * INR 99 / 99)%R with (- INR 2)%R.
  - rewrite Rpower_Ropp, Rpower_pow by Lra.lra. reflexivity.
  - rewrite !INR_IZR_INZ. simpl Z.of_nat. field.
Qed.

Lemma ridge_alphas_ratio (i : nat) :
  (i < 99)%nat ->
  exists a b,
    nth_error ridge_alphas i = Some a
    /\ nth_error ridge_alphas (S i) = Some b
    /\ b = (a * Rpower 10 (- 12 / 99))%R.
Proof.
  intros Hi. do 2 eexists.
  split; [apply ridge_alphas_nth; lia|].
  split; [apply ridge_alphas_nth; lia|].
  rewrite Rmult_assoc, (Rmult_comm (/ 2)), <- Rmult_assoc, <- Rpower_plus.
  f_equal. f_equal. rewrite S_INR. field.
Qed.


(** ** Claims about [train_model] *)

(** C6, as stated, fails: the scaler is fitted before the model type is
    looked at, so on a training frame without rows the call ends in the
    scaler's own [ValueError], which does not name the selector. *)
Lemma train_model_selector_error_after_scaler_fit :
  "lasso" <> "ridge" /\ "lasso" <> "svm"
  /\ train_model Baseline.sk Demo.no_rows [] "lasso" "minmax"
     = ([Call_fit_transform MinMaxScaler Demo.no_rows],
        Raise (ValueError ("Found array with 0 sample(s) (shape=(0, 2)) while "
                           ++ "a minimum of 1 is required by MinMaxScaler.")))
  /\ result_of (train_model Baseline.sk Demo.no_rows [] "lasso" "minmax")
     <> Raise (ValueError ("Unsupported model type: " ++ "lasso")).
Proof.
  split; [discriminate|]. split; [discriminate|].
  split; [reflexivity | discriminate].
Qed.

(** C6 (amended): with a model type other than ['ridge'] and ['svm'],
    [train_model] never returns and fits no estimator: its only library
    call is the scaler's [fit_transform] on the training features. When
    that call returns, [train_model] raises a [ValueError] whose message
    ends with the selector it was given; when it raises, its exception is
    the one [train_model] raises. *)
Theorem train_model_rejects_model_type
        (sk : Sklearn) (X_train : FloatFrame) (y_train : Series)
        (model_type scaler_type : string) :
  model_type <> "ridge" -> model_type <> "svm" ->
  is_raise (result_of (train_model sk X_train y_train model_type scaler_type)) = true
  /\ calls_of (train_model sk X_train y_train model_type scaler_type)
     = [Call_fit_transform (if String.eqb scaler_type "minmax"
                            then MinMaxScaler else StandardScaler) X_train]
  /\ count_calls is_estimator_fit
                 (calls_of (train_model sk X_train y_train model_type scaler_type))
     = 0%nat
  /\ (forall scaler X_train_normalized,
        result_of (fit_transform sk (if String.eqb scaler_type "minmax"
                                     then MinMaxScaler else StandardScaler) X_train)
        = Ok (scaler, X_train_normalized) ->
        result_of (train_model sk X_train y_train model_type scaler_type)
        = Raise (ValueError ("Unsupported model type: " ++ model_type)))
  /\ (forall e,
        result_of (fit_transform sk (if String.eqb scaler_type "minmax"
                                     then MinMaxScaler else StandardScaler) X_train)
        = Raise e ->
        result_of (train_model sk X_train y_train model_type scaler_type) = Raise e).
Proof.
  intros Hr Hs. rewrite train_model_unsupported by assumption.
  unfold fit_transform, library_call. fold (chosen_scaler scaler_type).
  cbn [calls_of result_of fst snd].
  destruct (fit_transform_error sk (chosen_scaler scaler_type) X_train) as [e0|];
    cbn [calls_of result_of fst snd].
  - split; [reflexivity|]. split; [reflexivity|]. split; [reflexivity|].
    split; [intros s Xn H; discriminate | intros e H; now inversion H].
  - split; [reflexivity|]. split; [reflexivity|]. split; [reflexivity|].
    split; [intros s Xn H; reflexivity | intros e H; discriminate].
Qed.

Lemma train_model_rejects_model_type_witness :
  "lasso" <> "ridge" /\ "lasso" <> "svm"
  /\ result_of (train_model Baseline.sk Demo.features3 Demo.ages3 "lasso" "minmax")
     = Raise (ValueError ("Unsupported model type: " ++ "lasso"))
  /\ count_calls is_estimator_fit
       (calls_of (train_model Baseline.sk Demo.features3 Demo.ages3 "lasso" "minmax"))
     = 0%nat.
Proof.
  split; [discriminate|]. split; [discriminate|].
  destruct (train_model_rejects_model_type Baseline.sk Demo.features3 Demo.ages3
              "lasso" "minmax" ltac:(discriminate) ltac:(discriminate))
    as [_ [_ [Hfit [Hmsg _]]]].
  split; [|exact Hfit].
  exact (Hmsg _ _ eq_refl).
Defined.

Lemma train_model_scaler_fallback
      (sk : Sklearn) (X_train : FloatFrame) (y_train : Series)
      (model_type scaler_type : string) :
  scaler_type <> "minmax" ->
  train_model sk X_train y_train model_type scaler_type
  = train_model sk X_train y_train model_type "standard".
Proof.
  intros H. apply String.eqb_neq in H. unfold train_model. now rewrite H.
Qed.

(** C5 does not hold of the code: a scaler type that is neither
    ['minmax'] nor ['standard'], here ['robust'], is not rejected.
    [train_model] does with it exactly what it does with ['standard']: its
    first call fits a [StandardScaler], and whenever the three library
    calls return, a ridge model is fitted and returned together with that
    [StandardScaler]; so it is on a training frame of six rows. *)
Theorem train_model_unknown_scaler_is_standard
        (sk : Sklearn) (X_train : FloatFrame) (y_train : Series) :
  let scaler := scaler_fit sk StandardScaler X_train in
  let X_train_normalized := scaler_transform sk scaler X_train in
  let cv := {| n_splits := 5; n_repeats := 10; random_state := 1 |} in
  let alpha_ := RidgeCV_alpha_ sk ridge_alphas "neg_mean_absolute_error" cv
                               X_train_normalized y_train in
  documented_scaler_type "robust" = false
  /\ train_model sk X_train y_train "ridge" "robust"
     = train_model sk X_train y_train "ridge" "standard"
  /\ hd_error (calls_of (train_model sk X_train y_train "ridge" "robust"))
     = Some (Call_fit_transform StandardScaler X_train)
  /\ (fit_transform_error sk StandardScaler X_train = None ->
      RidgeCV_fit_error sk ridge_alphas "neg_mean_absolute_error" cv
                        X_train_normalized y_train = None ->
      fit_error sk (Ridge alpha_) X_train_normalized y_train = None ->
      is_raise (result_of (train_model sk X_train y_train "ridge" "robust")) = false
      /\ exists m,
           result_of (train_model sk X_train y_train "ridge" "robust")
           = Ok (m, scaler_fit sk StandardScaler X_train)
           /\ count_calls is_estimator_fit
                (calls_of (train_model sk X_train y_train "ridge" "robust"))
              = 1%nat)
  /\ exists m,
       result_of (train_model Baseline.sk Demo.features6 Demo.ages6 "ridge" "robust")
       = Ok (m, scaler_fit Baseline.sk StandardScaler Demo.features6).
Proof.
  cbv zeta. split; [reflexivity|]. split; [reflexivity|]. split; [|split].
  - unfold train_model, fit_transform, library_call.
    cbn [String.eqb Ascii.eqb Bool.eqb].
    destruct (fit_transform_error sk StandardScaler X_train); [reflexivity|].
    rewrite bind_ok. reflexivity.
  - intros H1 H2 H3.
    rewrite (train_model_ridge sk X_train y_train "robust" H1 H2 H3).
    split; [reflexivity|]. eexists. split; reflexivity.
  - eexists. reflexivity.
Qed.

Lemma train_model_ridge_calls
      (sk : Sklearn) (X : FloatFrame) (y : Series) (scaler_type : string) :
  let Xn := scaler_transform sk (scaler_fit sk (chosen_scaler scaler_type) X) X in
  let alpha_ := RidgeCV_alpha_ sk ridge_alphas "neg_mean_absolute_error"
                               cv_scheme Xn y in
  exists k,
    calls_of (train_model sk X y "ridge" scaler_type)
    = firstn (S k) [Call_fit_transform (chosen_scaler scaler_type) X;
                    Call_RidgeCV_fit ridge_alphas "neg_mean_absolute_error"
                                     cv_scheme Xn y;
                    Call_fit (Ridge alpha_) Xn y].
Proof.
  cbv zeta.
  unfold train_model, fit_transform, RidgeCV_fit, fit, library_call, bind, ret,
    calls_of.
  fold (chosen_scaler scaler_type). fold cv_scheme.
  destruct (fit_transform_error sk (chosen_scaler scaler_type) X);
    cbv beta iota; [now exists 0%nat|].
  cbn [String.eqb Ascii.eqb Bool.eqb].
  destruct (RidgeCV_fit_error sk _ _ _ _ _); cbv beta iota; [now exists 1%nat|].
  destruct (fit_error sk _ _ _); now exists 2%nat.
Qed.

(** C9: with model type ['ridge'], the only search [train_model] ever
    runs is [RidgeCV] on the scaled training features, with the 100
    strengths [0.5 * 10^(10 - 12 i / 99)] (from [0.5 * 10^10] down to
    [0.5 * 10^-2], each the previous one times [10^(-12/99)]), the scorer
    ['neg_mean_absolute_error'] and a repeated k-fold scheme of 5 splits,
    10 repeats and seed 1. When [train_model] returns, it has made three
    calls: the scaler fit, that search, and the fit of a [Ridge] at the
    strength the search selected on the whole scaled training set; that
    model and the scaler are what it returns. It does return when none of
    the three calls raises. *)
Theorem train_model_ridge_search
        (sk : Sklearn) (X_train : FloatFrame) (y_train : Series)
        (scaler_type : string) :
  let scaler := scaler_fit sk (chosen_scaler scaler_type) X_train in
  let X_train_normalized := scaler_transform sk scaler X_train in
  let cv := {| n_splits := 5; n_repeats := 10; random_state := 1 |} in
  let alpha_ := RidgeCV_alpha_ sk ridge_alphas "neg_mean_absolute_error" cv
                               X_train_normalized y_train in
  (forall c,
      In c (calls_of (train_model sk X_train y_train "ridge" scaler_type)) ->
      is_search c = true ->
      c = Call_RidgeCV_fit ridge_alphas "neg_mean_absolute_error" cv
                           X_train_normalized y_train)
  /\ (forall log final_model fitted_scaler,
        train_model sk X_train y_train "ridge" scaler_type
        = (log, Ok (final_model, fitted_scaler)) ->
        log = [Call_fit_transform (chosen_scaler scaler_type) X_train;
               Call_RidgeCV_fit ridge_alphas "neg_mean_absolute_error" cv
                                X_train_normalized y_train;
               Call_fit (Ridge alpha_) X_train_normalized y_train]
        /\ final_model = estimator_fit sk (Ridge alpha_) X_train_normalized y_train
        /\ fitted_scaler = scaler)
  /\ (fit_transform_error sk (chosen_scaler scaler_type) X_train = None ->
      RidgeCV_fit_error sk ridge_alphas "neg_mean_absolute_error" cv
                        X_train_normalized y_train = None ->
      fit_error sk (Ridge alpha_) X_train_normalized y_train = None ->
      train_model sk X_train y_train "ridge" scaler_type
      = ([Call_fit_transform (chosen_scaler scaler_type) X_train;
          Call_RidgeCV_fit ridge_alphas "neg_mean_absolute_error" cv
                           X_train_normalized y_train;
          Call_fit (Ridge alpha_) X_train_normalized y_train],
         Ok (estimator_fit sk (Ridge alpha_) X_train_normalized y_train, scaler)))
  /\ List.length ridge_alphas = 100%nat
  /\ (forall i, (i < 100)%nat ->
        nth_error ridge_alphas i
        = Some (Rpower 10 (10 - 12 * INR i / 99) * / 2)%R)
  /\ nth_error ridge_alphas 0 = Some (10 ^ 10 * / 2)%R
  /\ nth_error ridge_alphas 99 = Some (/ 10 ^ 2 * / 2)%R
  /\ (forall i, (i < 99)%nat ->
        exists a b, nth_error ridge_alphas i = Some a
                    /\ nth_error ridge_alphas (S i) = Some b
                    /\ b = (a * Rpower 10 (- 12 / 99))%R).
Proof.
  cbv zeta. fold cv_scheme. split; [|split; [|split]].
  - intros c Hc Hs.
    destruct (train_model_ridge_calls sk X_train y_train scaler_type) as [k Hk].
    rewrite Hk in Hc.
    destruct k as [|[|[|k]]]; cbn in Hc;
      repeat (destruct Hc as [<- | Hc]; [try discriminate; try reflexivity|]);
      contradiction.
  - intros log m s H.
    destruct (train_model_inv sk _ _ _ _ _ _ _ H) as [Hs [search [e [Hlog [Hm Hk]]]]].
    destruct Hk as [[_ [-> ->]] | [E _]]; [|discriminate].
    now repeat split.
  - apply train_model_ridge.
  - split; [apply ridge_alphas_length|].
    split; [apply ridge_alphas_nth|].
    split; [apply ridge_alphas_first|].
    split; [apply ridge_alphas_last | apply ridge_alphas_ratio].
Qed.

Lemma train_model_ridge_search_witness :
  List.length Demo.ages6 = 6%nat
  /\ List.length (calls_of (train_model Baseline.sk Demo.features6 Demo.ages6
                                        "ridge" "minmax")) = 3%nat
  /\ is_raise (result_of (train_model Baseline.sk Demo.features6 Demo.ages6
                                      "ridge" "minmax")) = false.
Proof.
  split; [reflexivity|].
  pose proof (proj1 (proj2 (proj2 (train_model_ridge_search
                                     Baseline.sk Demo.features6 Demo.ages6 "minmax")))
                    eq_refl eq_refl eq_refl) as H.
  split.
  - exact (f_equal (fun r => List.length (calls_of r)) H).
  - exact (f_equal (fun r => is_raise (result_of r)) H).
Defined.

(** ** Claims about [evaluate_feature_ablation] *)

(** C1: [evaluate_feature_ablation] visits the seven feature groups in
    the order FLAIR hyperintensities, DTI, CBF, resting-state activation,
    ventricular volume, surface area, cortical thickness. When it
    returns, the entry of the disease result list at the position of a
    group is what [predict_ages] returned on the disease table without
    ['Age at Visit'], ['BD#'], ['Dx'] and the columns of the group, for
    the model that [train_model] fitted on the training table without the
    same columns against its ['Age at Visit'] column; the list has one
    entry per group. It returns whenever every step of each of the seven
    passes returns. *)
Theorem evaluate_iterates_feature_groups
        (sk : Sklearn) (F : imaging_features)
        (df_train_control df_test_disease : DataFrame)
        (model_type scalar_type : string) (df_test_control : option DataFrame) :
  ablation_order F
  = [ hyperintensities_flair F; dti F; cbf F; resting_state_activation F;
      ventricular_volume F; surface_area F; cortical_thickness F ]
  /\ (forall results_disease results_control : list ndarray1,
        result_of (evaluate_feature_ablation sk F df_train_control df_test_disease
                                             model_type scalar_type df_test_control)
        = Ok (results_disease, results_control) ->
        List.length results_disease = 7%nat
        /\ forall i feature,
             nth_error (ablation_order F) i = Some feature ->
             exists X_train_control X_test_disease y_train_control
                    model scaler y_pred_disease,
               drop_astype df_train_control feature = Ok X_train_control
               /\ columns X_train_control
                  = filter (fun l => negb (mem_label l (["Age at Visit"; "BD#"; "Dx"]
                                                        ++ feature)))
                           (columns df_train_control)
               /\ drop_astype df_test_disease feature = Ok X_test_disease
               /\ columns X_test_disease
                  = filter (fun l => negb (mem_label l (["Age at Visit"; "BD#"; "Dx"]
                                                        ++ feature)))
                           (columns df_test_disease)
               /\ getitem df_train_control "Age at Visit" = Ok y_train_control
               /\ result_of (train_model sk X_train_control y_train_control
                                         model_type scalar_type)
                  = Ok (model, scaler)
               /\ result_of (predict_ages sk model scaler X_test_disease)
                  = Ok y_pred_disease
               /\ nth_error results_disease i = Some y_pred_disease)
  /\ ((forall feature, In feature (ablation_order F) ->
         pass_returns sk df_train_control df_test_disease model_type scalar_type
                      df_test_control feature) ->
      exists results_disease results_control,
        result_of (evaluate_feature_ablation sk F df_train_control df_test_disease
                                             model_type scalar_type df_test_control)
        = Ok (results_disease, results_control)).
Proof.
  split; [reflexivity|]. split; [|apply evaluate_returns_when_passes_return].
  intros results_disease results_control Hrun.
  destruct (evaluate_feature_ablation_result _ _ _ _ _ _ _ _ _ Hrun)
    as [its [Hfs [Hall [_ [-> _]]]]].
  split; [rewrite length_map; now apply (seven_passes F)|].
  intros i feature Hi.
  destruct (pass_at its _ i feature Hfs Hi) as [it [Hit Hf]].
  rewrite Forall_forall in Hall.
  destruct (Hall it (nth_error_In _ _ Hit)) as [Htr [Hdi [Hy [Htm [Hpd _]]]]].
  rewrite Hf in Htr, Hdi.
  exists (it_X_train it), (it_X_disease it), (it_y_train it),
         (it_model it), (it_scaler it), (it_pred_disease it).
  split; [exact Htr|].
  split; [exact (drop_astype_columns _ _ _ Htr)|].
  split; [exact Hdi|].
  split; [exact (drop_astype_columns _ _ _ Hdi)|].
  split; [exact Hy|].
  split; [now rewrite Htm|].
  split; [exact Hpd|].
  now apply map_nth_error.
Qed.

Lemma evaluate_iterates_feature_groups_witness :
  List.length Demo.ages6 = 6%nat
  /\ getitem Demo.train_controls "Age at Visit" = Ok Demo.ages6
  /\ exists results_disease results_control,
       result_of (evaluate_feature_ablation Baseline.sk Demo.F Demo.train_controls
                    Demo.patients "ridge" "minmax" None)
       = Ok (results_disease, results_control)
       /\ List.length results_disease = 7%nat.
Proof.
  split; [reflexivity|]. split; [reflexivity|].
  eexists. eexists.
  refine (let H := _ in
          conj H (proj1 (proj1 (proj2 (evaluate_iterates_feature_groups
                                         Baseline.sk Demo.F Demo.train_controls
                                         Demo.patients "ridge" "minmax" None))
                               _ _ H))).
  vm_compute. reflexivity.
Defined.

(** C2, as stated, fails: without a control cohort the second result list
    has no entry, not 7 (the first has 7). The training table has six
    rows, enough for the five folds. *)
Lemma evaluate_without_control_second_list_not_7 :
  cohort_table Demo.F Demo.train_controls = true
  /\ cohort_table Demo.F Demo.patients = true
  /\ getitem Demo.train_controls "Age at Visit" = Ok Demo.ages6
  /\ List.length Demo.ages6 = 6%nat
  /\ exists results_disease results_control,
       result_of (evaluate_feature_ablation Baseline.sk Demo.F Demo.train_controls
                                            Demo.patients "ridge" "minmax" None)
       = Ok (results_disease, results_control)
       /\ List.length results_disease = 7%nat
       /\ List.length results_control = 0%nat
       /\ List.length results_control <> 7%nat.
Proof.
  split; [reflexivity|]. split; [reflexivity|].
  split; [reflexivity|]. split; [reflexivity|].
  do 2 eexists. split; [vm_compute; reflexivity|].
  split; [reflexivity|]. split; [reflexivity | discriminate].
Qed.

(** C2 (amended): when [evaluate_feature_ablation] returns, the disease
    result list has exactly 7 entries, whether or not a control cohort is
    supplied, and its [i]-th entry belongs to the [i]-th name of
    [feature_sets]; the control result list has exactly 7 entries, in the
    same order, when a control cohort is supplied, and none when it is
    omitted. *)
Theorem evaluate_result_lists_follow_feature_sets
        (sk : Sklearn) (F : imaging_features)
        (df_train_control df_test_disease : DataFrame)
        (model_type scalar_type : string) (df_test_control : option DataFrame)
        (results_disease results_control : list ndarray1) :
  result_of (evaluate_feature_ablation sk F df_train_control df_test_disease
                                       model_type scalar_type df_test_control)
  = Ok (results_disease, results_control) ->
  List.length feature_sets = 7%nat
  /\ List.length results_disease = 7%nat
  /\ List.length results_control
     = match df_test_control with Some _ => 7%nat | None => 0%nat end
  /\ forall i name,
       nth_error feature_sets i = Some name ->
       exists feature X_train_control y_train_control model scaler X_test_disease
              y_pred_disease,
         getattr F name = Some feature
         /\ drop_astype df_train_control feature = Ok X_train_control
         /\ getitem df_train_control "Age at Visit" = Ok y_train_control
         /\ result_of (train_model sk X_train_control y_train_control
                                   model_type scalar_type)
            = Ok (model, scaler)
         /\ drop_astype df_test_disease feature = Ok X_test_disease
         /\ result_of (predict_ages sk model scaler X_test_disease)
            = Ok y_pred_disease
         /\ nth_error results_disease i = Some y_pred_disease
         /\ match df_test_control with
            | Some d =>
                exists X_test_control y_pred_control,
                  drop_astype d feature = Ok X_test_control
                  /\ result_of (predict_ages sk model scaler X_test_control)
                     = Ok y_pred_control
                  /\ nth_error results_control i = Some y_pred_control
            | None => nth_error results_control i = None
            end.
Proof.
  intros Hrun.
  destruct (evaluate_feature_ablation_result _ _ _ _ _ _ _ _ _ Hrun)
    as [its [Hfs [Hall [_ [-> ->]]]]].
  pose proof (seven_passes F its Hfs) as Hlen.
  split; [reflexivity|].
  split; [now rewrite length_map|]. split.
  - destruct df_test_control as [d|].
    + rewrite (control_predictions_supplied _ _ _ _ _ _ _ Hall).
      now rewrite length_map.
    + now rewrite (iteration_control_none _ _ _ _ _ _ Hall).
  - intros i name Hname.
    assert (Hi : exists feature, nth_error (ablation_order F) i = Some feature
                                 /\ getattr F name = Some feature).
    { pose proof (feature_sets_resolve F) as Hres.
      apply (f_equal (fun l => nth_error l i)) in Hres.
      rewrite !nth_error_map, Hname in Hres. cbn [option_map] in Hres.
      destruct (nth_error (ablation_order F) i) as [feature|]; [|discriminate].
      exists feature. split; [reflexivity|]. now inversion Hres. }
    destruct Hi as [feature [Hi Hattr]].
    destruct (pass_at its _ i feature Hfs Hi) as [it [Hit Hf]].
    pose proof Hall as Hall'. rewrite Forall_forall in Hall'.
    destruct (Hall' it (nth_error_In _ _ Hit)) as [Htr [Hdi [Hy [Htm [Hpd Hc]]]]].
    rewrite Hf in Htr, Hdi.
    exists feature, (it_X_train it), (it_y_train it), (it_model it), (it_scaler it),
           (it_X_disease it), (it_pred_disease it).
    split; [exact Hattr|]. split; [exact Htr|]. split; [exact Hy|].
    split; [now rewrite Htm|]. split; [exact Hdi|].
    split; [exact Hpd|].
    split; [now apply map_nth_error|].
    destruct df_test_control as [d|].
    + destruct Hc as [X [HX [Hd Hpc]]]. rewrite Hf in Hd.
      exists X, (rounded_prediction sk (it_model it) (it_scaler it) X).
      split; [exact Hd|]. split; [exact Hpc|].
      rewrite (control_predictions_supplied _ _ _ _ _ _ _ Hall).
      rewrite (map_nth_error _ _ _ Hit). unfold it_control_frame. now rewrite HX.
    + now rewrite (iteration_control_none _ _ _ _ _ _ Hall), nth_error_nil.
Qed.

Lemma evaluate_result_lists_follow_feature_sets_witness :
  List.length Demo.ages6 = 6%nat
  /\ getitem Demo.train_controls "Age at Visit" = Ok Demo.ages6
  /\ exists results_disease results_control,
       result_of (evaluate_feature_ablation Baseline.sk Demo.F Demo.train_controls
                    Demo.patients "svm" "minmax" (Some Demo.test_controls))
       = Ok (results_disease, results_control)
       /\ List.length results_disease = 7%nat
       /\ List.length results_control = 7%nat.
Proof.
  split; [reflexivity|]. split; [reflexivity|].
  eexists. eexists.
  refine (let H := _ in
          let T := evaluate_result_lists_follow_feature_sets
                     Baseline.sk Demo.F Demo.train_controls Demo.patients
                     "svm" "minmax" (Some Demo.test_controls) _ _ H in
          conj H (conj (proj1 (proj2 T)) (proj1 (proj2 (proj2 T))))).
  vm_compute. reflexivity.
Defined.

(** C3: when the control cohort is omitted, the second list
    [evaluate_feature_ablation] returns is the empty list. *)
Theorem evaluate_without_control_returns_empty_list
        (sk : Sklearn) (F : imaging_features)
        (df_train_control df_test_disease : DataFrame)
        (model_type scalar_type : string)
        (results_disease results_control : list ndarray1) :
  result_of (evaluate_feature_ablation sk F df_train_control df_test_disease
                                       model_type scalar_type None)
  = Ok (results_disease, results_control) ->
  results_control = [] /\ List.length results_control = 0%nat.
Proof.
  intros Hrun.
  destruct (evaluate_feature_ablation_result _ _ _ _ _ _ _ _ _ Hrun)
    as [its [_ [Hall [_ [_ ->]]]]].
  now rewrite (iteration_control_none _ _ _ _ _ _ Hall).
Qed.

Lemma evaluate_without_control_returns_empty_list_witness :
  List.length Demo.ages6 = 6%nat
  /\ getitem Demo.train_controls "Age at Visit" = Ok Demo.ages6
  /\ exists results_disease results_control,
       result_of (evaluate_feature_ablation Baseline.sk Demo.F Demo.train_controls
                    Demo.patients "ridge" "standard" None)
       = Ok (results_disease, results_control)
       /\ results_control = [] /\ List.length results_control = 0%nat.
Proof.
  split; [reflexivity|]. split; [reflexivity|].
  eexists. eexists.
  refine (let H := _ in
          conj H (evaluate_without_control_returns_empty_list
                    Baseline.sk Demo.F Demo.train_controls Demo.patients
                    "ridge" "standard" _ _ H)).
  vm_compute. reflexivity.
Defined.

(** C10: when [evaluate_feature_ablation] returns with a control cohort
    supplied, every pass of the loop has made one call to [train_model]
    (its log holds exactly one scaler fit and one estimator fit), and the
    disease prediction and the control prediction at the position of the
    pass are both what [predict_ages] returned for the model and the
    scaler of that call. *)
Theorem evaluate_shares_model_between_cohorts
        (sk : Sklearn) (F : imaging_features)
        (df_train_control df_test_disease df_test_control : DataFrame)
        (model_type scalar_type : string)
        (log : list (call sk)) (results_disease results_control : list ndarray1) :
  evaluate_feature_ablation sk F df_train_control df_test_disease
                            model_type scalar_type (Some df_test_control)
  = (log, Ok (results_disease, results_control)) ->
  exists logs,
    log = List.concat logs
    /\ List.length logs = 7%nat
    /\ forall i feature,
         nth_error (ablation_order F) i = Some feature ->
         exists X_train_control y_train_control X_test_disease X_test_control
                model scaler train_log y_pred_disease y_pred_control,
           drop_astype df_train_control feature = Ok X_train_control
           /\ getitem df_train_control "Age at Visit" = Ok y_train_control
           /\ drop_astype df_test_disease feature = Ok X_test_disease
           /\ drop_astype df_test_control feature = Ok X_test_control
           /\ train_model sk X_train_control y_train_control model_type scalar_type
              = (train_log, Ok (model, scaler))
           /\ predict_ages sk model scaler X_test_disease
              = ([Call_transform scaler X_test_disease;
                  Call_predict model (scaler_transform sk scaler X_test_disease)],
                 Ok y_pred_disease)
           /\ predict_ages sk model scaler X_test_control
              = ([Call_transform scaler X_test_control;
                  Call_predict model (scaler_transform sk scaler X_test_control)],
                 Ok y_pred_control)
           /\ nth_error results_disease i = Some y_pred_disease
           /\ nth_error results_control i = Some y_pred_control
           /\ nth_error logs i
              = Some (train_log
                      ++ calls_of (predict_ages sk model scaler X_test_disease)
                      ++ calls_of (predict_ages sk model scaler X_test_control))
           /\ count_calls is_scaler_fit
                (train_log
                 ++ calls_of (predict_ages sk model scaler X_test_disease)
                 ++ calls_of (predict_ages sk model scaler X_test_control)) = 1%nat
           /\ count_calls is_estimator_fit
                (train_log
                 ++ calls_of (predict_ages sk model scaler X_test_disease)
                 ++ calls_of (predict_ages sk model scaler X_test_control)) = 1%nat.
Proof.
  intros Hrun.
  destruct (evaluate_feature_ablation_run _ _ _ _ _ _ _ _ _ _ Hrun)
    as [its [Hfs [Hall [-> [-> ->]]]]].
  exists (map it_log its). rewrite flat_map_concat_map.
  split; [reflexivity|].
  split; [rewrite length_map; now apply (seven_passes F)|].
  intros i feature Hi.
  destruct (pass_at its _ i feature Hfs Hi) as [it [Hit Hf]].
  pose proof Hall as Hall'. rewrite Forall_forall in Hall'.
  pose proof (Hall' it (nth_error_In _ _ Hit)) as Hpass.
  destruct (iteration_log _ _ _ _ _ _ it Hpass) as [Hc1 [_ [Hc2 _]]].
  destruct Hpass as [Htr [Hdi [Hy [Htm [Hpd [X [HX [Hd Hpc]]]]]]]].
  rewrite Hf in Htr, Hdi, Hd.
  assert (Hlog : it_log it
                 = it_train_log it
                   ++ calls_of (predict_ages sk (it_model it) (it_scaler it)
                                             (it_X_disease it))
                   ++ calls_of (predict_ages sk (it_model it) (it_scaler it) X))
    by (unfold it_log; now rewrite HX).
  exists (it_X_train it), (it_y_train it), (it_X_disease it), X,
         (it_model it), (it_scaler it), (it_train_log it), (it_pred_disease it),
         (rounded_prediction sk (it_model it) (it_scaler it) X).
  split; [exact Htr|]. split; [exact Hy|]. split; [exact Hdi|]. split; [exact Hd|].
  split; [exact Htm|]. split; [now apply predict_ages_run|].
  split; [now apply predict_ages_run|].
  split; [now apply map_nth_error|]. split.
  { rewrite (control_predictions_supplied _ _ _ _ _ _ _ Hall).
    rewrite (map_nth_error _ _ _ Hit). unfold it_control_frame. now rewrite HX. }
  split; [rewrite <- Hlog; now apply map_nth_error|].
  rewrite <- Hlog. split; assumption.
Qed.

Lemma evaluate_shares_model_between_cohorts_witness :
  List.length Demo.ages6 = 6%nat
  /\ getitem Demo.train_controls "Age at Visit" = Ok Demo.ages6
  /\ exists log results_disease results_control logs,
       evaluate_feature_ablation Baseline.sk Demo.F Demo.train_controls Demo.patients
                                 "ridge" "minmax" (Some Demo.test_controls)
       = (log, Ok (results_disease, results_control))
       /\ log = List.concat logs
       /\ List.length logs = 7%nat.
Proof.
  split; [reflexivity|]. split; [reflexivity|].
  eexists. eexists. eexists.
  refine (let H := _ in
          match evaluate_shares_model_between_cohorts
                  Baseline.sk Demo.F Demo.train_controls Demo.patients
                  Demo.test_controls "ridge" "minmax" _ _ _ H
          with
          | ex_intro _ logs (conj Hl (conj Hn _)) =>
              ex_intro _ logs (conj H (conj Hl Hn))
          end).
  reflexivity.
Defined.

(** * Further properties of the code *)

(** ** [calculate_mae] *)

Lemma calculate_mae_loop_length (preds : list ndarray1) (y : ndarray1) :
  forall acc r,
    calculate_mae_loop preds y acc = Ok r ->
    List.length r = (List.length acc + List.length preds)%nat.
Proof.
  induction preds as [|p preds IH]; intros acc r H; simpl in H.
  - inversion H. simpl. lia.
  - destruct (np_sub p y) as [d|e]; simpl in H; [|discriminate].
    apply IH in H. rewrite length_app in H. simpl in *. lia.
Qed.

(** X1: whenever [calculate_mae] returns, broadcasting or not, it returns
    exactly one score per prediction array. *)
Theorem calculate_mae_one_score_per_result
        (predictions_list : list ndarray1) (y_test : ndarray1)
        (mae_results : list float64) :
  calculate_mae predictions_list y_test = Ok mae_results ->
  List.length mae_results = List.length predictions_list.
Proof.
  intros H. apply calculate_mae_loop_length in H. exact H.
Qed.

Lemma calculate_mae_one_score_per_result_witness :
  calculate_mae [[1]; [2; 4; 9]; [3; 3; 3]]%Q [2; 4; 6]%Q
  = Ok [Fin (9 # 3); Fin (3 # 3); Fin (5 # 3)]
  /\ List.length [Fin (9 # 3); Fin (3 # 3); Fin (5 # 3)]
     = List.length [[1]; [2; 4; 9]; [3; 3; 3]]%Q.
Proof.
  split; [reflexivity|].
  apply (calculate_mae_one_score_per_result
           [[1]; [2; 4; 9]; [3; 3; 3]]%Q [2; 4; 6]%Q).
  reflexivity.
Defined.

Lemma calculate_mae_single (p y : ndarray1) :
  List.length p = List.length y ->
  calculate_mae [p] y = Ok [mae_of y p].
Proof.
  intros H. unfold calculate_mae.
  rewrite calculate_mae_loop_same_shape by (constructor; [exact H | constructor]).
  reflexivity.
Qed.

Lemma np_sum_abs_zip_sub_sym (a b : ndarray1) :
  (np_sum (np_abs (zip_sub a b)) == np_sum (np_abs (zip_sub b a)))%Q.
Proof.
  revert b; induction a as [|x a IH]; intros [|y b]; simpl; try reflexivity.
  unfold np_sum, np_abs in *. simpl.
  rewrite (IH b).
  assert (E : (Qabs (x - y) == Qabs (y - x))%Q).
  { rewrite <- (Qabs_opp (x - y)). apply Qabs_wd. ring. }
  rewrite E. reflexivity.
Qed.

Lemma np_mean_eq (a b : ndarray1) :
  List.length a = List.length b ->
  (np_sum a == np_sum b)%Q ->
  score_eq (np_mean a) (np_mean b).
Proof.
  intros Hl Hs. destruct a as [|x a]; destruct b as [|y b]; try discriminate.
  - exact I.
  - unfold np_mean, score_eq. rewrite Hl, Hs. reflexivity.
Qed.

(** X3: the score does not depend on which of two arrays of the same
    length is called the prediction: [calculate_mae([p], y)] and
    [calculate_mae([y], p)] return the same number (both [nan] when the
    arrays are empty). *)
Theorem calculate_mae_symmetric (p y : ndarray1) :
  List.length p = List.length y ->
  exists s t,
    calculate_mae [p] y = Ok [s]
    /\ calculate_mae [y] p = Ok [t]
    /\ score_eq s t.
Proof.
  intros Hlen. exists (mae_of y p), (mae_of p y).
  split; [now apply calculate_mae_single|].
  split; [now apply calculate_mae_single|].
  unfold mae_of. apply np_mean_eq.
  - unfold np_abs. rewrite !length_map, !zip_sub_length; congruence.
  - apply np_sum_abs_zip_sub_sym.
Qed.

Lemma calculate_mae_symmetric_witness :
  List.length [30; 41; 52]%Q = List.length [28; 47; 50]%Q
  /\ exists s t,
       calculate_mae [[30; 41; 52]%Q] [28; 47; 50]%Q = Ok [s]
       /\ calculate_mae [[28; 47; 50]%Q] [30; 41; 52]%Q = Ok [t]
       /\ score_eq s t.
Proof.
  split; [reflexivity|].
  apply (calculate_mae_symmetric [30; 41; 52]%Q [28; 47; 50]%Q). reflexivity.
Defined.

(** ** Rounding in [predict_ages] *)

Lemma rint_inject_Z (q : Q) (k : Z) : (q == inject_Z k)%Q -> rint q = k.
Proof.
  intros H.
  assert (Hf : Qfloor q = k) by (rewrite (Qfloor_comp _ _ H); apply Qfloor_Z).
  unfold rint. rewrite Hf. cbv zeta.
  destruct (Qcompare_spec (q - inject_Z k) (1 # 2)); [lra | reflexivity | lra].
Qed.

Lemma round_scalar_3_idempotent (x : Q) :
  round_scalar 3 (round_scalar 3 x) = round_scalar 3 x.
Proof.
  unfold round_scalar at 1. unfold round_scalar at 2. do 2 f_equal.
  apply rint_inject_Z. unfold round_scalar.
  change (pow10 3) with (inject_Z 1000).
  field; discriminate.
Qed.

Lemma rint_monotone (x y : Q) : (x <= y)%Q -> (rint x <= rint y)%Z.
Proof.
  intros Hxy.
  pose proof (Qfloor_resp_le _ _ Hxy) as Hf.
  pose proof (Qfloor_le x) as Hx1. pose proof (Qlt_floor x) as Hx2.
  pose proof (Qfloor_le y) as Hy1. pose proof (Qlt_floor y) as Hy2.
  rewrite inject_Z_plus in Hx2, Hy2. change (inject_Z 1) with 1%Q in Hx2, Hy2.
  unfold rint.
  destruct (Z.eq_dec (Qfloor x) (Qfloor y)) as [E|E].
  - rewrite E in *.
    destruct (Qcompare_spec (x - inject_Z (Qfloor y)) (1 # 2));
      destruct (Qcompare_spec (y - inject_Z (Qfloor y)) (1 # 2));
      try lra; destruct (Z.even (Qfloor y)); lia.
  - assert (Hlt : (Qfloor x + 1 <= Qfloor y)%Z) by lia.
    destruct (x - inject_Z (Qfloor x) ?= 1 # 2)%Q;
      destruct (y - inject_Z (Qfloor y) ?= 1 # 2)%Q;
      try destruct (Z.even (Qfloor x)); try destruct (Z.even (Qfloor y)); lia.
Qed.

Lemma round_scalar_3_monotone (x y : Q) :
  (x <= y)%Q -> (round_scalar 3 x <= round_scalar 3 y)%Q.
Proof.
  intros Hxy. unfold round_scalar. change (pow10 3) with (inject_Z 1000).
  assert (H : (rint (x * inject_Z 1000) <= rint (y * inject_Z 1000))%Z).
  { apply rint_monotone. change (inject_Z 1000) with 1000%Q. lra. }
  rewrite Zle_Qle in H.
  apply Qle_shift_div_l; [reflexivity|].
  set (a := inject_Z (rint (x * inject_Z 1000))) in *.
  set (b := inject_Z (rint (y * inject_Z 1000))) in *.
  assert (E : (a / inject_Z 1000 * inject_Z 1000 == a)%Q) by (field; discriminate).
  now rewrite E.
Qed.


(** X6: the ages [predict_ages] returns are already rounded: rounding
    them to 3 decimals again returns the very same array. *)
Theorem predict_ages_output_is_rounded
        (sk : Sklearn) (model : model sk) (scaler : scaler sk) (X : FloatFrame)
        (predictions : ndarray1) :
  result_of (predict_ages sk model scaler X) = Ok predictions ->
  np_round predictions 3 = predictions.
Proof.
  intros H. apply predict_ages_inv in H. destruct H as [_ [_ ->]].
  unfold rounded_prediction, np_round. rewrite map_map.
  apply map_ext. intros x. apply round_scalar_3_idempotent.
Qed.

Lemma predict_ages_output_is_rounded_witness :
  result_of (predict_ages Baseline.sk (1234567 # 100000)%Q (Demo.fitted [0; 0]%Q)
                          Demo.features3)
  = Ok [12346 # 1000; 12346 # 1000; 12346 # 1000]%Q
  /\ np_round [12346 # 1000; 12346 # 1000; 12346 # 1000]%Q 3
     = [12346 # 1000; 12346 # 1000; 12346 # 1000]%Q.
Proof.
  split; [reflexivity|].
  apply (predict_ages_output_is_rounded
           Baseline.sk (1234567 # 100000)%Q (Demo.fitted [0; 0]%Q) Demo.features3).
  reflexivity.
Defined.

(** X7: rounding in [predict_ages] never inverts an order: when the
    model's raw output at row [i] is at most its raw output at row [j],
    the returned age at [i] is at most the returned age at [j]. *)
Theorem predict_ages_keeps_order
        (sk : Sklearn) (model : model sk) (scaler : scaler sk) (X : FloatFrame)
        (predictions : ndarray1) (i j : nat) (ri rj : Q) :
  result_of (predict_ages sk model scaler X) = Ok predictions ->
  nth_error (model_predict sk model (scaler_transform sk scaler X)) i = Some ri ->
  nth_error (model_predict sk model (scaler_transform sk scaler X)) j = Some rj ->
  (ri <= rj)%Q ->
  exists vi vj,
    nth_error predictions i = Some vi
    /\ nth_error predictions j = Some vj
    /\ (vi <= vj)%Q.
Proof.
  intros H Hi Hj Hle. apply predict_ages_inv in H. destruct H as [_ [_ ->]].
  unfold rounded_prediction, np_round.
  exists (round_scalar 3 ri), (round_scalar 3 rj).
  split; [now apply map_nth_error|]. split; [now apply map_nth_error|].
  now apply round_scalar_3_monotone.
Qed.

Lemma predict_ages_keeps_order_witness :
  result_of (predict_ages Offset.sk (41 # 1)%Q (Demo.fitted [1 # 3; 0]%Q)
                          Demo.features3)
  = Ok [41667 # 1000; 42667 # 1000; 44667 # 1000]%Q
  /\ nth_error (model_predict Offset.sk (41 # 1)%Q
                  (scaler_transform Offset.sk (Demo.fitted [1 # 3; 0]%Q)
                                    Demo.features3)) 0
     = Some (125 # 3)%Q
  /\ nth_error (model_predict Offset.sk (41 # 1)%Q
                  (scaler_transform Offset.sk (Demo.fitted [1 # 3; 0]%Q)
                                    Demo.features3)) 2
     = Some (134 # 3)%Q
  /\ (125 # 3 <= 134 # 3)%Q
  /\ exists vi vj,
       nth_error [41667 # 1000; 42667 # 1000; 44667 # 1000]%Q 0 = Some vi
       /\ nth_error [41667 # 1000; 42667 # 1000; 44667 # 1000]%Q 2 = Some vj
       /\ (vi <= vj)%Q.
Proof.
  split; [reflexivity|]. split; [reflexivity|]. split; [reflexivity|].
  split; [vm_compute; discriminate|].
  apply (predict_ages_keeps_order Offset.sk (41 # 1)%Q (Demo.fitted [1 # 3; 0]%Q)
           Demo.features3
           [41667 # 1000; 42667 # 1000; 44667 # 1000]%Q 0 2
           (125 # 3)%Q (134 # 3)%Q);
    try reflexivity.
  vm_compute; discriminate.
Defined.

(** ** Failures of [evaluate_feature_ablation] *)

Lemma drop_missing (df : DataFrame) (labels : list label) :
  missing_labels df labels <> [] ->
  drop df labels = Raise (KeyError (missing_labels df labels)).
Proof.
  unfold drop, missing_labels. intros H.
  destruct (filter (fun l => negb (mem_label l (columns df))) labels);
    [congruence | reflexivity].
Qed.

Lemma evaluate_first_pass
      (sk : Sklearn) (F : imaging_features)
      (df_train_control df_test_disease : DataFrame)
      (model_type scalar_type : string) (df_test_control : option DataFrame)
      (log : list (call sk)) (e : exn) :
  ablation_body sk df_train_control df_test_disease model_type scalar_type
                df_test_control ([], []) (hyperintensities_flair F)
  = (log, Raise e) ->
  evaluate_feature_ablation sk F df_train_control df_test_disease
                            model_type scalar_type df_test_control
  = (log, Raise e).
Proof.
  intros H. unfold evaluate_feature_ablation, ablation_order.
  cbn [for_each]. now rewrite H.
Qed.

(** X8: when the training table lacks one of ['Age at Visit'], ['BD#'],
    ['Dx'] or a column of the first feature group,
    [evaluate_feature_ablation] raises a [KeyError] that lists exactly the
    missing labels, in the order they are dropped, and it has not called
    scikit-learn at all. *)
Theorem evaluate_missing_training_column
        (sk : Sklearn) (F : imaging_features)
        (df_train_control df_test_disease : DataFrame)
        (model_type scalar_type : string) (df_test_control : option DataFrame) :
  missing_labels df_train_control
                 (["Age at Visit"; "BD#"; "Dx"] ++ hyperintensities_flair F) <> [] ->
  evaluate_feature_ablation sk F df_train_control df_test_disease
                            model_type scalar_type df_test_control
  = ([], Raise (KeyError (missing_labels df_train_control
                            (["Age at Visit"; "BD#"; "Dx"]
                             ++ hyperintensities_flair F)))).
Proof.
  intros H. apply evaluate_first_pass.
  unfold ablation_body, drop_astype.
  change (non_features ++ hyperintensities_flair F)
    with (["Age at Visit"; "BD#"; "Dx"] ++ hyperintensities_flair F).
  rewrite (drop_missing _ _ H). reflexivity.
Qed.

Lemma evaluate_missing_training_column_witness :
  missing_labels (tl Demo.train_controls)
                 (["Age at Visit"; "BD#"; "Dx"] ++ hyperintensities_flair Demo.F) <> []
  /\ evaluate_feature_ablation Baseline.sk Demo.F (tl Demo.train_controls)
                               Demo.patients "ridge" "minmax" None
     = ([], Raise (KeyError (missing_labels (tl Demo.train_controls)
                               (["Age at Visit"; "BD#"; "Dx"]
                                ++ hyperintensities_flair Demo.F)))).
Proof.
  split; [discriminate|].
  apply (evaluate_missing_training_column Baseline.sk Demo.F (tl Demo.train_controls)
           Demo.patients "ridge" "minmax" None).
  discriminate.
Defined.

Lemma first_group_in_order (F : imaging_features) :
  In (hyperintensities_flair F) (ablation_order F).
Proof. now left. Qed.

(** X9: with a sound training table, a disease table that lacks a column
    to drop in the first pass makes [evaluate_feature_ablation] raise the
    [KeyError] of the missing labels before any scaler or model is
    fitted. *)
Theorem evaluate_missing_disease_column
        (sk : Sklearn) (F : imaging_features)
        (df_train_control df_test_disease : DataFrame)
        (model_type scalar_type : string) (df_test_control : option DataFrame) :
  cohort_table F df_train_control = true ->
  missing_labels df_test_disease
                 (["Age at Visit"; "BD#"; "Dx"] ++ hyperintensities_flair F) <> [] ->
  evaluate_feature_ablation sk F df_train_control df_test_disease
                            model_type scalar_type df_test_control
  = ([], Raise (KeyError (missing_labels df_test_disease
                            (["Age at Visit"; "BD#"; "Dx"]
                             ++ hyperintensities_flair F)))).
Proof.
  intros train_ok H. apply evaluate_first_pass.
  unfold ablation_body.
  rewrite (drop_astype_cohort F _ _ train_ok (first_group_in_order F)).
  rewrite bind_lift_ok. unfold drop_astype.
  change (non_features ++ hyperintensities_flair F)
    with (["Age at Visit"; "BD#"; "Dx"] ++ hyperintensities_flair F).
  rewrite (drop_missing _ _ H). reflexivity.
Qed.

Lemma evaluate_missing_disease_column_witness :
  cohort_table Demo.F Demo.train_controls = true
  /\ missing_labels (skipn 4 Demo.patients)
                    (["Age at Visit"; "BD#"; "Dx"] ++ hyperintensities_flair Demo.F)
     <> []
  /\ evaluate_feature_ablation Baseline.sk Demo.F Demo.train_controls
                               (skipn 4 Demo.patients) "svm" "standard" None
     = ([], Raise (KeyError ["Age at Visit"; "BD#"; "Dx"; "flair_wm"])).
Proof.
  split; [reflexivity|]. split; [discriminate|].
  apply (evaluate_missing_disease_column Baseline.sk Demo.F Demo.train_controls
           (skipn 4 Demo.patients) "svm" "standard" None);
    [reflexivity | discriminate].
Defined.

(** X10: a control table that lacks a column to drop in the first pass is
    only found out after the first model has been trained and the disease
    cohort predicted: when that training and that prediction return,
    [evaluate_feature_ablation] raises the [KeyError] of the missing
    labels, its log holds the calls of that training and of that
    prediction and nothing else, and no result is returned. *)
Theorem evaluate_missing_control_column
        (sk : Sklearn) (F : imaging_features)
        (df_train_control df_test_disease df_test_control : DataFrame)
        (model_type scalar_type : string)
        (X_train_control X_test_disease : FloatFrame) (y_train_control : Series)
        (train_log : list (call sk)) (model : model sk) (scaler : scaler sk)
        (y_pred_disease : ndarray1) :
  drop_astype df_train_control (hyperintensities_flair F) = Ok X_train_control ->
  drop_astype df_test_disease (hyperintensities_flair F) = Ok X_test_disease ->
  getitem df_train_control "Age at Visit" = Ok y_train_control ->
  train_model sk X_train_control y_train_control model_type scalar_type
  = (train_log, Ok (model, scaler)) ->
  result_of (predict_ages sk model scaler X_test_disease) = Ok y_pred_disease ->
  missing_labels df_test_control
                 (["Age at Visit"; "BD#"; "Dx"] ++ hyperintensities_flair F) <> [] ->
  evaluate_feature_ablation sk F df_train_control df_test_disease
                            model_type scalar_type (Some df_test_control)
  = (train_log ++ [Call_transform scaler X_test_disease;
                   Call_predict model (scaler_transform sk scaler X_test_disease)],
     Raise (KeyError (missing_labels df_test_control
                        (["Age at Visit"; "BD#"; "Dx"]
                         ++ hyperintensities_flair F))))
  /\ count_calls is_estimator_fit train_log = 1%nat.
Proof.
  intros Htr Hdi Hy Htm Hpd H. split.
  - apply evaluate_first_pass. unfold ablation_body.
    rewrite Htr, Hdi, Hy, !bind_lift_ok, Htm, bind_ok.
    rewrite (predict_ages_run _ _ _ _ _ Hpd), bind_ok.
    unfold drop_astype.
    change (non_features ++ hyperintensities_flair F)
      with (["Age at Visit"; "BD#"; "Dx"] ++ hyperintensities_flair F).
    rewrite (drop_missing _ _ H). reflexivity.
  - destruct (train_model_inv sk _ _ _ _ _ _ _ Htm) as [_ [search [e [-> [_ Hs]]]]].
    destruct Hs as [[_ [-> _]] | [_ [-> _]]]; reflexivity.
Qed.

Lemma evaluate_missing_control_column_witness :
  List.length Demo.ages6 = 6%nat
  /\ exists X_train_control X_test_disease train_log model scaler y_pred_disease,
    drop_astype Demo.train_controls (hyperintensities_flair Demo.F)
    = Ok X_train_control
    /\ drop_astype Demo.patients (hyperintensities_flair Demo.F) = Ok X_test_disease
    /\ getitem Demo.train_controls "Age at Visit" = Ok Demo.ages6
    /\ train_model Baseline.sk X_train_control Demo.ages6 "ridge" "minmax"
       = (train_log, Ok (model, scaler))
    /\ result_of (predict_ages Baseline.sk model scaler X_test_disease)
       = Ok y_pred_disease
    /\ missing_labels (tl Demo.test_controls)
                      (["Age at Visit"; "BD#"; "Dx"] ++ hyperintensities_flair Demo.F)
       <> []
    /\ result_of (evaluate_feature_ablation Baseline.sk Demo.F Demo.train_controls
                    Demo.patients "ridge" "minmax" (Some (tl Demo.test_controls)))
       = Raise (KeyError ["BD#"]).
Proof.
  split; [reflexivity|].
  do 6 eexists.
  split; [reflexivity|]. split; [reflexivity|]. split; [reflexivity|].
  split; [reflexivity|]. split; [reflexivity|]. split; [discriminate|].
  exact (f_equal result_of
           (proj1 (evaluate_missing_control_column
                     Baseline.sk Demo.F Demo.train_controls Demo.patients
                     (tl Demo.test_controls) "ridge" "minmax"
                     _ _ _ _ _ _ _ eq_refl eq_refl eq_refl eq_refl eq_refl
                     ltac:(discriminate)))).
Defined.

(** X11: when the first pass gets as far as [train_model] and the scaler
    can be fitted on its training frame, a model type other than
    ['ridge'] and ['svm'] stops [evaluate_feature_ablation] there with the
    [ValueError] of [train_model]; by then the scaler has been fitted on
    the first training frame, and nothing else has been computed. *)
Theorem evaluate_unsupported_model_type
        (sk : Sklearn) (F : imaging_features)
        (df_train_control df_test_disease : DataFrame)
        (model_type scalar_type : string) (df_test_control : option DataFrame)
        (X_train_control X_test_disease : FloatFrame) (y_train_control : Series)
        (scaler : scaler sk) (X_train_normalized : ndarray2) :
  drop_astype df_train_control (hyperintensities_flair F) = Ok X_train_control ->
  drop_astype df_test_disease (hyperintensities_flair F) = Ok X_test_disease ->
  getitem df_train_control "Age at Visit" = Ok y_train_control ->
  result_of (fit_transform sk (if String.eqb scalar_type "minmax"
                               then MinMaxScaler else StandardScaler)
                           X_train_control)
  = Ok (scaler, X_train_normalized) ->
  model_type <> "ridge" -> model_type <> "svm" ->
  evaluate_feature_ablation sk F df_train_control df_test_disease
                            model_type scalar_type df_test_control
  = ([Call_fit_transform (if String.eqb scalar_type "minmax"
                          then MinMaxScaler else StandardScaler)
                         X_train_control],
     Raise (ValueError ("Unsupported model type: " ++ model_type))).
Proof.
  intros Htr Hdi Hy Hft Hr Hs.
  apply evaluate_first_pass. unfold ablation_body.
  rewrite Htr, Hdi, Hy, !bind_lift_ok.
  rewrite train_model_unsupported by assumption.
  unfold fit_transform, library_call in Hft. fold (chosen_scaler scalar_type) in *.
  destruct (fit_transform_error sk (chosen_scaler scalar_type) X_train_control);
    [discriminate|].
  reflexivity.
Qed.

Lemma evaluate_unsupported_model_type_witness :
  exists X_train_control X_test_disease y_train_control scaler X_train_normalized,
    drop_astype Demo.train_controls (hyperintensities_flair Demo.F)
    = Ok X_train_control
    /\ drop_astype Demo.patients (hyperintensities_flair Demo.F) = Ok X_test_disease
    /\ getitem Demo.train_controls "Age at Visit" = Ok y_train_control
    /\ result_of (fit_transform Baseline.sk MinMaxScaler X_train_control)
       = Ok (scaler, X_train_normalized)
    /\ "Ridge" <> "ridge" /\ "Ridge" <> "svm"
    /\ result_of (evaluate_feature_ablation Baseline.sk Demo.F Demo.train_controls
                    Demo.patients "Ridge" "minmax" (Some Demo.test_controls))
       = Raise (ValueError "Unsupported model type: Ridge").
Proof.
  do 5 eexists.
  split; [reflexivity|]. split; [reflexivity|]. split; [reflexivity|].
  split; [reflexivity|]. split; [discriminate|]. split; [discriminate|].
  exact (f_equal result_of
           (evaluate_unsupported_model_type
              Baseline.sk Demo.F Demo.train_controls Demo.patients
              "Ridge" "minmax" (Some Demo.test_controls)
              _ _ _ _ _ eq_refl eq_refl eq_refl eq_refl
              ltac:(discriminate) ltac:(discriminate))).
Defined.

Lemma missing_of_has_columns (df : DataFrame) (labels : list label) :
  has_columns df labels = false -> missing_labels df labels <> [].
Proof.
  unfold has_columns, missing_labels.
  induction labels as [|l labels IH]; simpl; [discriminate|].
  destruct (mem_label l (columns df)); simpl; [exact IH | discriminate].
Qed.

Lemma drop_astype_missing (df : DataFrame) (feature : list label) :
  has_columns df (non_features ++ feature) = false ->
  exists e, drop_astype df feature = Raise e.
Proof.
  intros H. unfold drop_astype.
  rewrite (drop_missing _ _ (missing_of_has_columns _ _ H)).
  eexists. reflexivity.
Qed.

Lemma ablation_body_raises_if_missing
      (sk : Sklearn) (df_train_control df_test_disease : DataFrame)
      (model_type scalar_type : string) (df_test_control : option DataFrame)
      (acc : results_t) (feature : list label) :
  has_columns df_train_control (non_features ++ feature) = false
  \/ has_columns df_test_disease (non_features ++ feature) = false
  \/ (exists d, df_test_control = Some d
                /\ has_columns d (non_features ++ feature) = false) ->
  is_raise (result_of (ablation_body sk df_train_control df_test_disease model_type
                                     scalar_type df_test_control acc feature))
  = true.
Proof.
  intros H. unfold ablation_body. destruct acc as [rd rc].
  destruct (drop_astype df_train_control feature) as [Xtr|e] eqn:Etr;
    [|reflexivity].
  destruct (drop_astype df_test_disease feature) as [Xd|e] eqn:Edi;
    [|reflexivity].
  destruct (getitem df_train_control "Age at Visit") as [y|e]; [|reflexivity].
  rewrite !bind_lift_ok.
  destruct (train_model sk Xtr y model_type scalar_type) as [tlog [[m s]|e]];
    [|reflexivity].
  rewrite bind_ok.
  destruct (predict_ages sk m s Xd) as [plog [pd|e]]; [|reflexivity].
  rewrite bind_ok.
  destruct H as [H | [H | [d [-> H]]]].
  - destruct (drop_astype_missing _ _ H) as [e He]. congruence.
  - destruct (drop_astype_missing _ _ H) as [e He]. congruence.
  - destruct (drop_astype_missing _ _ H) as [e He]. rewrite He. reflexivity.
Qed.

Lemma for_each_raises_if_missing
      (sk : Sklearn) (df_train_control df_test_disease : DataFrame)
      (model_type scalar_type : string) (df_test_control : option DataFrame)
      (feature : list label) (features : list (list label)) :
  In feature features ->
  has_columns df_train_control (non_features ++ feature) = false
  \/ has_columns df_test_disease (non_features ++ feature) = false
  \/ (exists d, df_test_control = Some d
                /\ has_columns d (non_features ++ feature) = false) ->
  forall acc,
    is_raise (result_of (for_each (ablation_body sk df_train_control df_test_disease
                                     model_type scalar_type df_test_control)
                                  features acc))
    = true.
Proof.
  intros Hin Hbad. induction features as [|g features IH]; [contradiction|].
  intros acc. cbn [for_each].
  pose proof (ablation_body_raises_if_missing sk df_train_control df_test_disease
                model_type scalar_type df_test_control acc g) as Hg.
  destruct (ablation_body sk df_train_control df_test_disease model_type
                          scalar_type df_test_control acc g)
    as [l1 [acc'|e]]; [|reflexivity].
  rewrite bind_ok. cbn [result_of snd].
  destruct Hin as [->|Hin].
  - specialize (Hg Hbad). discriminate.
  - apply (IH Hin).
Qed.

(** X12: [evaluate_feature_ablation] never returns results when the
    training table, the disease table or a supplied control table lacks a
    column that some pass has to drop, whichever of the seven groups it
    belongs to: the call raises, it does not skip the group. *)
Theorem evaluate_aborts_on_missing_column
        (sk : Sklearn) (F : imaging_features)
        (df_train_control df_test_disease : DataFrame)
        (model_type scalar_type : string) (df_test_control : option DataFrame)
        (feature : list label) :
  In feature (ablation_order F) ->
  has_columns df_train_control (["Age at Visit"; "BD#"; "Dx"] ++ feature) = false
  \/ has_columns df_test_disease (["Age at Visit"; "BD#"; "Dx"] ++ feature) = false
  \/ (exists d, df_test_control = Some d
                /\ has_columns d (["Age at Visit"; "BD#"; "Dx"] ++ feature) = false) ->
  is_raise (result_of (evaluate_feature_ablation sk F df_train_control df_test_disease
                                                 model_type scalar_type
                                                 df_test_control))
  = true.
Proof.
  intros Hin Hbad. unfold evaluate_feature_ablation.
  now apply (for_each_raises_if_missing sk df_train_control df_test_disease
               model_type scalar_type df_test_control feature).
Qed.

Lemma evaluate_aborts_on_missing_column_witness :
  In (cortical_thickness Demo.F) (ablation_order Demo.F)
  /\ has_columns (removelast Demo.patients)
                 (["Age at Visit"; "BD#"; "Dx"] ++ cortical_thickness Demo.F) = false
  /\ is_raise (result_of (evaluate_feature_ablation Baseline.sk Demo.F
                            Demo.train_controls (removelast Demo.patients)
                            "ridge" "minmax" None))
     = true.
Proof.
  split; [do 6 right; now left|]. split; [reflexivity|].
  apply (evaluate_aborts_on_missing_column Baseline.sk Demo.F Demo.train_controls
           (removelast Demo.patients) "ridge" "minmax" None
           (cortical_thickness Demo.F)).
  - do 6 right; now left.
  - right; left; reflexivity.
Defined.

Lemma traverse_rejected (v : Series) :
  existsb rejected_by_float v = true ->
  existsb unmodelled_text v = false ->
  exists s, In (Text s) v
            /\ rejected_by_float (Text s) = true
            /\ traverse float_of_cell v
               = Raise (ValueError ("could not convert string to float: '" ++ s ++ "'")).
Proof.
  induction v as [|c v IH]; cbn [existsb]; [discriminate|].
  intros Hrej Hfin. apply orb_false_elim in Hfin. destruct Hfin as [Hc Hv].
  destruct c as [q|s].
  - cbn in Hrej. destruct (IH Hrej Hv) as [s [Hin [Hs Ht]]].
    exists s. split; [now right|]. split; [exact Hs|].
    cbn [traverse float_of_cell rbind]. now rewrite Ht.
  - cbn [traverse float_of_cell]. cbn [unmodelled_text] in Hc.
    apply orb_false_elim in Hc. destruct Hc as [Hc _].
    destruct (python_float s) as [q|] eqn:Eq.
    + assert (Hs : rejected_by_float (Text s) = false)
        by (cbn [rejected_by_float]; now rewrite Eq).
      rewrite Hs in Hrej. cbn [orb] in Hrej.
      destruct (IH Hrej Hv) as [s' [Hin [Hs' Ht]]].
      exists s'. split; [now right|]. split; [exact Hs'|].
      cbn [rbind]. now rewrite Ht.
    + exists s. split; [now left|]. split; [|reflexivity].
      cbn [rejected_by_float]. now rewrite Eq, Hc.
Qed.

Lemma traverse_converts (v : Series) :
  existsb rejected_by_float v = false ->
  existsb unmodelled_text v = false ->
  exists a, traverse float_of_cell v = Ok a.
Proof.
  induction v as [|c v IH]; cbn [existsb]; [now exists []|].
  intros Hrej Hfin.
  apply orb_false_elim in Hfin. destruct Hfin as [Hc Hv].
  apply orb_false_elim in Hrej. destruct Hrej as [Hr Hrv].
  destruct (IH Hrv Hv) as [a Ha].
  destruct c as [q|s]; cbn [traverse float_of_cell rbind].
  - rewrite Ha. eexists. reflexivity.
  - cbn [rejected_by_float unmodelled_text] in Hr, Hc.
    apply orb_false_elim in Hc. destruct Hc as [Hc _].
    destruct (python_float s) as [q|].
    + cbn [rbind]. rewrite Ha. eexists. reflexivity.
    + rewrite Hc in Hr. discriminate.
Qed.

Lemma astype_rejected (df : DataFrame) :
  existsb (fun c => existsb rejected_by_float (snd c)) df = true ->
  existsb (fun c => existsb unmodelled_text (snd c)) df = false ->
  exists c s, In c df /\ In (Text s) (snd c)
              /\ rejected_by_float (Text s) = true
              /\ astype_float64 df
                 = Raise (ValueError ("could not convert string to float: '"
                                      ++ s ++ "'")).
Proof.
  unfold astype_float64, DataFrame, Series in *.
  induction df as [|c df IH]; cbn [existsb traverse]; [discriminate|].
  intros Hrej Hfin. apply orb_false_elim in Hfin. destruct Hfin as [Hc Hv].
  destruct (existsb rejected_by_float (snd c)) eqn:Ec; cbn [orb] in Hrej.
  - destruct (traverse_rejected _ Ec Hc) as [s [Hin [Hs Ht]]].
    exists c, s. split; [now left|]. split; [exact Hin|]. split; [exact Hs|].
    unfold Series in *. now rewrite Ht.
  - destruct (IH Hrej Hv) as [c' [s [Hc' [Hin [Hs Ht]]]]].
    exists c', s. split; [now right|]. split; [exact Hin|]. split; [exact Hs|].
    destruct (traverse_converts _ Ec Hc) as [a Ha].
    unfold Series in *. rewrite Ha. cbn [rbind]. now rewrite Ht.
Qed.

Lemma existsb_filter {A : Type} (p q : A -> bool) (l : list A) :
  existsb (fun x => p x && q x) l = existsb q (filter p l).
Proof.
  induction l as [|x l IH]; [reflexivity|].
  cbn [existsb filter]. destruct (p x); cbn [existsb andb]; now rewrite IH.
Qed.

(** X13: when a column of the training table that the first pass keeps
    holds a string that [float()] rejects, and the strings of the kept
    columns are plain ASCII and spell neither an infinity nor [nan],
    [evaluate_feature_ablation] raises the [ValueError] of [astype] for
    such a string, before any call to scikit-learn. Strings that spell
    finite numbers are converted. *)
Theorem evaluate_rejects_text_column
        (sk : Sklearn) (F : imaging_features)
        (df_train_control df_test_disease : DataFrame)
        (model_type scalar_type : string) (df_test_control : option DataFrame) :
  has_columns df_train_control
              (["Age at Visit"; "BD#"; "Dx"] ++ hyperintensities_flair F) = true ->
  existsb (fun c => negb (mem_label (fst c) (["Age at Visit"; "BD#"; "Dx"]
                                             ++ hyperintensities_flair F))
                    && existsb rejected_by_float (snd c)) df_train_control = true ->
  existsb (fun c => negb (mem_label (fst c) (["Age at Visit"; "BD#"; "Dx"]
                                             ++ hyperintensities_flair F))
                    && existsb unmodelled_text (snd c)) df_train_control = false ->
  exists c s,
    In c df_train_control /\ In (Text s) (snd c)
    /\ python_float s = None
    /\ evaluate_feature_ablation sk F df_train_control df_test_disease
                                 model_type scalar_type df_test_control
       = ([], Raise (ValueError ("could not convert string to float: '"
                                 ++ s ++ "'"))).
Proof.
  intros Hcols Hrej Hfin.
  change (["Age at Visit"; "BD#"; "Dx"] ++ hyperintensities_flair F)
    with (non_features ++ hyperintensities_flair F) in *.
  rewrite existsb_filter in Hrej, Hfin.
  destruct (astype_rejected _ Hrej Hfin) as [c [s [Hc [Hs [Hr Hraise]]]]].
  exists c, s. apply filter_In in Hc. split; [apply Hc|]. split; [exact Hs|].
  split.
  { cbn [rejected_by_float] in Hr. now destruct (python_float s). }
  apply evaluate_first_pass. unfold ablation_body, drop_astype.
  rewrite (drop_present _ _ Hcols). cbn [rbind].
  unfold DataFrame, Series, label in *. rewrite Hraise. reflexivity.
Qed.

Lemma evaluate_rejects_text_column_witness :
  has_columns (Demo.train_controls
                 ++ [("age_group", [Text "30-39"; Text "40-49"; Text "50-59";
                                    Text "30-39"; Text "40-49"; Text "60-69"])])
              (["Age at Visit"; "BD#"; "Dx"] ++ hyperintensities_flair Demo.F) = true
  /\ existsb (fun c => negb (mem_label (fst c) (["Age at Visit"; "BD#"; "Dx"]
                                                ++ hyperintensities_flair Demo.F))
                       && existsb rejected_by_float (snd c))
             (Demo.train_controls
                ++ [("age_group", [Text "30-39"; Text "40-49"; Text "50-59";
                                   Text "30-39"; Text "40-49"; Text "60-69"])])
     = true
  /\ existsb (fun c => negb (mem_label (fst c) (["Age at Visit"; "BD#"; "Dx"]
                                                ++ hyperintensities_flair Demo.F))
                       && existsb unmodelled_text (snd c))
             (Demo.train_controls
                ++ [("age_group", [Text "30-39"; Text "40-49"; Text "50-59";
                                   Text "30-39"; Text "40-49"; Text "60-69"])])
     = false
  /\ exists c s,
       In c (Demo.train_controls
               ++ [("age_group", [Text "30-39"; Text "40-49"; Text "50-59";
                                  Text "30-39"; Text "40-49"; Text "60-69"])])
       /\ In (Text s) (snd c)
       /\ python_float s = None
       /\ evaluate_feature_ablation Baseline.sk Demo.F
            (Demo.train_controls
               ++ [("age_group", [Text "30-39"; Text "40-49"; Text "50-59";
                                  Text "30-39"; Text "40-49"; Text "60-69"])])
            Demo.patients "ridge" "minmax" None
          = ([], Raise (ValueError ("could not convert string to float: '"
                                    ++ s ++ "'"))).
Proof.
  split; [reflexivity|]. split; [reflexivity|]. split; [reflexivity|].
  apply (evaluate_rejects_text_column Baseline.sk Demo.F
           (Demo.train_controls
              ++ [("age_group", [Text "30-39"; Text "40-49"; Text "50-59";
                                 Text "30-39"; Text "40-49"; Text "60-69"])])
           Demo.patients "ridge" "minmax" None);
    reflexivity.
Defined.

(** ** What a run of [evaluate_feature_ablation] computes *)

Lemma count_calls_flat_map {sk : Sklearn} {A : Type} (p : call sk -> bool)
      (f : A -> list (call sk)) (k : nat) (l : list A) :
  Forall (fun a => count_calls p (f a) = k) l ->
  count_calls p (flat_map f l) = (k * List.length l)%nat.
Proof.
  induction 1 as [|a l Ha _ IH]; [unfold count_calls; simpl; lia|].
  cbn [flat_map List.length]. rewrite count_calls_app, Ha, IH, Nat.mul_succ_r. lia.
Qed.

(** X14: a call of [evaluate_feature_ablation] that returns has fitted
    exactly seven scalers, run exactly seven hyper-parameter searches and
    fitted exactly seven final estimators, with or without a control
    cohort; it has called [predict] 14 times with a control cohort and 7
    times without. *)
Theorem evaluate_call_counts
        (sk : Sklearn) (F : imaging_features)
        (df_train_control df_test_disease : DataFrame)
        (model_type scalar_type : string) (df_test_control : option DataFrame)
        (log : list (call sk)) (results_disease results_control : list ndarray1) :
  evaluate_feature_ablation sk F df_train_control df_test_disease
                            model_type scalar_type df_test_control
  = (log, Ok (results_disease, results_control)) ->
  count_calls is_scaler_fit log = 7%nat
  /\ count_calls is_search log = 7%nat
  /\ count_calls is_estimator_fit log = 7%nat
  /\ count_calls is_predict log
     = match df_test_control with Some _ => 14%nat | None => 7%nat end.
Proof.
  intros Hrun.
  destruct (evaluate_feature_ablation_run _ _ _ _ _ _ _ _ _ _ Hrun)
    as [its [Hfs [Hall [-> _]]]].
  pose proof (seven_passes F its Hfs) as Hlen.
  assert (Hlogs : Forall (fun it =>
            count_calls is_scaler_fit (it_log it) = 1%nat
            /\ count_calls is_search (it_log it) = 1%nat
            /\ count_calls is_estimator_fit (it_log it) = 1%nat
            /\ count_calls is_predict (it_log it)
               = match df_test_control with Some _ => 2%nat | None => 1%nat end) its).
  { eapply Forall_impl; [|exact Hall]. intros it Hit.
    now apply (iteration_log _ _ _ _ _ _ it Hit). }
  split; [|split; [|split]].
  - rewrite (count_calls_flat_map _ _ 1); [lia|].
    eapply Forall_impl; [|exact Hlogs]. now intros it [H _].
  - rewrite (count_calls_flat_map _ _ 1); [lia|].
    eapply Forall_impl; [|exact Hlogs]. now intros it [_ [H _]].
  - rewrite (count_calls_flat_map _ _ 1); [lia|].
    eapply Forall_impl; [|exact Hlogs]. now intros it [_ [_ [H _]]].
  - rewrite (count_calls_flat_map _ _
               (match df_test_control with Some _ => 2 | None => 1 end)%nat).
    + destruct df_test_control; lia.
    + eapply Forall_impl; [|exact Hlogs]. now intros it [_ [_ [_ H]]].
Qed.

Lemma evaluate_call_counts_witness :
  List.length Demo.ages6 = 6%nat
  /\ getitem Demo.train_controls "Age at Visit" = Ok Demo.ages6
  /\ exists log results_disease results_control,
       evaluate_feature_ablation Baseline.sk Demo.F Demo.train_controls
                                 Demo.patients "svm" "minmax"
                                 (Some Demo.test_controls)
       = (log, Ok (results_disease, results_control))
       /\ count_calls is_scaler_fit log = 7%nat
       /\ count_calls is_predict log = 14%nat.
Proof.
  split; [reflexivity|]. split; [reflexivity|].
  do 3 eexists.
  refine (let H := _ in
          let T := evaluate_call_counts
                     Baseline.sk Demo.F Demo.train_controls Demo.patients
                     "svm" "minmax" (Some Demo.test_controls) _ _ _ H in
          conj H (conj (proj1 T) (proj2 (proj2 (proj2 T))))).
  reflexivity.
Defined.

Lemma predict_ages_fits_nothing
      (sk : Sklearn) (F : imaging_features) (df_train_control : DataFrame)
      (m : model sk) (s : scaler sk) (X : FloatFrame) :
  Forall (fits_on_training sk F df_train_control) (calls_of (predict_ages sk m s X)).
Proof.
  destruct (predict_ages_calls sk m s X) as [-> | ->]; repeat constructor.
Qed.

Lemma ablation_body_fits_on_training
      (sk : Sklearn) (F : imaging_features)
      (df_train_control df_test_disease : DataFrame)
      (model_type scalar_type : string) (df_test_control : option DataFrame)
      (acc : results_t) (feature : list label) :
  In feature (ablation_order F) ->
  Forall (fits_on_training sk F df_train_control)
         (calls_of (ablation_body sk df_train_control df_test_disease model_type
                                  scalar_type df_test_control acc feature)).
Proof.
  intros Hin. unfold ablation_body. destruct acc as [rd rc].
  destruct (drop_astype df_train_control feature) as [Xtr|e] eqn:Etr;
    [|constructor].
  destruct (drop_astype df_test_disease feature) as [Xd|e] eqn:Edi;
    [|constructor].
  destruct (getitem df_train_control "Age at Visit") as [y|e] eqn:Ey;
    [|constructor].
  rewrite !bind_lift_ok, calls_of_bind. apply Forall_app. split.
  - assert (Hscaled : scaled_training_frame sk F df_train_control
              (scaler_transform sk (scaler_fit sk (chosen_scaler scalar_type) Xtr)
                                Xtr)).
    { exists feature, Xtr, (chosen_scaler scalar_type). now repeat split. }
    apply train_model_calls; cbn [fits_on_training].
    + exists feature. now split.
    + now split.
    + now split.
    + intros e. now split.
  - destruct (result_of (train_model sk Xtr y model_type scalar_type))
      as [[m s]|e]; [|constructor].
    rewrite calls_of_bind. apply Forall_app. split.
    + apply predict_ages_fits_nothing.
    + destruct (result_of (predict_ages sk m s Xd)) as [pd|e]; [|constructor].
      destruct df_test_control as [d|]; [|constructor].
      destruct (drop_astype d feature) as [Xc|e]; [|constructor].
      rewrite bind_lift_ok, calls_of_bind. apply Forall_app. split.
      * apply predict_ages_fits_nothing.
      * destruct (result_of (predict_ages sk m s Xc)); constructor.
Qed.

Lemma for_each_fits_on_training
      (sk : Sklearn) (F : imaging_features)
      (df_train_control df_test_disease : DataFrame)
      (model_type scalar_type : string) (df_test_control : option DataFrame)
      (features : list (list label)) :
  incl features (ablation_order F) ->
  forall acc,
    Forall (fits_on_training sk F df_train_control)
           (calls_of (for_each (ablation_body sk df_train_control df_test_disease
                                  model_type scalar_type df_test_control)
                               features acc)).
Proof.
  induction features as [|feature features IH]; intros Hincl acc; [constructor|].
  cbn [for_each]. rewrite calls_of_bind. apply Forall_app. split.
  - apply ablation_body_fits_on_training. apply Hincl. now left.
  - destruct (result_of (ablation_body sk df_train_control df_test_disease
                           model_type scalar_type df_test_control acc feature));
      [|constructor].
    apply IH. intros g Hg. apply Hincl. now right.
Qed.

(** X15: on sound tables, nothing is ever fitted on evaluation data: in
    the log of [evaluate_feature_ablation] every scaler fit is on a
    training frame of some pass, and every hyper-parameter search and
    every estimator fit is on a scaled training frame and the
    ['Age at Visit'] column of the training table. The disease and control
    tables only reach [transform] and [predict]. *)
Theorem evaluate_fits_on_training_only
        (sk : Sklearn) (F : imaging_features)
        (df_train_control df_test_disease : DataFrame)
        (model_type scalar_type : string) (df_test_control : option DataFrame) :
  cohort_table F df_train_control = true ->
  cohort_table F df_test_disease = true ->
  optional_cohort_table F df_test_control = true ->
  supported_model_type model_type = true ->
  Forall (fits_on_training sk F df_train_control)
         (calls_of (evaluate_feature_ablation sk F df_train_control df_test_disease
                                              model_type scalar_type df_test_control)).
Proof.
  intros _ _ _ _. unfold evaluate_feature_ablation.
  apply for_each_fits_on_training. apply incl_refl.
Qed.

Lemma evaluate_fits_on_training_only_witness :
  cohort_table Demo.F Demo.train_controls = true
  /\ cohort_table Demo.F Demo.patients = true
  /\ optional_cohort_table Demo.F (Some Demo.test_controls) = true
  /\ supported_model_type "ridge" = true
  /\ Forall (fits_on_training Baseline.sk Demo.F Demo.train_controls)
            (calls_of (evaluate_feature_ablation Baseline.sk Demo.F
                         Demo.train_controls Demo.patients "ridge" "standard"
                         (Some Demo.test_controls))).
Proof.
  split; [reflexivity|]. split; [reflexivity|].
  split; [reflexivity|]. split; [reflexivity|].
  apply (evaluate_fits_on_training_only Baseline.sk Demo.F Demo.train_controls
           Demo.patients "ridge" "standard" (Some Demo.test_controls));
    reflexivity.
Defined.

Lemma iteration_without_control
      (sk : Sklearn) (df_train_control df_test_disease : DataFrame)
      (model_type scalar_type : string) (df_test_control : option DataFrame)
      (it : iteration sk) :
  iteration_of sk df_train_control df_test_disease model_type scalar_type
               df_test_control it ->
  iteration_of sk df_train_control df_test_disease model_type scalar_type
               None (without_control it).
Proof.
  intros [Htr [Hdi [Hy [Htm [Hpd _]]]]]. now repeat split.
Qed.

(** X16: the disease results do not depend on the control cohort: when
    [evaluate_feature_ablation] returns with a control cohort, it also
    returns without one, with the same first list. *)
Theorem evaluate_disease_results_ignore_control
        (sk : Sklearn) (F : imaging_features)
        (df_train_control df_test_disease df_test_control : DataFrame)
        (model_type scalar_type : string)
        (results_disease results_control : list ndarray1) :
  result_of (evaluate_feature_ablation sk F df_train_control df_test_disease
               model_type scalar_type (Some df_test_control))
  = Ok (results_disease, results_control) ->
  result_of (evaluate_feature_ablation sk F df_train_control df_test_disease
               model_type scalar_type None)
  = Ok (results_disease, []).
Proof.
  intros Hrun.
  destruct (evaluate_feature_ablation_result _ _ _ _ _ _ _ _ _ Hrun)
    as [its [Hfs [Hall [_ [-> _]]]]].
  assert (Hall' : Forall (iteration_of sk df_train_control df_test_disease
                                       model_type scalar_type None)
                         (map without_control its)).
  { apply Forall_map. eapply Forall_impl; [|exact Hall].
    intros it. apply iteration_without_control. }
  rewrite (evaluate_feature_ablation_returns sk F _ _ _ _ None
             (map without_control its)).
  - cbn [result_of snd].
    rewrite (iteration_control_none _ _ _ _ _ _ Hall').
    now rewrite map_map.
  - now rewrite map_map.
  - exact Hall'.
Qed.

Lemma evaluate_disease_results_ignore_control_witness :
  List.length Demo.ages6 = 6%nat
  /\ getitem Demo.train_controls "Age at Visit" = Ok Demo.ages6
  /\ exists results_disease results_control,
       result_of (evaluate_feature_ablation Offset.sk Demo.F Demo.train_controls
                    Demo.patients "ridge" "minmax" (Some Demo.test_controls))
       = Ok (results_disease, results_control)
       /\ result_of (evaluate_feature_ablation Offset.sk Demo.F Demo.train_controls
                       Demo.patients "ridge" "minmax" None)
          = Ok (results_disease, []).
Proof.
  split; [reflexivity|]. split; [reflexivity|].
  do 2 eexists.
  refine (let H := _ in
          conj H (evaluate_disease_results_ignore_control
                    Offset.sk Demo.F Demo.train_controls Demo.patients
                    Demo.test_controls "ridge" "minmax" _ _ H)).
  vm_compute. reflexivity.
Defined.

(** ** The frames handed to the model *)

(** X17: whenever a pass builds a feature frame from a table, the frame
    holds none of ['Age at Visit'], ['BD#'], ['Dx'] and none of the
    columns of the group being ablated, and it holds every other column
    of the table, in the table's order. In particular the target never
    reaches the model as a feature. *)
Theorem drop_astype_keeps_the_other_columns
        (df : DataFrame) (feature : list label) (X : FloatFrame) :
  drop_astype df feature = Ok X ->
  ~ In "Age at Visit" (columns X)
  /\ (forall l, In l (["Age at Visit"; "BD#"; "Dx"] ++ feature) -> ~ In l (columns X))
  /\ (forall l, In l (columns df) ->
                ~ In l (["Age at Visit"; "BD#"; "Dx"] ++ feature) ->
                In l (columns X))
  /\ columns X
     = filter (fun l => negb (mem_label l (["Age at Visit"; "BD#"; "Dx"] ++ feature)))
              (columns df).
Proof.
  intros H. apply drop_astype_columns in H. unfold kept_columns in H.
  change non_features with ["Age at Visit"; "BD#"; "Dx"] in H.
  assert (Hout : forall l, In l (["Age at Visit"; "BD#"; "Dx"] ++ feature) ->
                           ~ In l (columns X)).
  { intros l Hl Hin. rewrite H in Hin. apply filter_In in Hin.
    destruct Hin as [_ Hk]. apply mem_label_In in Hl.
    apply negb_true_iff in Hk. exact (eq_true_false_abs _ Hl Hk). }
  split; [apply Hout; now left|]. split; [exact Hout|]. split; [|exact H].
  intros l Hl Hnot. rewrite H. apply filter_In. split; [exact Hl|].
  apply negb_true_iff.
  match goal with |- ?b = false => destruct b eqn:E end; [|reflexivity].
  apply mem_label_In in E. contradiction.
Qed.

Lemma drop_astype_keeps_the_other_columns_witness :
  drop_astype Demo.patients (dti Demo.F)
  = Ok [("flair_wm", [20; 21]%Q); ("flair_pv", [20; 22]%Q); ("cbf_gm", [20; 24]%Q);
        ("rs_dmn", [20; 25]%Q); ("vent_lat", [20; 26]%Q);
        ("area_total", [20; 27]%Q); ("thick_mean", [20; 28]%Q)]
  /\ ~ In "Age at Visit"
          ["flair_wm"; "flair_pv"; "cbf_gm"; "rs_dmn"; "vent_lat"; "area_total";
           "thick_mean"].
Proof.
  split; [reflexivity|].
  exact (proj1 (drop_astype_keeps_the_other_columns Demo.patients (dti Demo.F)
           [("flair_wm", [20; 21]%Q); ("flair_pv", [20; 22]%Q); ("cbf_gm", [20; 24]%Q);
            ("rs_dmn", [20; 25]%Q); ("vent_lat", [20; 26]%Q);
            ("area_total", [20; 27]%Q); ("thick_mean", [20; 28]%Q)]
           eq_refl)).
Defined.

(** ** [train_model] for both model types *)

(** X18: whenever [train_model] returns, the model type was ['ridge'] or
    ['svm'] and exactly three library calls were made, in this order: the
    scaler was fitted on the training features, one hyper-parameter
    search ran on the scaled training features, and one final estimator
    was fitted on that same scaled matrix and the same targets. What is
    returned is that fitted estimator with the scaler that produced the
    matrix. *)
Theorem train_model_three_calls
        (sk : Sklearn) (X_train : FloatFrame) (y_train : Series)
        (model_type scaler_type : string)
        (final_model : model sk) (fitted_scaler : scaler sk) :
  result_of (train_model sk X_train y_train model_type scaler_type)
  = Ok (final_model, fitted_scaler) ->
  supported_model_type model_type = true
  /\ exists search final_estimator,
       let scaler := scaler_fit sk (if String.eqb scaler_type "minmax"
                                    then MinMaxScaler else StandardScaler) X_train in
       let X_train_normalized := scaler_transform sk scaler X_train in
       train_model sk X_train y_train model_type scaler_type
       = ([Call_fit_transform (if String.eqb scaler_type "minmax"
                               then MinMaxScaler else StandardScaler) X_train;
           search;
           Call_fit final_estimator X_train_normalized y_train],
          Ok (estimator_fit sk final_estimator X_train_normalized y_train, scaler))
       /\ (search = Call_RidgeCV_fit ridge_alphas "neg_mean_absolute_error"
                      {| n_splits := 5; n_repeats := 10; random_state := 1 |}
                      X_train_normalized y_train
           \/ search = Call_GridSearchCV_fit
                         {| grid_C := [1 # 10; 1; 10; 100]%Q;
                            grid_epsilon := [1 # 100; 1 # 10; 1]%Q;
                            grid_kernel := ["linear"; "rbf"] |}
                         "neg_mean_absolute_error"
                         {| n_splits := 5; n_repeats := 10; random_state := 1 |}
                         (-1)%Z X_train_normalized y_train).
Proof.
  destruct (train_model sk X_train y_train model_type scaler_type) as [log r] eqn:E.
  cbn [result_of snd]. intros ->.
  destruct (train_model_inv sk _ _ _ _ _ _ _ E) as [-> [search [e [-> [-> Hk]]]]].
  split.
  - unfold supported_model_type.
    destruct Hk as [[-> _] | [-> _]]; reflexivity.
  - exists search, e. cbv zeta. fold (chosen_scaler scaler_type).
    split; [reflexivity|].
    destruct Hk as [[_ [-> _]] | [_ [-> _]]]; [now left | now right].
Qed.

Lemma train_model_three_calls_witness :
  List.length Demo.ages6 = 6%nat
  /\ exists final_model fitted_scaler,
       result_of (train_model Baseline.sk Demo.features6 Demo.ages6 "svm" "standard")
       = Ok (final_model, fitted_scaler)
       /\ supported_model_type "svm" = true
       /\ List.length (calls_of (train_model Baseline.sk Demo.features6 Demo.ages6
                                             "svm" "standard")) = 3%nat.
Proof.
  split; [reflexivity|].
  do 2 eexists. split; [reflexivity|].
  destruct (train_model_three_calls Baseline.sk Demo.features6 Demo.ages6
              "svm" "standard" _ _ eq_refl) as [Hs [search [e [Hrun _]]]].
  split; [exact Hs|].
  cbv zeta in Hrun.
  exact (f_equal (fun r => List.length (calls_of r)) Hrun).
Defined.

(** ** From predictions to the report *)

(** X19: when [evaluate_feature_ablation] has returned and
    [calculate_mae] returns on its disease results, there are seven
    scores, so that [zip(feature_sets, scores)] pairs every feature-set
    name, in order, with a score, and drops none. *)
Theorem evaluate_then_calculate_mae
        (sk : Sklearn) (F : imaging_features)
        (df_train_control df_test_disease : DataFrame)
        (model_type scalar_type : string) (df_test_control : option DataFrame)
        (results_disease results_control : list ndarray1) (y_test : ndarray1)
        (mae_results : list float64) :
  result_of (evaluate_feature_ablation sk F df_train_control df_test_disease
                                       model_type scalar_type df_test_control)
  = Ok (results_disease, results_control) ->
  calculate_mae results_disease y_test = Ok mae_results ->
  List.length mae_results = 7%nat
  /\ map fst (combine feature_sets mae_results) = feature_sets
  /\ map snd (combine feature_sets mae_results) = mae_results.
Proof.
  intros Hrun Hmae.
  destruct (evaluate_feature_ablation_result _ _ _ _ _ _ _ _ _ Hrun)
    as [its [Hfs [_ [_ [-> _]]]]].
  apply calculate_mae_loop_length in Hmae.
  rewrite length_map, (seven_passes F its Hfs) in Hmae. cbn in Hmae.
  split; [exact Hmae|].
  destruct mae_results as [|s1 [|s2 [|s3 [|s4 [|s5 [|s6 [|s7 [|s8 l]]]]]]]];
    try discriminate.
  split; reflexivity.
Qed.

Lemma evaluate_then_calculate_mae_witness :
  List.length Demo.ages6 = 6%nat
  /\ getitem Demo.train_controls "Age at Visit" = Ok Demo.ages6
  /\ exists results_disease results_control mae_results,
       result_of (evaluate_feature_ablation Offset.sk Demo.F Demo.train_controls
                    Demo.patients "ridge" "minmax" None)
       = Ok (results_disease, results_control)
       /\ calculate_mae results_disease [35; 60]%Q = Ok mae_results
       /\ List.length mae_results = 7%nat
       /\ map fst (combine feature_sets mae_results) = feature_sets
       /\ map snd (combine feature_sets mae_results) = mae_results.
Proof.
  split; [reflexivity|]. split; [reflexivity|].
  do 3 eexists.
  split; [vm_compute; reflexivity|]. split; [vm_compute; reflexivity|].
  eapply (evaluate_then_calculate_mae Offset.sk Demo.F Demo.train_controls
            Demo.patients "ridge" "minmax" None _ [] [35; 60]%Q);
    vm_compute; reflexivity.
Defined.

(** ** [plot_scatter_with_regression] *)

Example dirname_examples :
  (dirname "figures/multimodal_model/results_ridge_dti.png", dirname "/x",
   dirname "a//b", dirname "//x", dirname "x.png", dirname "a/b/")
  = ("figures/multimodal_model", "/", "a", "//", "", "a/b").
Proof. reflexivity. Qed.

Example regression_label :
  nth_error (calls_made (plot_scatter_with_regression LeastSquares.fit
                           [30; 40; 50]%Q [31; 42; 49]%Q "" None)) 3
  = Some (Plt_text (5 # 100) (9 # 10) "Pearson r: 0.00" 12 "white" (1 # 2))
  /\ LeastSquares.fit_line [30; 40; 50]%Q [31; 42; 49]%Q = Some (9 # 10, 14 # 3)%Q
  /\ LeastSquares.fixed_2 (14 # 3) = "4.67".
Proof. repeat split; reflexivity. Qed.

Lemma drop_while_all {A : Type} (p : A -> bool) (l : list A) :
  forallb p l = true -> drop_while p l = [].
Proof.
  induction l as [|x l IH]; simpl; [reflexivity|].
  destruct (p x); simpl; [exact IH | discriminate].
Qed.

Lemma dirname_no_slash (p : string) : has_slash p = false -> dirname p = "".
Proof.
  unfold has_slash, dirname. intros H.
  assert (Hall : forallb (fun c => negb (is_slash c)) (rev (list_ascii_of_string p))
                 = true).
  { apply forallb_forall. intros c Hc. apply in_rev in Hc.
    destruct (is_slash c) eqn:E; [|reflexivity].
    assert (Hex : existsb is_slash (list_ascii_of_string p) = true)
      by (apply existsb_exists; now exists c).
    congruence. }
  rewrite (drop_while_all _ _ Hall). reflexivity.
Qed.

(** X20: when [plot_scatter_with_regression] completes, the calls that
    reach the outside are exactly these, made last and in this order:
    with a non-empty [save_path], [os.makedirs] on its directory, then
    [savefig] on the path at 300 dpi, then [close]; with no [save_path],
    or an empty one, a single [show]. The figure is never both saved and
    shown. *)
Theorem plot_saves_or_shows
        (fit : Fitting) (y_test y_pred : ndarray1) (title : string)
        (save_path : option string) :
  outcome_of (plot_scatter_with_regression fit y_test y_pred title save_path)
  = Done tt ->
  exists drawing,
    calls_made (plot_scatter_with_regression fit y_test y_pred title save_path)
    = drawing ++ match save_path with
                 | Some path =>
                     if negb (String.eqb path "")
                     then [Os_makedirs (dirname path) true;
                           Plt_savefig path 300 "tight"; Plt_close]
                     else [Plt_show]
                 | None => [Plt_show]
                 end
    /\ filter is_output_call drawing = [].
Proof.
  intros H.
  exists (firstn 9 (calls_made (plot_scatter_with_regression fit y_test y_pred
                                                            title save_path))).
  revert H. unfold plot_scatter_with_regression, plt_scatter.
  destruct (Nat.eqb (List.length y_test) (List.length y_pred)); [|discriminate].
  destruct (polyfit1 fit y_test y_pred) as [[c0 c1]|]; [|discriminate].
  destruct y_test as [|y0 ys]; [discriminate|].
  destruct (pearsonr fit (y0 :: ys) y_pred) as [[r p]|]; [|discriminate].
  destruct save_path as [path|]; [|intros _; split; reflexivity].
  unfold truthy, os_makedirs.
  destruct (String.eqb path ""); [intros _; split; reflexivity|].
  destruct (String.eqb (dirname path) ""); [discriminate|].
  intros _; split; reflexivity.
Qed.

Lemma plot_saves_or_shows_witness :
  outcome_of (plot_scatter_with_regression LeastSquares.fit [30; 40; 50]%Q
                [31; 42; 49]%Q "Feature ablated: dti" (Some "figures/m/dti.png"))
  = Done tt
  /\ exists drawing,
       calls_made (plot_scatter_with_regression LeastSquares.fit [30; 40; 50]%Q
                     [31; 42; 49]%Q "Feature ablated: dti" (Some "figures/m/dti.png"))
       = drawing ++ [Os_makedirs "figures/m" true;
                     Plt_savefig "figures/m/dti.png" 300 "tight"; Plt_close]
       /\ filter is_output_call drawing = [].
Proof.
  split; [reflexivity|].
  apply (plot_saves_or_shows LeastSquares.fit [30; 40; 50]%Q [31; 42; 49]%Q
           "Feature ablated: dti" (Some "figures/m/dti.png")).
  reflexivity.
Defined.

(** X21: a [save_path] that is a bare file name, with no directory part,
    is never written: [os.path.dirname] gives the empty path,
    [os.makedirs] rejects it, and the call ends in [FileNotFoundError]
    (or in an earlier failure) without [savefig] and without [close]. *)
Theorem plot_bare_file_name_is_not_saved
        (fit : Fitting) (y_test y_pred : ndarray1) (title path : string) :
  path <> "" ->
  has_slash path = false ->
  is_done (outcome_of (plot_scatter_with_regression fit y_test y_pred title
                                                    (Some path))) = false
  /\ filter is_savefig
            (calls_made (plot_scatter_with_regression fit y_test y_pred title
                                                      (Some path))) = []
  /\ ~ In Plt_close
          (calls_made (plot_scatter_with_regression fit y_test y_pred title
                                                    (Some path)))
  /\ (polyfit1 fit y_test y_pred <> None -> y_test <> [] ->
      pearsonr fit y_test y_pred <> None ->
      outcome_of (plot_scatter_with_regression fit y_test y_pred title (Some path))
      = Failed (FileNotFoundError "")).
Proof.
  intros Hne Hslash. apply String.eqb_neq in Hne.
  pose proof (dirname_no_slash path Hslash) as Hdir.
  unfold plot_scatter_with_regression, plt_scatter, truthy, os_makedirs.
  rewrite Hne, Hdir. cbn [negb String.eqb].
  destruct (polyfit1 fit y_test y_pred) as [[c0 c1]|] eqn:Hfit.
  - destruct (polyfit1_defined fit _ _ _ Hfit) as [_ Hlen].
    apply Nat.eqb_eq in Hlen. rewrite Hlen.
    destruct y_test as [|y0 ys].
    + repeat split; try reflexivity; [|congruence].
      cbn. intros [H|[H|[]]]; discriminate.
    + destruct (pearsonr fit (y0 :: ys) y_pred) as [[r p]|].
      * repeat split; try reflexivity.
        cbn. intuition discriminate.
      * repeat split; try reflexivity; [|congruence].
        cbn. intuition discriminate.
  - destruct (Nat.eqb (List.length y_test) (List.length y_pred));
      (repeat split; try reflexivity; [|congruence]);
      cbn; intros [H|[H|[]]]; discriminate.
Qed.

Lemma plot_bare_file_name_is_not_saved_witness :
  "dti.png" <> "" /\ has_slash "dti.png" = false
  /\ outcome_of (plot_scatter_with_regression LeastSquares.fit [30; 40; 50]%Q
                   [31; 42; 49]%Q "" (Some "dti.png"))
     = Failed (FileNotFoundError "").
Proof.
  split; [discriminate|]. split; [reflexivity|].
  apply (plot_bare_file_name_is_not_saved LeastSquares.fit [30; 40; 50]%Q
           [31; 42; 49]%Q "" "dti.png"); try discriminate.
  reflexivity.
Defined.

(** X22: with an empty [y_test] nothing is drawn beyond the empty figure
    and nothing is saved or shown. With a non-empty [y_pred] the call
    ends in [plt.scatter], which rejects arrays of different sizes; with
    both arrays empty the scatter is accepted and the call ends in
    [np.polyfit], which rejects an empty [x]. The builtin [min] is never
    reached on an empty [y_test]. *)
Theorem plot_empty_input_fails
        (fit : Fitting) (y_pred : ndarray1) (title : string)
        (save_path : option string) :
  plot_scatter_with_regression fit [] y_pred title save_path
  = ([Plt_figure (6, 6)%Q; Plt_scatter [] y_pred (7 # 10) "k" 1],
     match y_pred with
     | [] => Failed (LibraryError "numpy.polyfit")
     | _ :: _ => Failed (Builtin (ValueError "x and y must be the same size"))
     end)
  /\ filter is_output_call
            (calls_made (plot_scatter_with_regression fit [] y_pred title save_path))
     = [].
Proof.
  unfold plot_scatter_with_regression, plt_scatter.
  destruct y_pred as [|p0 ps]; cbn [List.length Nat.eqb].
  - destruct (polyfit1 fit [] []) as [c|] eqn:Hfit.
    + destruct (polyfit1_defined fit _ _ _ Hfit) as [Hne _]. now contradiction Hne.
    + split; reflexivity.
  - split; reflexivity.
Qed.

Lemma fold_min_spec (rest : ndarray1) :
  forall x,
    let m := fold_left (fun m v => if Qle_bool m v then m else v) rest x in
    In m (x :: rest) /\ (m <= x)%Q /\ Forall (fun v => m <= v)%Q rest.
Proof.
  induction rest as [|v rest IH]; intros x; cbn [fold_left].
  - split; [now left|]. split; [apply Qle_refl | constructor].
  - destruct (Qle_bool x v) eqn:E.
    + apply Qle_bool_iff in E.
      destruct (IH x) as [Hin [Hle Hall]]. cbv zeta in *.
      split; [destruct Hin as [Hin|Hin]; [left; exact Hin | right; right; exact Hin]|].
      split; [exact Hle|]. constructor; [|exact Hall]. lra.
    + assert (Hvx : (v <= x)%Q).
      { destruct (Qlt_le_dec v x) as [H|H]; [lra|].
        apply Qle_bool_iff in H. congruence. }
      destruct (IH v) as [Hin [Hle Hall]]. cbv zeta in *.
      split; [right; exact Hin|].
      split; [lra|]. constructor; [exact Hle | exact Hall].
Qed.

Lemma fold_max_spec (rest : ndarray1) :
  forall x,
    let m := fold_left (fun m v => if Qle_bool v m then m else v) rest x in
    In m (x :: rest) /\ (x <= m)%Q /\ Forall (fun v => v <= m)%Q rest.
Proof.
  induction rest as [|v rest IH]; intros x; cbn [fold_left].
  - split; [now left|]. split; [apply Qle_refl | constructor].
  - destruct (Qle_bool v x) eqn:E.
    + apply Qle_bool_iff in E.
      destruct (IH x) as [Hin [Hle Hall]]. cbv zeta in *.
      split; [destruct Hin as [Hin|Hin]; [left; exact Hin | right; right; exact Hin]|].
      split; [exact Hle|]. constructor; [|exact Hall]. lra.
    + assert (Hvx : (x <= v)%Q).
      { destruct (Qlt_le_dec x v) as [H|H]; [lra|].
        apply Qle_bool_iff in H. congruence. }
      destruct (IH v) as [Hin [Hle Hall]]. cbv zeta in *.
      split; [right; exact Hin|].
      split; [lra|]. constructor; [exact Hle | exact Hall].
Qed.

Lemma py_min_spec (xs : ndarray1) :
  xs <> [] ->
  exists m, py_min xs = Ok m /\ In m xs /\ Forall (fun v => m <= v)%Q xs.
Proof.
  destruct xs as [|x rest]; [congruence|]. intros _.
  destruct (fold_min_spec rest x) as [Hin [Hle Hall]].
  eexists. split; [reflexivity|]. split; [exact Hin|]. now constructor.
Qed.

Lemma py_max_spec (xs : ndarray1) :
  xs <> [] ->
  exists m, py_max xs = Ok m /\ In m xs /\ Forall (fun v => v <= m)%Q xs.
Proof.
  destruct xs as [|x rest]; [congruence|]. intros _.
  destruct (fold_max_spec rest x) as [Hin [Hle Hall]].
  eexists. split; [reflexivity|]. split; [exact Hin|]. now constructor.
Qed.

Lemma calls_made_pbind {A B : Type} (log : list plot_call) (a : A) (k : A -> P B) :
  calls_made (pbind (log, Done a) k) = log ++ calls_made (k a).
Proof. unfold pbind, calls_made. now destruct (k a). Qed.

(** X23: the red line that [plot_scatter_with_regression] draws is the
    fitted line sampled at 100 evenly spaced ages: the abscissae run from
    the smallest to the largest value of [y_test], and every ordinate is
    [slope * x + intercept] for the coefficients [np.polyfit] returned. *)
Theorem plot_draws_the_fitted_line
        (fit : Fitting) (y_test y_pred : ndarray1) (title : string)
        (save_path : option string) (slope intercept : Q) :
  polyfit1 fit y_test y_pred = Some (slope, intercept) ->
  y_test <> [] ->
  exists lo hi x_range y_range label,
    In lo y_test /\ In hi y_test
    /\ Forall (fun v => lo <= v /\ v <= hi)%Q y_test
    /\ nth_error (calls_made (plot_scatter_with_regression fit y_test y_pred
                                                           title save_path)) 2
       = Some (Plt_plot x_range y_range "red" 2 label)
    /\ List.length x_range = 100%nat
    /\ List.length y_range = 100%nat
    /\ (exists x0, nth_error x_range 0 = Some x0 /\ x0 == lo)%Q
    /\ (exists x99, nth_error x_range 99 = Some x99 /\ x99 == hi)%Q
    /\ (forall i xi, nth_error x_range i = Some xi ->
          exists yi, nth_error y_range i = Some yi
                     /\ yi == slope * xi + intercept)%Q.
Proof.
  intros Hfit Hne.
  destruct (py_min_spec y_test Hne) as [lo [Hlo [Hlo_in Hlo_all]]].
  destruct (py_max_spec y_test Hne) as [hi [Hhi [Hhi_in Hhi_all]]].
  exists lo, hi, (linspace lo hi 100),
         (polyval [slope; intercept] (linspace lo hi 100)),
         ("Regression line: y=" ++ format_2f fit slope
          ++ "x + " ++ format_2f fit intercept)%string.
  split; [exact Hlo_in|]. split; [exact Hhi_in|]. split.
  { rewrite Forall_forall in *. intros v Hv. split; auto. }
  split.
  { destruct (polyfit1_defined fit _ _ _ Hfit) as [_ Hlen].
    apply Nat.eqb_eq in Hlen.
    unfold plot_scatter_with_regression, plt_scatter. rewrite Hlen, Hfit, Hlo, Hhi.
    unfold plt, library, builtin. rewrite !calls_made_pbind. reflexivity. }
  split; [apply linspace_length|].
  split; [unfold polyval; rewrite length_map; apply linspace_length|].
  split.
  { destruct (linspace_nth lo hi 100 0) as [e [He Heq]]; [lia|].
    exists e. split; [exact He|]. rewrite Heq. simpl inject_Z. ring. }
  split.
  { destruct (linspace_nth lo hi 100 99) as [e [He Heq]]; [lia|].
    exists e. split; [exact He|]. rewrite Heq. simpl. field. }
  intros i xi Hi. eexists. split.
  - unfold polyval. apply map_nth_error. exact Hi.
  - cbn [fold_left]. ring.
Qed.

Lemma plot_draws_the_fitted_line_witness :
  polyfit1 LeastSquares.fit [30; 50; 40]%Q [31; 49; 42]%Q = Some (9 # 10, 14 # 3)%Q
  /\ [30; 50; 40]%Q <> []
  /\ exists lo hi x_range y_range label,
       In lo [30; 50; 40]%Q /\ In hi [30; 50; 40]%Q
       /\ Forall (fun v => lo <= v /\ v <= hi)%Q [30; 50; 40]%Q
       /\ nth_error (calls_made (plot_scatter_with_regression LeastSquares.fit
                       [30; 50; 40]%Q [31; 49; 42]%Q "" None)) 2
          = Some (Plt_plot x_range y_range "red" 2 label)
       /\ List.length x_range = 100%nat
       /\ List.length y_range = 100%nat
       /\ (exists x0, nth_error x_range 0 = Some x0 /\ x0 == lo)%Q
       /\ (exists x99, nth_error x_range 99 = Some x99 /\ x99 == hi)%Q
       /\ (forall i xi, nth_error x_range i = Some xi ->
             exists yi, nth_error y_range i = Some yi
                        /\ yi == (9 # 10) * xi + (14 # 3))%Q.
Proof.
  split; [reflexivity|]. split; [discriminate|].
  apply (plot_draws_the_fitted_line LeastSquares.fit [30; 50; 40]%Q [31; 49; 42]%Q
           "" None (9 # 10)%Q (14 # 3)%Q);
    [reflexivity | discriminate].
Defined.

(** * Properties of the arithmetic on binary64 floats *)

(** ** The embedding on concrete inputs *)

Example rint_examples :
  map Binary64.rint [0.5; 1.5; 2.5; -0.5; 35000.5; 35001.5; 0.49999999999999994;
                     4503599627370497; infinity; 1e300]%float
  = [0; 2; 2; -0; 35000; 35002; 0; 4503599627370497; infinity; 1e300]%float.
Proof. vm_compute. reflexivity. Qed.

Example rint_agrees_with_addition :
  forallb (fun x => PrimFloat.Leibniz.eqb (Binary64.rint x)
                                          (Binary64.rint_by_addition x))
          (Binary64.rint_samples
             ++ [-0; 0; 4503599627370495.5; -4503599627370495.5;
                 9007199254740993; nan; infinity; neg_infinity]%float)
  = true
  /\ List.length Binary64.rint_samples = 4806%nat.
Proof. vm_compute. split; reflexivity. Qed.

Example np_round_examples :
  Binary64.np_round [35.0005; 35.00051; 20.0025; 2.5e-4; -1.23456; 1e306; nan]%float 3
  = [35; 35.001; 20.002; 0; -1.235; infinity; nan]%float.
Proof. vm_compute. reflexivity. Qed.

(** On the float [35.0005] the rounding of the exact value and the
    rounding numpy computes differ by a thousandth. *)
Example np_round_exact_and_binary64 :
  map (Qeq_bool (35001 # 1000)) (np_round [Binary64.exact 35.0005] 3) = [true]
  /\ Binary64.np_round [35.0005%float] 3 = [35%float].
Proof. vm_compute. split; reflexivity. Qed.

Example np_mean_examples :
  map (Binary64.np_mean Binary64.sequential)
      [[0.1; 0.1; 0.1]; [5e-324; 0]; []; [1; nan]]%float
  = [0.10000000000000002; 0; nan; nan]%float.
Proof. vm_compute. reflexivity. Qed.

(** *** Signs through rounding *)













(** *** Integers below [2^53] are floats *)

Lemma digits2_pos_size (p : positive) : digits2_pos p = Pos.size p.
Proof. induction p as [p IH|p IH|]; cbn; now rewrite ?IH. Qed.

Lemma pos_below_digits (p : positive) : (Zpos p < 2 ^ Zpos (digits2_pos p))%Z.
Proof.
  rewrite digits2_pos_size, <- Pos2Z.inj_pow.
  apply Pos2Z.pos_lt_pos, Pos.size_gt.
Qed.

Lemma digits_at_most (p : positive) (n : Z) :
  (0 <= n)%Z -> (Zpos p < 2 ^ n)%Z -> (Zpos (digits2_pos p) <= n)%Z.
Proof.
  intros Hn Hp. rewrite digits2_pos_size.
  pose proof (Pos.size_le p) as Hle.
  apply Pos2Z.pos_le_pos in Hle. rewrite Pos2Z.inj_pow in Hle.
  change (Zpos p~0) with (2 * Zpos p)%Z in Hle.
  destruct (Z_le_gt_dec (Zpos (Pos.size p)) n) as [H|H]; [exact H|].
  assert (H2 : (2 ^ (n + 1) <= 2 ^ Zpos (Pos.size p))%Z)
    by (apply Z.pow_le_mono_r; lia).
  rewrite Z.pow_add_r in H2 by lia. change (2 ^ 1)%Z with 2%Z in H2. lia.
Qed.

Lemma iter_xO_spec (p d : positive) :
  Zpos (Pos.iter xO p d) = (Zpos p * 2 ^ Zpos d)%Z
  /\ digits2_pos (Pos.iter xO p d) = (digits2_pos p + d)%positive.
Proof.
  apply Pos.iter_ind with
    (P := fun d a => Zpos a = (Zpos p * 2 ^ Zpos d)%Z
                     /\ digits2_pos a = (digits2_pos p + d)%positive).
  - split; [change (2 ^ 1)%Z with 2%Z; lia|].
    cbn [digits2_pos]. now rewrite Pos.add_1_r.
  - intros d' a [Ha Hd]. split.
    + rewrite Pos2Z.inj_succ, Z.pow_succ_r by lia.
      change (Zpos a~0) with (2 * Zpos a)%Z. rewrite Ha. ring.
    + cbn [digits2_pos]. now rewrite Hd, Pos.add_succ_r.
Qed.

Lemma binary_round_aux_canonical (sx : bool) (mz : positive) (ez : Z) :
  Zpos (digits2_pos mz) = 53%Z -> (-1074 <= ez <= 971)%Z ->
  binary_round_aux prec emax sx (Zpos mz) ez loc_Exact = S754_finite sx mz ez.
Proof.
  intros Hd He.
  assert (Hf : forall m, Zpos (digits2_pos m) = 53%Z ->
                 shr_fexp prec emax (Zpos m) ez loc_Exact
                 = ({| shr_m := Zpos m; shr_r := false; shr_s := false |}, ez)).
  { intros m Hm. unfold shr_fexp. cbn [Zdigits2]. rewrite Hm.
    replace (fexp prec emax (53 + ez) - ez)%Z with 0%Z; [reflexivity|].
    unfold fexp, emin, prec, emax. lia. }
  unfold binary_round_aux. rewrite (Hf mz Hd).
  cbn [shr_m loc_of_shr_record round_nearest_even]. rewrite (Hf mz Hd).
  cbn [shr_m].
  replace (ez <=? emax - prec)%Z with true; [reflexivity|].
  symmetry. apply Z.leb_le. unfold emax, prec. lia.
Qed.

(** The float of a positive integer below [2^53]: its mantissa shifted
    to 53 digits. *)
Lemma binary_normalize_small (p : positive) :
  (Zpos p < 2 ^ 53)%Z ->
  exists (m : positive) (d : Z),
    binary_normalize prec emax (Zpos p) 0 false = S754_finite false m (- d)
    /\ (0 <= d <= 52)%Z /\ Zpos m = (Zpos p * 2 ^ d)%Z.
Proof.
  intros Hp.
  pose proof (digits_at_most p 53 ltac:(lia) Hp) as Hd.
  cbn [binary_normalize]. unfold binary_round.
  replace (fexp prec emax (Zpos (digits2_pos p) + 0))
    with (Zpos (digits2_pos p) - 53)%Z
    by (unfold fexp, emin, prec, emax; lia).
  unfold shl_align.
  destruct (Zpos (digits2_pos p) - 53 - 0)%Z as [|q|q] eqn:E; [|lia|].
  - exists p, 0%Z. split; [|split; [lia | change (2 ^ 0)%Z with 1%Z; lia]].
    apply binary_round_aux_canonical; lia.
  - destruct (iter_xO_spec p q) as [Hv Hdig].
    exists (Pos.iter xO p q), (Zpos q). split; [|split; [lia | exact Hv]].
    replace (- Zpos q)%Z with (Zpos (digits2_pos p) - 53)%Z by lia.
    apply binary_round_aux_canonical; [rewrite Hdig; lia | lia].
Qed.

Lemma of_uint63_small (n : Z) :
  (0 < n < 2 ^ 53)%Z ->
  exists (m : positive) (d : Z),
    Prim2SF (of_uint63 (Uint63.of_Z n)) = S754_finite false m (- d)
    /\ (0 <= d <= 52)%Z /\ Zpos m = (n * 2 ^ d)%Z.
Proof.
  intros Hn. rewrite of_uint63_spec, Uint63.of_Z_spec.
  rewrite Z.mod_small by (unfold wB; cbn; lia).
  destruct n as [|p|p]; try lia.
  apply binary_normalize_small. lia.
Qed.

Lemma of_uint63_zero : Prim2SF (of_uint63 (Uint63.of_Z 0)) = S754_zero false.
Proof. reflexivity. Qed.

(** *** [rint] *)

Lemma half_even_nearest (m k : Z) :
  (0 < m)%Z -> (0 < k)%Z ->
  let n := Binary64.half_even m k in
  (0 <= n <= m / 2 ^ k + 1)%Z
  /\ (- 2 ^ k <= 2 * (n * 2 ^ k - m) <= 2 ^ k)%Z
  /\ ((2 * (n * 2 ^ k - m) = 2 ^ k \/ 2 * (n * 2 ^ k - m) = - 2 ^ k)%Z ->
      Z.even n = true).
Proof.
  intros Hm Hk. unfold Binary64.half_even.
  assert (HP : (0 < 2 ^ k)%Z) by (apply Z.pow_pos_nonneg; lia).
  pose proof (Z.div_mod m (2 ^ k) ltac:(lia)) as Hdm.
  pose proof (Z.mod_pos_bound m (2 ^ k) HP) as Hr.
  pose proof (Z.div_pos m (2 ^ k) ltac:(lia) HP) as Hq.
  set (P := (2 ^ k)%Z) in *. set (q := (m / P)%Z) in *. set (r := (m mod P)%Z) in *.
  assert (H1 : (q * P - m = - r)%Z) by lia.
  assert (H2 : ((q + 1) * P - m = P - r)%Z) by lia.
  destruct (Z.compare_spec (2 * r) P) as [C|C|C].
  - destruct (Z.even q) eqn:Ev; cbv zeta.
    + rewrite H1. split; [lia|]. split; [lia|]. intros _. exact Ev.
    + rewrite H2. split; [lia|]. split; [lia|]. intros _.
      rewrite Z.even_add, Ev. reflexivity.
  - cbv zeta. rewrite H1.
    split; [lia|]. split; [lia|]. intros [H|H]; lia.
  - cbv zeta. rewrite H2.
    split; [lia|]. split; [lia|]. intros [H|H]; lia.
Qed.

Lemma finite_bounds (x : float) (s : bool) (m : positive) (e : Z) :
  Prim2SF x = S754_finite s m e ->
  (Zpos m < 2 ^ 53)%Z /\ (-1074 <= e <= 971)%Z.
Proof.
  intros Hx. pose proof (Prim2SF_valid x) as Hv. rewrite Hx in Hv.
  cbn [SpecFloat.valid_binary] in Hv. unfold bounded, canonical_mantissa in Hv.
  apply andb_true_iff in Hv. destruct Hv as [Hc He].
  apply Z.eqb_eq in Hc. apply Z.leb_le in He.
  unfold fexp, emin, prec, emax in *.
  pose proof (pos_below_digits m) as Hm.
  assert (Hd : (Zpos (digits2_pos m) <= 53)%Z) by lia.
  split; [|lia].
  eapply Z.lt_le_trans; [exact Hm|]. apply Z.pow_le_mono_r; lia.
Qed.

Lemma exact_of_integer (s : bool) (n : Z) :
  (0 <= n < 2 ^ 53)%Z ->
  Binary64.exact (Binary64.of_integer s n) == inject_Z (if s then - n else n).
Proof.
  intros Hn. unfold Binary64.exact, Binary64.of_integer.
  assert (H0 : n = 0%Z \/ (0 < n < 2 ^ 53)%Z) by lia.
  destruct H0 as [-> | Hpos].
  - destruct s; [rewrite FloatAxioms.opp_spec|]; rewrite of_uint63_zero; reflexivity.
  - destruct (of_uint63_small n Hpos) as [m [d [Hsf [Hd Hm]]]].
    assert (Hval : forall s' : bool,
               (let z := if s' then Zneg m else Zpos m in
                if (0 <=? - d)%Z then inject_Z (z * 2 ^ (- d))
                else z # Pos.pow 2 (Z.to_pos (- - d)))
               == inject_Z (if s' then - n else n)).
    { intros s'. cbv zeta. destruct (0 <=? - d)%Z eqn:E.
      - apply Z.leb_le in E. assert (d = 0%Z) by lia. subst d.
        change (2 ^ 0)%Z with 1%Z in Hm. cbn [Z.opp]. change (2 ^ 0)%Z with 1%Z.
        destruct s'; unfold Qeq; cbn [Qnum Qden inject_Z]; lia.
      - apply Z.leb_gt in E. rewrite Z.opp_involutive.
        unfold Qeq. cbn [Qnum Qden inject_Z].
        rewrite Pos2Z.inj_pow, Z2Pos.id by lia.
        destruct s'; [change (Zneg m) with (- Zpos m)%Z|]; rewrite Hm; ring. }
    destruct s.
    + rewrite FloatAxioms.opp_spec, Hsf. cbn [SFopp negb]. exact (Hval true).
    + rewrite Hsf. exact (Hval false).
Qed.

(** [rint] of a finite float is the integer nearest to it, the even one
    of two nearest. *)
Lemma rint_nearest (y : float) :
  Binary64.isfinite y = true ->
  exists N : Z,
    Binary64.exact (Binary64.rint y) == inject_Z N
    /\ Qabs (inject_Z N - Binary64.exact y) <= 1 # 2
    /\ (Qabs (inject_Z N - Binary64.exact y) == 1 # 2 -> Z.even N = true).
Proof.
  unfold Binary64.isfinite. intros Hfin.
  destruct (Prim2SF y) as [s|s| |s m e] eqn:Hy; try discriminate.
  - exists 0%Z.
    assert (Hr : Binary64.rint y = y) by (unfold Binary64.rint; now rewrite Hy).
    rewrite Hr. unfold Binary64.exact. rewrite Hy.
    split; [reflexivity|]. split; [discriminate|]. intros H. discriminate H.
  - destruct (finite_bounds y s m e Hy) as [Hm He].
    destruct (0 <=? e)%Z eqn:E.
    + exists ((if s then Zneg m else Zpos m) * 2 ^ e)%Z.
      assert (Hr : Binary64.rint y = y)
        by (unfold Binary64.rint; now rewrite Hy, E).
      rewrite Hr. unfold Binary64.exact. rewrite Hy, E.
      split; [reflexivity|].
      assert (Hz : inject_Z ((if s then Zneg m else Zpos m) * 2 ^ e)
                   - inject_Z ((if s then Zneg m else Zpos m) * 2 ^ e) == 0) by ring.
      split.
      * rewrite Hz. discriminate.
      * rewrite Hz. intros H. discriminate H.
    + apply Z.leb_gt in E.
      destruct (half_even_nearest (Zpos m) (- e) ltac:(lia) ltac:(lia))
        as [Hn [Hnear Heven]].
      set (n := Binary64.half_even (Zpos m) (- e)) in *.
      assert (HP : (0 < 2 ^ (- e))%Z) by (apply Z.pow_pos_nonneg; lia).
      assert (Hq : (Zpos m / 2 ^ (- e) < 2 ^ 52)%Z).
      { apply Z.div_lt_upper_bound; [exact HP|].
        assert (2 <= 2 ^ (- e))%Z.
        { change 2%Z with (2 ^ 1)%Z at 1. apply Z.pow_le_mono_r; lia. }
        change (2 ^ 53)%Z with (2 * 2 ^ 52)%Z in Hm. nia. }
      assert (Hn53 : (0 <= n < 2 ^ 53)%Z)
        by (change (2 ^ 53)%Z with (2 * 2 ^ 52)%Z; lia).
      exists (if s then - n else n)%Z.
      assert (Hr : Binary64.rint y = Binary64.of_integer s n).
      { unfold Binary64.rint. rewrite Hy.
        replace (0 <=? e)%Z with false by (symmetry; apply Z.leb_gt; lia).
        reflexivity. }
      rewrite Hr. split; [apply exact_of_integer, Hn53|].
      assert (Hd : inject_Z (if s then - n else n) - Binary64.exact y
                   == (if s then - (n * 2 ^ (- e) - Zpos m) else n * 2 ^ (- e) - Zpos m)%Z
                      # Pos.pow 2 (Z.to_pos (- e))).
      { unfold Binary64.exact. rewrite Hy.
        replace (0 <=? e)%Z with false by (symmetry; apply Z.leb_gt; lia).
        unfold Qeq, Qminus, Qplus, Qopp. cbn [Qnum Qden inject_Z].
        rewrite !Pos2Z.inj_mul, !Pos2Z.inj_pow, !Z2Pos.id by lia.
        destruct s; [change (Zneg m) with (- Zpos m)%Z|]; ring. }
      assert (Hden : Zpos (Pos.pow 2 (Z.to_pos (- e))) = (2 ^ (- e))%Z)
        by (rewrite Pos2Z.inj_pow, Z2Pos.id by lia; reflexivity).
      split.
      * rewrite Hd. apply Qabs_Qle_condition.
        unfold Qle, Qopp. cbn [Qnum Qden]. rewrite Hden.
        destruct s; lia.
      * rewrite Hd. intros Htie.
        assert (Hc : (2 * (n * 2 ^ (- e) - Zpos m) = 2 ^ (- e)
                      \/ 2 * (n * 2 ^ (- e) - Zpos m) = - 2 ^ (- e))%Z).
        { revert Htie. unfold Qabs, Qeq. cbn [Qnum Qden]. rewrite Hden.
          destruct s; lia. }
        destruct s; [rewrite Z.even_opp|]; exact (Heven Hc).
Qed.

(** *** Sums and means of absolute errors *)


















(** ** [predict_ages] on binary64 *)

Lemma power_of_ten_3 : Binary64.power_of_ten 3 = 1000%float.
Proof. reflexivity. Qed.

Lemma binary64_predict_ages_inv
      (sk : Sklearn) (raw_output : model sk -> ndarray2 -> Binary64.ndarray1)
      (m : model sk) (s : scaler sk) (X : FloatFrame) (p : Binary64.ndarray1) :
  result_of (Binary64.predict_ages sk raw_output m s X) = Ok p ->
  Binary64.predict_ages sk raw_output m s X
  = ([Call_transform s X; Call_predict m (scaler_transform sk s X)], Ok p)
  /\ p = Binary64.np_round (raw_output m (scaler_transform sk s X)) 3.
Proof.
  unfold Binary64.predict_ages, Binary64.predict, transform, library_call.
  destruct (transform_error sk s X); [discriminate|].
  rewrite bind_ok.
  destruct (predict_error sk m (scaler_transform sk s X)); [discriminate|].
  cbn. intros H. inversion H. split; reflexivity.
Qed.

Lemma binary64_predict_ages_calls
      (sk : Sklearn) (raw_output : model sk -> ndarray2 -> Binary64.ndarray1)
      (m : model sk) (s : scaler sk) (X : FloatFrame) :
  calls_of (Binary64.predict_ages sk raw_output m s X) = [Call_transform s X]
  \/ calls_of (Binary64.predict_ages sk raw_output m s X)
     = [Call_transform s X; Call_predict m (scaler_transform sk s X)].
Proof.
  unfold Binary64.predict_ages, Binary64.predict, transform, library_call.
  destruct (transform_error sk s X); [now left|].
  rewrite bind_ok.
  destruct (predict_error sk m (scaler_transform sk s X)); now right.
Qed.

(** C7, as the code has it. A returned age is not always the multiple of
    a thousandth nearest to the model's raw output. On three rows whose
    raw outputs are the floats [35.0005], [20.0025] and [1e306],
    [predict_ages] returns [35.0], [20.002] and [inf]: the first is
    further than half a thousandth from its raw output, to which
    [35.001] is nearer, and the third is not a number of three decimals
    at all although its raw output is finite. *)
Theorem predict_ages_misses_nearest_thousandth :
  let raw_output :=
    Binary64.listed_output Baseline.sk [35.0005; 20.0025; 1e306]%float in
  Binary64.predict_ages Baseline.sk raw_output 0%Q (Demo.fitted [0; 0]%Q)
                        Demo.features3
  = ([@Call_transform Baseline.sk (Demo.fitted [0; 0]%Q) Demo.features3;
      @Call_predict Baseline.sk 0%Q [[1; 3]; [2; 5]; [4; 8]]%Q],
     Ok [35; 20.002; infinity]%float)
  /\ raw_output 0%Q [[1; 3]; [2; 5]; [4; 8]]%Q = [35.0005; 20.0025; 1e306]%float
  /\ 1 # 2000 < Qabs (Binary64.exact 35 - Binary64.exact 35.0005)
  /\ Qabs ((35001 # 1000) - Binary64.exact 35.0005) < 1 # 2000
  /\ 1 # 2000 < Qabs (Binary64.exact 20.002 - Binary64.exact 20.0025)
  /\ Binary64.isfinite 1e306 = true
  /\ Binary64.isfinite infinity = false.
Proof. vm_compute. repeat split; reflexivity. Qed.

(** C7, amended: [predict_ages] never fits anything: whether it returns
    or raises, no call it makes is a scaler fit, a search or an estimator
    fit. When it returns, it made two calls, [scaler.transform] on the
    features and [model.predict] on the transformed features, and every
    returned value is [rint(x * 1000) / 1000] in binary64 for the raw
    output [x] at the same position: when the product is finite, the
    quotient by [1000] of the integer nearest to the product, the even
    one of two nearest. It returns when neither call raises. *)
Theorem predict_ages_rounds_to_3_decimals
        (sk : Sklearn) (raw_output : model sk -> ndarray2 -> Binary64.ndarray1)
        (model : model sk) (scaler : scaler sk) (X : FloatFrame) :
  (forall c, In c (calls_of (Binary64.predict_ages sk raw_output model scaler X)) ->
             is_scaler_fit c = false /\ is_search c = false
             /\ is_estimator_fit c = false)
  /\ (forall y_pred : Binary64.ndarray1,
       result_of (Binary64.predict_ages sk raw_output model scaler X) = Ok y_pred ->
       let X_normalized := scaler_transform sk scaler X in
       let predictions := raw_output model X_normalized in
       calls_of (Binary64.predict_ages sk raw_output model scaler X)
       = [Call_transform scaler X; Call_predict model X_normalized]
       /\ List.length y_pred = List.length predictions
       /\ forall (i : nat) (x : float),
            nth_error predictions i = Some x ->
            nth_error y_pred i = Some (Binary64.rint (x * 1000) / 1000)%float
            /\ (Binary64.isfinite (x * 1000) = true ->
                exists N : Z,
                  Binary64.exact (Binary64.rint (x * 1000)) == inject_Z N
                  /\ Qabs (inject_Z N - Binary64.exact (x * 1000)) <= 1 # 2
                  /\ (Qabs (inject_Z N - Binary64.exact (x * 1000)) == 1 # 2 ->
                      Z.even N = true)))
  /\ (transform_error sk scaler X = None ->
      predict_error sk model (scaler_transform sk scaler X) = None ->
      result_of (Binary64.predict_ages sk raw_output model scaler X)
      = Ok (Binary64.np_round (raw_output model (scaler_transform sk scaler X)) 3)).
Proof.
  split; [|split].
  - intros c Hc.
    destruct (binary64_predict_ages_calls sk raw_output model scaler X) as [E|E];
      rewrite E in Hc; cbn in Hc; intuition (subst; reflexivity).
  - intros y_pred H. cbv zeta.
    destruct (binary64_predict_ages_inv sk raw_output model scaler X y_pred H)
      as [Hrun ->].
    split; [now rewrite Hrun|].
    unfold Binary64.np_round. split; [apply length_map|].
    intros i x Hx. split.
    + rewrite (map_nth_error _ _ _ Hx). reflexivity.
    + apply rint_nearest.
  - intros H1 H2.
    unfold Binary64.predict_ages, Binary64.predict, transform, library_call.
    rewrite H1, bind_ok, H2. reflexivity.
Qed.

Lemma predict_ages_rounds_to_3_decimals_witness :
  let raw_output :=
    Binary64.listed_output Baseline.sk [41.2345; 59.9995; 63.75]%float in
  result_of (Binary64.predict_ages Baseline.sk raw_output 0%Q
                                   (Demo.fitted [0; 0]%Q) Demo.features3)
  = Ok [41.234; 60; 63.75]%float
  /\ calls_of (Binary64.predict_ages Baseline.sk raw_output 0%Q
                                     (Demo.fitted [0; 0]%Q) Demo.features3)
     = [@Call_transform Baseline.sk (Demo.fitted [0; 0]%Q) Demo.features3;
        @Call_predict Baseline.sk 0%Q [[1; 3]; [2; 5]; [4; 8]]%Q].
Proof.
  cbv zeta.
  refine (let H := _ in
          conj H (proj1 (proj1 (proj2 (predict_ages_rounds_to_3_decimals
                                         Baseline.sk _ 0%Q (Demo.fitted [0; 0]%Q)
                                         Demo.features3)) _ H))).
  vm_compute. reflexivity.
Defined.

(** ** [calculate_mae] on binary64 *)




Example calculate_mae_binary64_example :
  Binary64.calculate_mae Binary64.sequential
    [[36.5; 58; 47.25]; [35; 60.5; 47.25]; [35.1; 60.6; 47.35]]%float
    [35; 60.5; 47.25]%float
  = Ok [1.3333333333333333; 0; 0.10000000000000142]%float.
Proof. vm_compute. reflexivity. Qed.
